(** * slack-utils: the Field-style (Slack) and Card-style (Teams) message builders

    A shallow embedding of [Slack] (attachment/field messages) and [Teams]
    (card/section messages) and of their delivery pipelines, with the
    properties stated about them.

    Conventions of the embedding.
    - A JavaScript string is a Rocq [string]; one [ascii] stands for one code
      unit, so the model is exact on text whose code units are below 256.
    - [undefined] is [None] of an [option]; a property that may be absent is an
      [option] field.
    - A JavaScript number is modelled by an integer ([Z]); fractions, [NaN] and
      the infinities are floating-point matters and stay outside the model.
    - Values handed to [stats] are finite trees ([JSValue]).
    - Collaborators that live outside the repository (configuration, package
      metadata, host and process data, clock, HTTP client, [JSON.parse],
      [encodeURIComponent], lodash's [startCase]) are the fields of [Env].
    - Effects are explicit: logger calls and HTTP requests are recorded in a
      [World]; [Error] objects live in a [Heap] and the builders hold
      references to them, so that a write to an object is seen through every
      reference.
    - Arrays of attachments, sections and buttons are lists, held by value,
      with one exception: the attachment by which Field-style [send] carries
      the buttons holds the builder's own array [this._actions], onto which
      [button] pushes in place.  The builder records which attachments share
      that array ([Slack._carriers]) and [button] writes through to them.
      Objects that a caller passes in are taken to be the caller's no longer.
    - The text of a number ([String(n)], which [JSON.stringify] prints as
      well) is the collaborator [Number_toString].
    - An [async] method that throws is a promise that rejects: [Throws] stands
      for both. *)

From Stdlib Require Import ZArith Lia Bool Ascii String List DecimalString.
From stdpp Require Import base option list strings gmap.

Local Open Scope string_scope.
Local Open Scope list_scope.
Set Warnings "-register-all".

(** ** JavaScript built-ins used by the two classes *)

Module JS.

Definition nl : ascii := ascii_of_nat 10.

(** Truthiness of a string, and of a string that may be [undefined]. *)
Definition truthy (s : string) : bool :=
  match s with EmptyString => false | String _ _ => true end.

Definition truthy_opt (s : option string) : bool :=
  match s with None => false | Some s => truthy s end.

(** [a || b] on strings. *)
Definition or_else (a b : string) : string := if truthy a then a else b.

(** A template literal prints [undefined] as the word. *)
Definition template (s : option string) : string := default "undefined" s.

Fixpoint repeat_string (s : string) (n : nat) : string :=
  match n with
  | O => EmptyString
  | S n' => s +:+ repeat_string s n'
  end.

(** [String.prototype.includes] for a one-character needle. *)
Fixpoint includes_char (c : ascii) (s : string) : bool :=
  match s with
  | EmptyString => false
  | String d s' => if Ascii.eqb c d then true else includes_char c s'
  end.

(** [s.replace(/c/g, by)]: every occurrence of the character. *)
Fixpoint replace_all_char (c : ascii) (by_ : string) (s : string) : string :=
  match s with
  | EmptyString => EmptyString
  | String d s' =>
      if Ascii.eqb c d then by_ +:+ replace_all_char c by_ s'
      else String d (replace_all_char c by_ s')
  end.

(** [s.replace('c', by)] with a string pattern: the first occurrence only. *)
Fixpoint replace_first_char (c : ascii) (by_ : string) (s : string) : string :=
  match s with
  | EmptyString => EmptyString
  | String d s' =>
      if Ascii.eqb c d then by_ +:+ s'
      else String d (replace_first_char c by_ s')
  end.

(** White space and line terminators removed by [trim], below code 256. *)
Definition is_space (c : ascii) : bool :=
  let n := nat_of_ascii c in
  (Nat.leb 9 n && Nat.leb n 13) || Nat.eqb n 32 || Nat.eqb n 160.

Fixpoint trimStart (s : string) : string :=
  match s with
  | EmptyString => EmptyString
  | String c s' => if is_space c then trimStart s' else s
  end.

Fixpoint trimEnd (s : string) : string :=
  match s with
  | EmptyString => EmptyString
  | String c s' =>
      match trimEnd s' with
      | EmptyString => if is_space c then EmptyString else String c EmptyString
      | r => String c r
      end
  end.

Definition trim (s : string) : string := trimEnd (trimStart s).

(** [s.replace(re, f)] for the global pattern of a group holding any number
    of newlines: the pattern matches, at every position, the
    longest run of newlines there (possibly empty).  After a non-empty match
    the next match is the empty one at the position where the run ended.
    [run] is the run read so far. *)
Definition emit (f : string -> string) (run : string) : string :=
  match run with
  | EmptyString => f EmptyString
  | _ => f run +:+ f EmptyString
  end.

Fixpoint replace_newline_runs (f : string -> string) (run s : string) : string :=
  match s with
  | EmptyString => emit f run
  | String c s' =>
      if Ascii.eqb c nl then replace_newline_runs f (run +:+ String c EmptyString) s'
      else emit f run +:+ String c (replace_newline_runs f EmptyString s')
  end.

(** The values [stats] receives. *)
Inductive JSValue :=
| VUndefined
| VNull
| VBoolean (b : bool)
| VNumber (n : Z)
| VString (s : string)
| VArray (items : list JSValue)
| VObject (props : list (string * JSValue)).

Inductive JSType := TUndefined | TObject | TBoolean | TNumber | TString.

Definition typeof (v : JSValue) : JSType :=
  match v with
  | VUndefined => TUndefined
  | VNull | VArray _ | VObject _ => TObject
  | VBoolean _ => TBoolean
  | VNumber _ => TNumber
  | VString _ => TString
  end.

Definition String_boolean (b : bool) : string := if b then "true" else "false".

Definition hex_digit (n : nat) : ascii :=
  ascii_of_nat (if Nat.ltb n 10 then 48 + n else 87 + n).

(** The quoting of [JSON.stringify] for one code unit. *)
Definition JSON_quote_char (c : ascii) : string :=
  let n := nat_of_ascii c in
  if Nat.eqb n 34 then String (ascii_of_nat 92) (String (ascii_of_nat 34) EmptyString)
  else if Nat.eqb n 92 then "\\"
  else if Nat.eqb n 8 then "\b"
  else if Nat.eqb n 12 then "\f"
  else if Nat.eqb n 10 then "\n"
  else if Nat.eqb n 13 then "\r"
  else if Nat.eqb n 9 then "\t"
  else if Nat.ltb n 32 then
    "\u00" +:+ String (hex_digit (n / 16)) (String (hex_digit (n mod 16)) EmptyString)
  else String c EmptyString.

Fixpoint JSON_quote_body (s : string) : string :=
  match s with
  | EmptyString => EmptyString
  | String c s' => JSON_quote_char c +:+ JSON_quote_body s'
  end.

Definition dquote : string := String (ascii_of_nat 34) EmptyString.

Definition JSON_quote (s : string) : string := dquote +:+ JSON_quote_body s +:+ dquote.

Fixpoint join (sep : string) (l : list string) : string :=
  match l with
  | [] => EmptyString
  | [x] => x
  | x :: l' => x +:+ sep +:+ join sep l'
  end.

(** [JSON.stringify(v)]; [None] is the [undefined] it returns for
    [undefined].  An [undefined] array item prints as [null], an [undefined]
    property is left out.  [num] is the text of a number, the one that
    [String] gives it. *)
Fixpoint JSON_stringify (num : Z -> string) (v : JSValue) : option string :=
  match v with
  | VUndefined => None
  | VNull => Some "null"
  | VBoolean b => Some (String_boolean b)
  | VNumber n => Some (num n)
  | VString s => Some (JSON_quote s)
  | VArray items =>
      Some ("[" +:+ join "," (List.map (fun x => default "null" (JSON_stringify num x)) items) +:+ "]")
  | VObject props =>
      let fix members (ps : list (string * JSValue)) : list string :=
        match ps with
        | [] => []
        | (k, x) :: ps' =>
            match JSON_stringify num x with
            | Some t => (JSON_quote k +:+ ":" +:+ t) :: members ps'
            | None => members ps'
            end
        end in
      Some ("{" +:+ join "," (members props) +:+ "}")
  end.

(** Truthiness of a value. *)
Definition truthy_value (v : JSValue) : bool :=
  match v with
  | VUndefined | VNull => false
  | VBoolean b => b
  | VNumber n => negb (Z.eqb n 0)
  | VString s => truthy s
  | VArray _ | VObject _ => true
  end.

(** The binding of [k] among the properties; a later binding of the same
    name replaces an earlier one. *)
Fixpoint lookup_prop (k : string) (props : list (string * JSValue)) : option JSValue :=
  match props with
  | [] => None
  | (k', x) :: rest =>
      match lookup_prop k rest with
      | Some y => Some y
      | None => if String.eqb k k' then Some x else None
      end
  end.

(** [v.k]: reading a property of [null] or [undefined] throws a [TypeError],
    a primitive or an array has no such named property. *)
Definition get_prop (T : Type) (throw : string -> T) (ret : JSValue -> T)
    (v : JSValue) (k : string) : T :=
  match v with
  | VUndefined => throw ("Cannot read properties of undefined (reading '" +:+ k +:+ "')")
  | VNull => throw ("Cannot read properties of null (reading '" +:+ k +:+ "')")
  | VObject props => ret (default VUndefined (lookup_prop k props))
  | _ => ret VUndefined
  end.

(** [String(x)] of a string that may be [undefined]. *)
Definition String_opt (s : option string) : string := default "undefined" s.

End JS.

(** ** Wire data of the two providers *)

(** Field-style attachment field, [{title, value, short}]. *)
Record Field := {
  field_title : string;
  field_value : string;
  field_short : bool;
}.

(** Field-style button, [{type, text, url, style?}]. *)
Record action := {
  act_type : string;
  act_text : string;
  act_url : string;
  act_style : option string;
}.

(** Field-style attachment; an absent property is [None].  The same record is
    the [Partial<attach>] that [stats] takes as [extraProps]. *)
Record attach := {
  att_title : option string;
  att_pretext : option string;
  att_text : option string;
  att_color : option string;
  att_fallback : option string;
  att_fields : option (list Field);
  att_actions : option (list action);
  att_footer : option string;
  att_ts : option (Z * Z);  (* numerator and denominator: [Date.now() / 1000] *)
}.

Definition empty_attach : attach :=
  {| att_title := None; att_pretext := None; att_text := None; att_color := None;
     att_fallback := None; att_fields := None; att_actions := None;
     att_footer := None; att_ts := None |}.

(** A property value of a Field-style message object.  [PJson p] is the
    string [JSON.stringify(p)]. *)
Inductive PropVal :=
| PValue (v : JS.JSValue)
| PAttachments (l : list attach)
| PJson (p : PropVal).

Definition PStr (s : string) : PropVal := PValue (JS.VString s).

Definition POpt (s : option string) : PropVal :=
  match s with Some s => PStr s | None => PValue JS.VUndefined end.

(** A Field-style message or [extraProps] object: property name to value. *)
Abbreviation SlackObject := (gmap string PropVal).

(** [Object.assign(target, source)]: the source's properties win. *)
Definition Object_assign (target source : SlackObject) : SlackObject := source ∪ target.

(** Card-style fact, section, button and card. *)
Record Fact := {
  fact_name : string;
  fact_value : string;
}.

Record CardSection := {
  sec_title : option string;
  sec_text : option string;
  sec_facts : list Fact;
  sec_activityTitle : option string;
  sec_activitySubtitle : option string;
}.

Record Target := {
  tgt_os : string;
  tgt_uri : string;
}.

Record CardAction := {
  ca_type : string;  (* the property "@type" *)
  ca_name : string;
  ca_targets : list Target;
}.

Record MessageCard := {
  mc_summary : option string;
  mc_themeColor : string;
  mc_title : option string;
  mc_text : option string;
  mc_sections : option (list CardSection);
  mc_potentialAction : list CardAction;
}.

(** ** Collaborators and effects *)

(** A thrown value. *)
Record Exn := {
  exn_name : string;
  exn_message : string;
}.

(** An [Error] object; the builders keep references ([loc]) to such objects. *)
Record JSError := {
  err_name : string;
  err_message : string;
  err_stack : string;
}.

Abbreviation loc := positive.
Abbreviation Heap := (gmap positive JSError).

Inductive Payload :=
| SlackPayload (m : SlackObject)
| TeamsPayload (m : MessageCard).

(** What the HTTP client is asked to do: a form POST (the message's properties
    and the token as form fields) or a JSON POST. *)
Inductive Request :=
| PostForm (url : string) (fields : SlackObject)
| PostJson (url : string) (body : Payload).

(** What [fetch] gives back: a response, or a rejection. *)
Inductive FetchOutcome :=
| Response (statusCode : Z) (body : string)
| Rejection (err : Exn).

Inductive LogArg :=
| ArgMessage (p : Payload)
| ArgStatus (statusCode : option Z)
| ArgBody (body : option string)
| ArgParsed (v : JS.JSValue)
| ArgError (e : Exn).

Inductive LogRecord :=
| SlackRecord (m : SlackObject)
| TeamsRecord (label : string) (m : MessageCard).

(** One call of the logger: [info(record, text)] or [error(args...)]. *)
Inductive LogEntry :=
| LogInfo (record : LogRecord) (text : string)
| LogError (args : list LogArg).

Record PackageBugs := {
  bugs_url : option string;
}.

Record PackageInfo := {
  pkg_name : string;
  pkg_version : string;
  pkg_bugs : option PackageBugs;
}.

(** [cfg('slack', {token: '', webhook: '', channel: ''})]. *)
Record SlackConf := {
  conf_token : string;
  conf_webhook : string;
  conf_channel : string;
}.

Record Env := {
  getPackageInfo : PackageInfo;
  os_hostname : string;
  cfg_getEnv : string;
  cfg_isTest : bool;
  (** [Slack.logCondition] and [Teams.logCondition] when overwritten. *)
  slack_logCondition : option bool;
  teams_logCondition : option bool;
  process_env_name : option string;
  process_env_pm_id : option string;
  (** [Date.now()] and [new Date().toLocaleString()]; one reading of the
      clock serves a whole run. *)
  Date_now : Z;
  Date_toLocaleString : string;
  getSlackConf : SlackConf;
  (** [cfg('teams.' + path)]. *)
  cfg_teams : string -> option string;
  (** The static [Slack._username] and [Teams._defaultChannel]. *)
  slack_username : option string;
  teams_defaultChannel : option string;
  encodeURIComponent : string -> string;
  startCase : string -> string;
  (** [String(n)] for the number whose value is the integer [n]: the decimal
      numeral while [n] is below 1e21 in magnitude, an exponent form from
      there on. *)
  Number_toString : Z -> string;
  (** [JSON.parse]: the value, or the [SyntaxError] it throws. *)
  JSON_parse : string -> JS.JSValue + Exn;
  (** [connect.fetch()], given the requests made before this one. *)
  fetch : list Request -> Request -> FetchOutcome;
}.

(** The observable effects of a run: logger calls and HTTP requests, oldest
    first. *)
Record World := {
  logs : list LogEntry;
  requests : list Request;
}.

Definition empty_world : World := {| logs := []; requests := [] |}.

(** How a call (or the promise of an [async] call) ends. *)
Inductive Outcome (A : Type) :=
| Returns (a : A)
| Throws (e : Exn).
Arguments Returns {A} a.
Arguments Throws {A} e.

Definition logger (entry : LogEntry) (w : World) : World :=
  {| logs := logs w ++ [entry]; requests := requests w |}.

(** Performs the request: records it and returns what the client answers. *)
Definition connect_fetch (env : Env) (r : Request) (w : World) : FetchOutcome * World :=
  (fetch env (requests w) r, {| logs := logs w; requests := requests w ++ [r] |}).

(** [x] or [[x]]: the argument of [attachment] and [action]. *)
Inductive OneOrMany (A : Type) :=
| One (a : A)
| Many (l : list A).
Arguments One {A} a.
Arguments Many {A} l.

(** [if (!Array.isArray(x)) x = [x]]. *)
Definition as_array {A : Type} (x : OneOrMany A) : list A :=
  match x with One a => [a] | Many l => l end.

(** ** The Field-style provider *)

Module Slack.

(** The state of an instance. *)
Record t := {
  _attachments : list attach;
  _errors : list loc;
  _actions : list action;
  _extraProps : SlackObject;
  _text : option string;
  _channel : option string;
  (** The positions, in [_attachments], of the attachments whose [actions]
      is the array [this._actions] itself and not a copy of it: the ones
      that [send] added since [this._actions] was last bound to a new
      array.  [button] pushes onto that array in place, so these attachments
      see the new button. *)
  _carriers : list nat;
}.

Definition getDefaultAttachments (env : Env) : list attach :=
  let name := pkg_name (getPackageInfo env) in
  let version := pkg_version (getPackageInfo env) in
  let fields := [
    {| field_title := "Hostname"; field_value := os_hostname env; field_short := true |};
    {| field_title := "Node Environment"; field_value := cfg_getEnv env; field_short := true |}
  ] in
  let footerSuffix :=
    if JS.truthy_opt (process_env_name env) || JS.truthy_opt (process_env_pm_id env)
    then "| " +:+ JS.template (process_env_name env) +:+ " " +:+
         (if JS.truthy_opt (process_env_pm_id env)
          then JS.template (process_env_pm_id env) else "-1")
    else EmptyString in
  [ {| att_title := Some "App Info:"; att_pretext := None; att_text := None;
       att_color := None; att_fallback := None;
       att_fields := Some fields; att_actions := None;
       att_footer := Some (name +:+ " v" +:+ version +:+ " " +:+ footerSuffix);
       att_ts := Some (Date_now env, 1000%Z) |} ].

Definition logCondition (env : Env) : bool :=
  default (cfg_isTest env) (slack_logCondition env).

(** The static getter [username]. *)
Definition username_static (env : Env) : string :=
  if JS.truthy_opt (slack_username env) then JS.template (slack_username env)
  else "slackbot".

Definition text (this : t) (text : string) : t :=
  {| _attachments := _attachments this; _errors := _errors this;
     _actions := _actions this; _extraProps := _extraProps this;
     _text := Some text; _channel := _channel this;
     _carriers := _carriers this |}.

Definition channel (this : t) (channelName : string) : t :=
  {| _attachments := _attachments this; _errors := _errors this;
     _actions := _actions this; _extraProps := _extraProps this;
     _text := _text this; _channel := Some channelName;
     _carriers := _carriers this |}.

Definition set_attachments (this : t) (l : list attach) : t :=
  {| _attachments := l; _errors := _errors this;
     _actions := _actions this; _extraProps := _extraProps this;
     _text := _text this; _channel := _channel this;
     _carriers := _carriers this |}.

Definition set_actions (this : t) (l : list action) : t :=
  {| _attachments := _attachments this; _errors := _errors this;
     _actions := l; _extraProps := _extraProps this;
     _text := _text this; _channel := _channel this;
     _carriers := _carriers this |}.

Definition set_extraProps (this : t) (m : SlackObject) : t :=
  {| _attachments := _attachments this; _errors := _errors this;
     _actions := _actions this; _extraProps := m;
     _text := _text this; _channel := _channel this;
     _carriers := _carriers this |}.

Definition set_carriers (this : t) (l : list nat) : t :=
  {| _attachments := _attachments this; _errors := _errors this;
     _actions := _actions this; _extraProps := _extraProps this;
     _text := _text this; _channel := _channel this;
     _carriers := l |}.

Definition push_error (this : t) (err : loc) : t :=
  {| _attachments := _attachments this; _errors := _errors this ++ [err];
     _actions := _actions this; _extraProps := _extraProps this;
     _text := _text this; _channel := _channel this;
     _carriers := _carriers this |}.

(** [new Slack({text, channel})]. *)
Definition new (text_ channel_ : option string) : t :=
  let this := {| _attachments := []; _errors := []; _actions := [];
                 _extraProps := ∅; _text := None; _channel := None;
                 _carriers := [] |} in
  let this := match channel_ with
              | Some c => if JS.truthy c then channel this c else this
              | None => this
              end in
  match text_ with
  | Some x => if JS.truthy x then text this x else this
  | None => this
  end.

(** The two dummies. *)
Definition color (this : t) : t := this.
Definition title (this : t) : t := this.

Definition set_fallback (a : attach) (fallback : string) : attach :=
  {| att_title := att_title a; att_pretext := att_pretext a; att_text := att_text a;
     att_color := att_color a; att_fallback := Some fallback;
     att_fields := att_fields a; att_actions := att_actions a;
     att_footer := att_footer a; att_ts := att_ts a |}.

Definition summary (this : t) (fallback : string) : t :=
  match _attachments this with
  | [] => this
  | a :: rest => set_attachments this (set_fallback a fallback :: rest)
  end.

Definition username (this : t) (name : string) : t :=
  set_extraProps this (<["username" := PStr name]> (_extraProps this)).

Definition attachment (this : t) (attachments : OneOrMany attach) : t :=
  set_attachments this (_attachments this ++ as_array attachments).

(** [action(actions)]: [concat] makes a new array, which no attachment
    holds. *)
Definition action_ (this : t) (actions : OneOrMany action) : t :=
  set_carriers (set_actions this (_actions this ++ as_array actions)) [].

Record FormatOpts := {
  fmt_code : bool;
  fmt_bold : bool;
  fmt_italics : bool;
  fmt_strikethrough : bool;
}.

(** [format(txt, opts)]; without [opts] the text is made bold. *)
Definition format (txt : string) (opts : option FormatOpts) : string :=
  let o := default {| fmt_code := false; fmt_bold := true;
                      fmt_italics := false; fmt_strikethrough := false |} opts in
  let txt := if fmt_code o then "`" +:+ txt +:+ "`" else txt in
  let txt := if fmt_bold o then "*" +:+ txt +:+ "*" else txt in
  let txt := if fmt_italics o then "_" +:+ txt +:+ "_" else txt in
  if fmt_strikethrough o then "~" +:+ txt +:+ "~" else txt.

Definition formatUrl (url text_ : string) : string :=
  "<" +:+ url +:+ "|" +:+ text_ +:+ ">".

(** One pass over the text; each of the three characters becomes its entity. *)
Fixpoint escapeText (text_ : string) : string :=
  match text_ with
  | EmptyString => EmptyString
  | String c rest =>
      (if Ascii.eqb c "<" then "&lt;"
       else if Ascii.eqb c ">" then "&gt;"
       else if Ascii.eqb c "&" then "&amp;"
       else String c EmptyString) +:+ escapeText rest
  end.

(** The body of the issue report, shared by both providers' [error]. *)
Definition issue_url (env : Env) (bugsUrl : option string) (label title_ : string)
    (e : JSError) : string :=
  JS.template bugsUrl +:+ "/new?title=" +:+
  encodeURIComponent env (label +:+ JS.or_else title_ (err_message e)) +:+
  "&body=" +:+
  encodeURIComponent env
    ("Error encountered on " +:+ Date_toLocaleString env +:+ String JS.nl EmptyString +:+
     "App version: v" +:+ pkg_version (getPackageInfo env) +:+
     String JS.nl (String JS.nl EmptyString) +:+
     "Full Stack: " +:+ err_stack e) +:+
  "&labels=bug".

(** [bugs && bugs.url]. *)
Definition bugsUrl_of (env : Env) : option string :=
  match pkg_bugs (getPackageInfo env) with
  | Some b => bugs_url b
  | None => None
  end.

(** [error(err, {label, title})]; [err] refers to an [Error] object of the
    heap ([None]: the reference dangles, which no program state does). *)
Definition error (env : Env) (h : Heap) (this : t) (err : loc)
    (label title_ : option string) : option t :=
  match h !! err with
  | None => None
  | Some e =>
      let label := default EmptyString label in
      let title_ := default EmptyString title_ in
      let this := push_error this err in
      let bugsUrl := bugsUrl_of env in
      let pretext := escapeText (format "Error" None +:+ ": " +:+ err_message e) in
      let attachment_ :=
        {| att_title := None; att_pretext := Some pretext;
           att_text := Some (escapeText (err_stack e));
           att_color := Some "danger"; att_fallback := Some pretext;
           att_fields := None;
           att_actions :=
             if JS.truthy_opt bugsUrl then
               let label := "[" +:+ JS.or_else label (err_name e) +:+ "] " in
               Some [ {| act_type := "button";
                         act_text := "Create an issue for this error?";
                         act_url := issue_url env bugsUrl label title_ e;
                         act_style := Some "danger" |} ]
             else None;
           att_footer := None; att_ts := None |} in
      Some (attachment this (One attachment_))
  end.

(** [Object.assign(defaults, extraProps)] on attachments. *)
Definition assign_attach (target source : attach) : attach :=
  let pick {A} (f : attach -> option A) :=
    match f source with Some x => Some x | None => f target end in
  {| att_title := pick att_title; att_pretext := pick att_pretext;
     att_text := pick att_text; att_color := pick att_color;
     att_fallback := pick att_fallback; att_fields := pick att_fields;
     att_actions := pick att_actions; att_footer := pick att_footer;
     att_ts := pick att_ts |}.

Definition set_fields (a : attach) (fs : list Field) : attach :=
  {| att_title := att_title a; att_pretext := att_pretext a; att_text := att_text a;
     att_color := att_color a; att_fallback := att_fallback a;
     att_fields := Some fs; att_actions := att_actions a;
     att_footer := att_footer a; att_ts := att_ts a |}.

(** The string a [stats] value becomes, before trimming: [String(value)]
    when [typeof value] is boolean, number or undefined, the value itself
    when it is a string, [String(JSON.stringify(value))] otherwise. *)
Definition stringify_value (env : Env) (value : JS.JSValue) : string :=
  match value with
  | JS.VBoolean b => JS.String_boolean b
  | JS.VNumber n => Number_toString env n
  | JS.VUndefined => "undefined"
  | JS.VString s => s
  | JS.VNull | JS.VArray _ | JS.VObject _ =>
      JS.String_opt (JS.JSON_stringify (Number_toString env) value)
  end.

Definition is_undefined (v : JS.JSValue) : bool :=
  match v with JS.VUndefined => true | _ => false end.

(** One turn of the [forEach] over [Object.keys(keyValues)]. *)
Definition stats_step (env : Env) (ignoreUndefined : bool)
    (fields : list Field) (entry : string * JS.JSValue) : list Field :=
  let '(key, value) := entry in
  if ignoreUndefined && is_undefined value then fields
  else
    let value := JS.trim (stringify_value env value) in
    fields ++ [ {| field_title := startCase env (JS.trim key);
                   field_value := value;
                   field_short := Nat.leb (String.length value) 30
                                  && Nat.leb (String.length key) 30 |} ].

(** [stats(title, keyValues, {extraProps, ignoreUndefined})]; [keyValues]
    lists the properties in the order of [Object.keys]. *)
Definition stats (env : Env) (this : t) (title_ : string)
    (keyValues : list (string * JS.JSValue))
    (extraProps : option attach) (ignoreUndefined : option bool) : t :=
  let extraProps := default empty_attach extraProps in
  let ignoreUndefined := default true ignoreUndefined in
  let attachment_ :=
    assign_attach
      {| att_title := Some title_; att_pretext := None; att_text := None;
         att_color := Some "#439FE0"; att_fallback := Some title_;
         att_fields := Some []; att_actions := None;
         att_footer := None; att_ts := None |}
      extraProps in
  let fields :=
    fold_left (stats_step env ignoreUndefined) keyValues
              (default [] (att_fields attachment_)) in
  attachment this (One (set_fields attachment_ fields)).

Definition icon (this : t) (linkOrEmoji : string) : t :=
  match linkOrEmoji with
  | String c _ =>
      if Ascii.eqb c ":" then
        set_extraProps this (<["icon_emoji" := PStr linkOrEmoji]> (_extraProps this))
      else set_extraProps this (<["icon_url" := PStr linkOrEmoji]> (_extraProps this))
  | EmptyString =>
      set_extraProps this (<["icon_url" := PStr linkOrEmoji]> (_extraProps this))
  end.

Definition set_att_actions (a : attach) (l : list action) : attach :=
  {| att_title := att_title a; att_pretext := att_pretext a; att_text := att_text a;
     att_color := att_color a; att_fallback := att_fallback a;
     att_fields := att_fields a; att_actions := Some l;
     att_footer := att_footer a; att_ts := att_ts a |}.

(** What a write to the array [this._actions] shows in the attachments: the
    ones at [carriers] hold that array. *)
Definition share_actions (carriers : list nat) (actions : list action)
    (attachments : list attach) : list attach :=
  imap (fun i a => if existsb (Nat.eqb i) carriers then set_att_actions a actions else a)
       attachments.

(** [button(text, url, {style})]: [push] writes to the array in place. *)
Definition button (this : t) (text_ url : string) (style : option string) : t :=
  let style := default EmptyString style in
  let button_ := {| act_type := "button"; act_text := text_; act_url := url;
                    act_style := if JS.truthy style then Some style else None |} in
  let actions := _actions this ++ [button_] in
  set_attachments (set_actions this actions)
    (share_actions (_carriers this) actions (_attachments this)).

(** Truthiness of a property value; the JSON text of a value is a
    non-empty string. *)
Definition truthy_prop (p : PropVal) : bool :=
  match p with
  | PValue v => JS.truthy_value v
  | PAttachments _ => true
  | PJson _ => true
  end.

Definition TypeError (msg : string) : Exn :=
  {| exn_name := "TypeError"; exn_message := msg |}.

(** [_postWithToken(message)]: the whole body is one [try]; [res] is still
    [undefined] in the handler when [fetch] itself failed. *)
Definition _postWithToken (env : Env) (message : SlackObject) (w : World)
    : Outcome unit * World :=
  let message :=
    match message !! "attachments" with
    | Some a => if truthy_prop a then <["attachments" := PJson a]> message else message
    | None => message
    end in
  let request :=
    PostForm "https://slack.com/api/chat.postMessage"
             (<["token" := PStr (conf_token (getSlackConf env))]> message) in
  let '(res, w) := connect_fetch env request w in
  let catch (statusCode : option Z) (body : option string) (err : Exn) :=
    (Returns tt,
     logger (LogError [ArgMessage (SlackPayload message); ArgStatus statusCode;
                       ArgBody body; ArgError err]) w) in
  match res with
  | Rejection err => catch None None err
  | Response statusCode body =>
      match JSON_parse env body with
      | inr err => catch (Some statusCode) (Some body) err
      | inl parsedBody =>
          JS.get_prop _
            (fun msg => catch (Some statusCode) (Some body) (TypeError msg))
            (fun error_ =>
               if JS.truthy_value error_ then
                 (Returns tt,
                  logger (LogError [ArgMessage (SlackPayload message);
                                    ArgParsed parsedBody]) w)
               else (Returns tt, w))
            parsedBody "error"
      end
  end.

Definition _postWithWebhook (env : Env) (message : SlackObject) (w : World)
    : Outcome unit * World :=
  let request := PostJson (conf_webhook (getSlackConf env)) (SlackPayload message) in
  let '(res, w) := connect_fetch env request w in
  match res with
  | Rejection err =>
      (Returns tt,
       logger (LogError [ArgMessage (SlackPayload message); ArgStatus None;
                         ArgBody None; ArgError err]) w)
  | Response statusCode body =>
      if negb (Z.eqb statusCode 200) then
        (Returns tt,
         logger (LogError [ArgMessage (SlackPayload message);
                           ArgStatus (Some statusCode); ArgBody (Some body)]) w)
      else (Returns tt, w)
  end.

Record PostOpts := {
  po_channel : option string;
  po_attachments : option (list attach);
  po_extraProps : option SlackObject;
  po_defaultAttachment : option bool;
}.

(** The [message] object that [postMessage] assembles. *)
Definition message_of (env : Env) (text_ : option string) (opts : PostOpts)
    : SlackObject :=
  let channel_ := default (conf_channel (getSlackConf env)) (po_channel opts) in
  let attachments := default [] (po_attachments opts) in
  let extraProps := default ∅ (po_extraProps opts) in
  let defaultAttachment := default true (po_defaultAttachment opts) in
  let finalAttachments :=
    if defaultAttachment then attachments ++ getDefaultAttachments env
    else attachments in
  Object_assign
    (<["text" := POpt text_]>
      (<["channel" := PStr channel_]>
        (<["username" := PStr (username_static env)]>
          (<["attachments" := PAttachments finalAttachments]> ∅))))
    extraProps.

Definition postMessage (env : Env) (text_ : option string) (opts : PostOpts)
    (w : World) : Outcome unit * World :=
  let message := message_of env text_ opts in
  if logCondition env then
    (Returns tt,
     logger (LogInfo (SlackRecord (Object_assign {["label" := PStr "Slack"]} message))
                     "Slack message") w)
  else if JS.truthy (conf_webhook (getSlackConf env)) then _postWithWebhook env message w
  else _postWithToken env message w.

Record SendOpts := {
  so_defaultAttachment : option bool;
  so_extraProps : option SlackObject;
}.

(** [send({defaultAttachment, extraProps})]: the outcome of the promise, the
    instance afterwards, and the effects.  The attachment that carries the
    buttons holds the array [this._actions] itself. *)
Definition send (env : Env) (this : t) (opts : SendOpts) (w : World)
    : Outcome unit * t * World :=
  let defaultAttachment := default true (so_defaultAttachment opts) in
  let extraProps := default ∅ (so_extraProps opts) in
  let this :=
    match _actions this with
    | [] => this
    | _ :: _ =>
        set_carriers
          (attachment this
             (One {| att_title := Some EmptyString; att_pretext := None; att_text := None;
                     att_color := None; att_fallback := None; att_fields := None;
                     att_actions := Some (_actions this);
                     att_footer := None; att_ts := None |}))
          (_carriers this ++ [length (_attachments this)])
    end in
  let extraProps := Object_assign (Object_assign ∅ (_extraProps this)) extraProps in
  let '(r, w) :=
    postMessage env (_text this)
      {| po_channel := _channel this; po_attachments := Some (_attachments this);
         po_extraProps := Some extraProps;
         po_defaultAttachment := Some defaultAttachment |} w in
  (r, this, w).

End Slack.

(** ** The Card-style provider *)

Module Teams.

Definition DEFAULT_CHANNEL : string := "default".
Definition DEFAULT_WEBHOOK_NAME : string := "default".

(** The state of an instance. *)
Record t := {
  _themeColor : string;
  _sections : list CardSection;
  _errors : list loc;
  _actions : list CardAction;
  _channel : option string;
  _summary : option string;
  _title : option string;
  _text : option string;
}.

(** The static getter [defaultChannel]. *)
Definition defaultChannel (env : Env) : string :=
  if JS.truthy_opt (teams_defaultChannel env) then JS.template (teams_defaultChannel env)
  else DEFAULT_CHANNEL.

(** [getTeamsWebhookUrl(channel)], [channel] being [<channelName>[.<webhookName>]]. *)
Definition getTeamsWebhookUrl (env : Env) (channel_ : option string) : option string :=
  let channel_ := default (defaultChannel env) channel_ in
  let channel_ :=
    if negb (JS.includes_char "." channel_) then channel_ +:+ "." +:+ DEFAULT_WEBHOOK_NAME
    else channel_ in
  cfg_teams env channel_.

Definition getDefaultAttachments (env : Env) : list CardSection :=
  let name := pkg_name (getPackageInfo env) in
  let version := pkg_version (getPackageInfo env) in
  let facts := [
    {| fact_name := "Hostname"; fact_value := os_hostname env |};
    {| fact_name := "Node Environment"; fact_value := cfg_getEnv env |}
  ] in
  let footerSuffix :=
    if JS.truthy_opt (process_env_name env) || JS.truthy_opt (process_env_pm_id env)
    then "| " +:+ JS.template (process_env_name env) +:+ " " +:+
         (if JS.truthy_opt (process_env_pm_id env)
          then JS.template (process_env_pm_id env) else "-1")
    else EmptyString in
  [ {| sec_title := None; sec_text := None; sec_facts := facts;
       sec_activityTitle := Some "App Info:";
       sec_activitySubtitle :=
         Some (name +:+ " v" +:+ version +:+ " " +:+ footerSuffix +:+ " | " +:+
               Date_toLocaleString env) |} ].

Definition logCondition (env : Env) : bool :=
  default (cfg_isTest env) (teams_logCondition env).

(** The callback of [escapeText]: what a matched run of newlines becomes. *)
Definition escape_run (lineBreaks : string) : string :=
  match String.length lineBreaks with
  | O => lineBreaks
  | S n =>
      JS.repeat_string ("   " +:+ String JS.nl "&nbsp;") n +:+ "   " +:+ String JS.nl EmptyString
  end.

(** [escapeText(text)]: a newline becomes three spaces and the newline. *)
Definition escapeText (text_ : string) : string :=
  if negb (JS.truthy text_) then text_
  else JS.replace_newline_runs escape_run EmptyString text_.

(** The two dummies. *)
Definition username (this : t) : t := this.
Definition icon (this : t) : t := this.

Definition channel (this : t) (channel_ : string) : t :=
  {| _themeColor := _themeColor this; _sections := _sections this;
     _errors := _errors this; _actions := _actions this;
     _channel := Some channel_; _summary := _summary this;
     _title := _title this; _text := _text this |}.

Definition summary (this : t) (summary_ : string) : t :=
  {| _themeColor := _themeColor this; _sections := _sections this;
     _errors := _errors this; _actions := _actions this;
     _channel := _channel this; _summary := Some summary_;
     _title := _title this; _text := _text this |}.

Definition color (this : t) (color_ : string) : t :=
  {| _themeColor := JS.replace_first_char "#" EmptyString color_;
     _sections := _sections this;
     _errors := _errors this; _actions := _actions this;
     _channel := _channel this; _summary := _summary this;
     _title := _title this; _text := _text this |}.

Definition title (this : t) (title_ : string) : t :=
  {| _themeColor := _themeColor this; _sections := _sections this;
     _errors := _errors this; _actions := _actions this;
     _channel := _channel this; _summary := _summary this;
     _title := Some title_; _text := _text this |}.

Definition text (this : t) (text_ : string) : t :=
  {| _themeColor := _themeColor this; _sections := _sections this;
     _errors := _errors this; _actions := _actions this;
     _channel := _channel this; _summary := _summary this;
     _title := _title this; _text := Some (escapeText text_) |}.

Definition set_sections (this : t) (l : list CardSection) : t :=
  {| _themeColor := _themeColor this; _sections := l;
     _errors := _errors this; _actions := _actions this;
     _channel := _channel this; _summary := _summary this;
     _title := _title this; _text := _text this |}.

Definition set_actions (this : t) (l : list CardAction) : t :=
  {| _themeColor := _themeColor this; _sections := _sections this;
     _errors := _errors this; _actions := l;
     _channel := _channel this; _summary := _summary this;
     _title := _title this; _text := _text this |}.

Definition push_error (this : t) (err : loc) : t :=
  {| _themeColor := _themeColor this; _sections := _sections this;
     _errors := _errors this ++ [err]; _actions := _actions this;
     _channel := _channel this; _summary := _summary this;
     _title := _title this; _text := _text this |}.

(** [new Teams({text, channel})]. *)
Definition new (text_ channel_ : option string) : t :=
  let this := {| _themeColor := "439FE0"; _sections := []; _errors := [];
                 _actions := []; _channel := None; _summary := None;
                 _title := None; _text := None |} in
  let this := match channel_ with
              | Some c => if JS.truthy c then channel this c else this
              | None => this
              end in
  match text_ with
  | Some x => if JS.truthy x then text this x else this
  | None => this
  end.

(** [if (section.text) section.text = Teams.escapeText(section.text)]. *)
Definition escape_section (section : CardSection) : CardSection :=
  if JS.truthy_opt (sec_text section) then
    {| sec_title := sec_title section;
       sec_text := option_map escapeText (sec_text section);
       sec_facts := sec_facts section;
       sec_activityTitle := sec_activityTitle section;
       sec_activitySubtitle := sec_activitySubtitle section |}
  else section.

Definition attachment (this : t) (sections : OneOrMany CardSection) : t :=
  let sections := List.map escape_section (as_array sections) in
  set_sections this (_sections this ++ sections).

Definition action_ (this : t) (actions : OneOrMany CardAction) : t :=
  set_actions this (_actions this ++ as_array actions).

Definition button (this : t) (name uri : string) : t :=
  let button_ := {| ca_type := "OpenUri"; ca_name := name;
                    ca_targets := [ {| tgt_os := "default"; tgt_uri := uri |} ] |} in
  action_ this (One button_).

(** [bugs && bugs.url]. *)
Definition bugsUrl_of (env : Env) : option string :=
  match pkg_bugs (getPackageInfo env) with
  | Some b => bugs_url b
  | None => None
  end.

(** The address given to the issue button. *)
Definition issue_url (env : Env) (bugsUrl : option string) (label title_ : string)
    (e : JSError) : string :=
  JS.template bugsUrl +:+ "/new?title=" +:+
  encodeURIComponent env (label +:+ JS.or_else title_ (err_message e)) +:+
  "&body=" +:+
  encodeURIComponent env
    ("Error encountered on " +:+ Date_toLocaleString env +:+ String JS.nl EmptyString +:+
     "App version: v" +:+ pkg_version (getPackageInfo env) +:+
     String JS.nl (String JS.nl EmptyString) +:+
     "Full Stack: " +:+ err_stack e) +:+
  "&labels=bug".

Definition set_stack (e : JSError) (stack : string) : JSError :=
  {| err_name := err_name e; err_message := err_message e; err_stack := stack |}.

(** [error(err, {label, title})]: the instance and the heap afterwards; [err]
    refers to an [Error] object of the heap, which the call writes to
    ([None]: the reference dangles, which no program state does). *)
Definition error (env : Env) (h : Heap) (this : t) (err : loc)
    (label title_ : option string) : option (t * Heap) :=
  match h !! err with
  | None => None
  | Some e =>
      let label := default EmptyString label in
      let title_ := default EmptyString title_ in
      let this := push_error this err in
      let bugsUrl := bugsUrl_of env in
      let e' := set_stack e (JS.replace_all_char " " "&nbsp;" (err_stack e)) in
      let h := <[err := e']> h in
      let label := "[" +:+ JS.or_else label (err_name e') +:+ "] " in
      let this := color this "F00" in
      let this := title this ("Error: " +:+ err_message e') in
      let this := text this (err_stack e') in
      let this := button this "Create an issue for this error?"
                         (issue_url env bugsUrl label title_ e') in
      Some (this, h)
  end.

(** The string a [stats] value becomes, before trimming: [String(value)]
    when [typeof value] is boolean, number or undefined, the value itself
    when it is a string, [String(JSON.stringify(value))] otherwise. *)
Definition stringify_value (env : Env) (value : JS.JSValue) : string :=
  match value with
  | JS.VBoolean b => JS.String_boolean b
  | JS.VNumber n => Number_toString env n
  | JS.VUndefined => "undefined"
  | JS.VString s => s
  | JS.VNull | JS.VArray _ | JS.VObject _ =>
      JS.String_opt (JS.JSON_stringify (Number_toString env) value)
  end.

Definition is_undefined (v : JS.JSValue) : bool :=
  match v with JS.VUndefined => true | _ => false end.

(** One turn of the [forEach] over [Object.keys(keyValues)]. *)
Definition stats_step (env : Env) (ignoreUndefined : bool)
    (facts : list Fact) (entry : string * JS.JSValue) : list Fact :=
  let '(key, value) := entry in
  if ignoreUndefined && is_undefined value then facts
  else
    let value := escapeText (JS.trim (stringify_value env value)) in
    facts ++ [ {| fact_name := startCase env (JS.trim key); fact_value := value |} ].

Definition stats (env : Env) (this : t) (title_ : string)
    (keyValues : list (string * JS.JSValue)) (ignoreUndefined : option bool) : t :=
  let ignoreUndefined := default true ignoreUndefined in
  let facts := fold_left (stats_step env ignoreUndefined) keyValues [] in
  attachment this
    (One {| sec_title := Some title_; sec_text := None; sec_facts := facts;
            sec_activityTitle := None; sec_activitySubtitle := None |}).

(** Modelled from the spec: [_postMessage(webhookUrl, message)] is inherited
    from the [Notify] base class, whose file is not among the sources.  The
    spec has the Card-style transport send the whole payload as a JSON body
    in one HTTP POST to the webhook, and has every failure of that call (a
    status outside 200-299, an exception of the transport) logged with the
    message, the response status and body and the error, and swallowed. *)
Definition _postMessage (env : Env) (webhookUrl : string) (message : MessageCard)
    (w : World) : Outcome unit * World :=
  let request := PostJson webhookUrl (TeamsPayload message) in
  let '(res, w) := connect_fetch env request w in
  match res with
  | Rejection err =>
      (Returns tt,
       logger (LogError [ArgMessage (TeamsPayload message); ArgStatus None;
                         ArgBody None; ArgError err]) w)
  | Response statusCode body =>
      if Z.leb 200 statusCode && Z.ltb statusCode 300 then (Returns tt, w)
      else
        (Returns tt,
         logger (LogError [ArgMessage (TeamsPayload message);
                           ArgStatus (Some statusCode); ArgBody (Some body)]) w)
  end.

Definition set_card_sections (message : MessageCard) (l : list CardSection) : MessageCard :=
  {| mc_summary := mc_summary message; mc_themeColor := mc_themeColor message;
     mc_title := mc_title message; mc_text := mc_text message;
     mc_sections := Some l; mc_potentialAction := mc_potentialAction message |}.

(** The card that [postMessage] hands on: a copy of [message] with the
    sections completed. *)
Definition message_of (env : Env) (message : MessageCard)
    (defaultAttachment : option bool) : MessageCard :=
  let defaultAttachment := default true defaultAttachment in
  let message := set_card_sections message (default [] (mc_sections message)) in
  if defaultAttachment then
    set_card_sections message (default [] (mc_sections message) ++ getDefaultAttachments env)
  else message.

Definition Error (msg : string) : Exn := {| exn_name := "Error"; exn_message := msg |}.

Definition postMessage (env : Env) (message : MessageCard)
    (channel_ : option string) (defaultAttachment : option bool) (w : World)
    : Outcome unit * World :=
  let message := message_of env message defaultAttachment in
  if logCondition env then
    (Returns tt, logger (LogInfo (TeamsRecord "Teams" message) "Teams message") w)
  else
    match getTeamsWebhookUrl env channel_ with
    | Some webhookUrl =>
        if JS.truthy webhookUrl then _postMessage env webhookUrl message w
        else (Throws (Error ("No webhook url for channel: " +:+ JS.dquote +:+
                             JS.template channel_ +:+ JS.dquote)), w)
    | None =>
        (Throws (Error ("No webhook url for channel: " +:+ JS.dquote +:+
                        JS.template channel_ +:+ JS.dquote)), w)
    end.

(** The [message] that [send] builds from the instance. *)
Definition card_of (this : t) : MessageCard :=
  {| mc_summary := _summary this; mc_themeColor := _themeColor this;
     mc_title := _title this; mc_text := _text this;
     mc_sections := Some (_sections this);
     mc_potentialAction := _actions this |}.

(** [send({defaultAttachment})]: the outcome of the promise, the instance
    afterwards, and the effects. *)
Definition send (env : Env) (this : t) (defaultAttachment : option bool) (w : World)
    : Outcome unit * t * World :=
  let defaultAttachment := default true defaultAttachment in
  if negb (JS.truthy_opt (_summary this)) && negb (JS.truthy_opt (_text this)) then
    (Throws (Error "Either summary or text is required"), this, w)
  else
    let message := card_of this in
    let '(r, w) := postMessage env message (_channel this) (Some defaultAttachment) w in
    (r, this, w).

Definition bold (txt : string) : string := "**" +:+ txt +:+ "**".

Definition italics (txt : string) : string := "*" +:+ txt +:+ "*".

Definition strikethrough (txt : string) : string := "~~" +:+ txt +:+ "~~".

Definition formatUrl (url text_ : string) : string :=
  "[" +:+ text_ +:+ "](" +:+ url +:+ ")".

(** [setWebhook(webhookUrl, channel)], that is
    [cfg.set('teams.' + channel, webhookUrl)] with the channel completed as in
    [getTeamsWebhookUrl]: the environment in which [cfg] reads the new value
    back at that path. *)
Definition setWebhook (env : Env) (webhookUrl : string) (channel_ : option string) : Env :=
  let channel_ := default (defaultChannel env) channel_ in
  let channel_ :=
    if negb (JS.includes_char "." channel_) then channel_ +:+ "." +:+ DEFAULT_WEBHOOK_NAME
    else channel_ in
  {| getPackageInfo := getPackageInfo env;
     os_hostname := os_hostname env;
     cfg_getEnv := cfg_getEnv env;
     cfg_isTest := cfg_isTest env;
     slack_logCondition := slack_logCondition env;
     teams_logCondition := teams_logCondition env;
     process_env_name := process_env_name env;
     process_env_pm_id := process_env_pm_id env;
     Date_now := Date_now env;
     Date_toLocaleString := Date_toLocaleString env;
     getSlackConf := getSlackConf env;
     cfg_teams := fun path => if String.eqb path channel_ then Some webhookUrl
                              else cfg_teams env path;
     slack_username := slack_username env;
     teams_defaultChannel := teams_defaultChannel env;
     encodeURIComponent := encodeURIComponent env;
     startCase := startCase env;
     Number_toString := Number_toString env;
     JSON_parse := JSON_parse env;
     fetch := fetch env |}.

End Teams.

(** ** A concrete environment

    Stand-ins for the collaborators, used where a statement is evaluated on
    concrete input.  [startCase] follows lodash on keys whose words are ASCII
    letters, a word ending at a character that is not a letter or before a
    capital that follows a small letter; [encodeURIComponent] is the
    percent-encoding of the text's UTF-8 bytes; [JSON_parse] reads the few
    bodies the examples use. *)

Module Sample.

Definition is_upper (c : ascii) : bool :=
  let n := nat_of_ascii c in Nat.leb 65 n && Nat.leb n 90.

Definition is_lower (c : ascii) : bool :=
  let n := nat_of_ascii c in Nat.leb 97 n && Nat.leb n 122.

Definition upperFirst (w : string) : string :=
  match w with
  | EmptyString => EmptyString
  | String c rest =>
      String (if is_lower c then ascii_of_nat (nat_of_ascii c - 32) else c) rest
  end.

Definition flush (cur : string) : list string :=
  match cur with EmptyString => [] | _ => [cur] end.

(** The words of a key; [cur] is the word being read and [after_lower] tells
    whether its last character is a small letter. *)
Fixpoint words (s cur : string) (after_lower : bool) : list string :=
  match s with
  | EmptyString => flush cur
  | String c rest =>
      if is_upper c then
        if after_lower then flush cur ++ words rest (String c EmptyString) false
        else words rest (cur +:+ String c EmptyString) false
      else if is_lower c then words rest (cur +:+ String c EmptyString) true
      else flush cur ++ words rest EmptyString false
  end.

Definition startCase_words (s : string) : string :=
  JS.join " " (List.map upperFirst (words s EmptyString false)).

Definition unreserved (c : ascii) : bool :=
  let n := nat_of_ascii c in
  is_upper c || is_lower c || (Nat.leb 48 n && Nat.leb n 57)
  || existsb (Nat.eqb n) [45; 95; 46; 33; 126; 42; 39; 40; 41].

Definition HEX (n : nat) : ascii :=
  ascii_of_nat (if Nat.ltb n 10 then 48 + n else 55 + n).

Definition percent (byte : nat) : string :=
  String "%" (String (HEX (byte / 16)) (String (HEX (byte mod 16)) EmptyString)).

Fixpoint percent_encode (s : string) : string :=
  match s with
  | EmptyString => EmptyString
  | String c rest =>
      let n := nat_of_ascii c in
      (if unreserved c then String c EmptyString
       else if Nat.ltb n 128 then percent n
       else percent (192 + n / 64) +:+ percent (128 + n mod 64))
      +:+ percent_encode rest
  end.

(** The decimal numeral of an integer: what [String] prints for an integer
    below 1e21 in magnitude. *)
Definition decimal (n : Z) : string := NilZero.string_of_int (Z.to_int n).

Definition SyntaxError : Exn :=
  {| exn_name := "SyntaxError"; exn_message := "Unexpected token in JSON" |}.

Definition error_body : string :=
  "{" +:+ JS.JSON_quote "ok" +:+ ":false," +:+ JS.JSON_quote "error" +:+ ":" +:+
  JS.JSON_quote "channel_not_found" +:+ "}".

Definition parse_known (s : string) : JS.JSValue + Exn :=
  if String.eqb s "{}" then inl (JS.VObject [])
  else if String.eqb s "null" then inl JS.VNull
  else if String.eqb s error_body then
    inl (JS.VObject [("ok", JS.VBoolean false); ("error", JS.VString "channel_not_found")])
  else inr SyntaxError.

(** An environment: test mode or not, the Field-style webhook, the
    Card-style webhooks, the bug tracker, and what the HTTP client answers. *)
Definition env (isTest : bool) (webhook : string) (teams : string -> option string)
    (bugs : option PackageBugs) (answer : FetchOutcome) : Env :=
  {| getPackageInfo := {| pkg_name := "app"; pkg_version := "1.0.0"; pkg_bugs := bugs |};
     os_hostname := "host-1";
     cfg_getEnv := if isTest then "test" else "production";
     cfg_isTest := isTest;
     slack_logCondition := None;
     teams_logCondition := None;
     process_env_name := None;
     process_env_pm_id := None;
     Date_now := 1700000000000%Z;
     Date_toLocaleString := "11/14/2023, 10:13:20 PM";
     getSlackConf := {| conf_token := "xoxb-token"; conf_webhook := webhook;
                        conf_channel := "general" |};
     cfg_teams := teams;
     slack_username := None;
     teams_defaultChannel := None;
     encodeURIComponent := percent_encode;
     startCase := startCase_words;
     Number_toString := decimal;
     JSON_parse := parse_known;
     fetch := fun _ _ => answer |}.

Definition no_teams : string -> option string := fun _ => None.

Definition ops_teams : string -> option string :=
  fun path => if String.eqb path "ops.default" then Some "https://teams.example/hook"
              else None.

Definition tracker : option PackageBugs :=
  Some {| bugs_url := Some "https://tracker.example/issues" |}.

Definition boom : JSError :=
  {| err_name := "TypeError"; err_message := "x is not a function";
     err_stack := "TypeError: x is not a function" +:+ String JS.nl EmptyString +:+
                  "    at run (app.js:3:5)" |}.

Definition heap : Heap := {[ 1%positive := boom ]}.

End Sample.

(** ** Facts about strings *)

Section StringFacts.

Lemma str_app_cons (c : ascii) (s t : string) : String c s +:+ t = String c (s +:+ t).
Proof. reflexivity. Qed.

Lemma str_app_nil_l (t : string) : EmptyString +:+ t = t.
Proof. reflexivity. Qed.

Lemma str_app_nil_r (s : string) : s +:+ EmptyString = s.
Proof.
  induction s as [|c s IH]; [reflexivity |].
  now rewrite str_app_cons, IH.
Qed.

Lemma str_app_assoc (a b c : string) : (a +:+ b) +:+ c = a +:+ (b +:+ c).
Proof.
  induction a as [|x a IH]; [reflexivity |].
  now rewrite !str_app_cons, IH.
Qed.

Lemma str_length_app (a b : string) :
  String.length (a +:+ b) = String.length a + String.length b.
Proof.
  induction a as [|x a IH]; [reflexivity |].
  rewrite str_app_cons. simpl. now rewrite IH.
Qed.

End StringFacts.

(** ** Card-style [escapeText] *)

Module EscapeText.

(** Three spaces and a newline. *)
Definition break_seq : string := "   " +:+ String JS.nl EmptyString.

(** The entity of the non-breaking space. *)
Definition marker : string := "&nbsp;".

(** [n] breaks, each with the marker before it. *)
Fixpoint marked_breaks (n : nat) : string :=
  match n with
  | O => EmptyString
  | S m => marker +:+ break_seq +:+ marked_breaks m
  end.

(** [N] breaks, the marker before each but the first. *)
Definition breaks (N : nat) : string :=
  match N with
  | O => EmptyString
  | S m => break_seq +:+ marked_breaks m
  end.

Definition newlines (N : nat) : string := JS.repeat_string (String JS.nl EmptyString) N.

Definition starts_with_newline (s : string) : bool :=
  match s with
  | EmptyString => false
  | String c _ => Ascii.eqb c JS.nl
  end.

Fixpoint ends_with_newline (s : string) : bool :=
  match s with
  | EmptyString => false
  | String c EmptyString => Ascii.eqb c JS.nl
  | String _ rest => ends_with_newline rest
  end.

Lemma newlines_S N : newlines (S N) = String JS.nl (newlines N).
Proof. reflexivity. Qed.

Lemma length_newlines N : String.length (newlines N) = N.
Proof.
  induction N as [|N IH]; [reflexivity |].
  rewrite newlines_S. simpl. now rewrite IH.
Qed.

Lemma newlines_snoc k : newlines k +:+ String JS.nl EmptyString = newlines (S k).
Proof.
  induction k as [|k IH]; [reflexivity |].
  rewrite (newlines_S k), str_app_cons, IH. reflexivity.
Qed.

Lemma repeat_shift (a b : string) n :
  JS.repeat_string (a +:+ b) n +:+ a = a +:+ JS.repeat_string (b +:+ a) n.
Proof.
  induction n as [|n IH]; simpl.
  - now rewrite str_app_nil_r.
  - rewrite !str_app_assoc, IH. reflexivity.
Qed.

Lemma marked_breaks_repeat n :
  marked_breaks n = JS.repeat_string (marker +:+ break_seq) n.
Proof.
  induction n as [|n IH]; simpl; [reflexivity |].
  rewrite IH. reflexivity.
Qed.

(** What the callback makes of a run of [N] newlines. *)
Lemma escape_run_newlines N : Teams.escape_run (newlines N) = breaks N.
Proof.
  unfold Teams.escape_run. rewrite length_newlines.
  destruct N as [|N]; [reflexivity |].
  unfold breaks. rewrite marked_breaks_repeat.
  change ("   " +:+ String JS.nl "&nbsp;") with (break_seq +:+ marker).
  change ("   " +:+ String JS.nl EmptyString) with break_seq.
  apply repeat_shift.
Qed.

Abbreviation scan := (JS.replace_newline_runs Teams.escape_run).

Lemma emit_newlines N : JS.emit Teams.escape_run (newlines N) = breaks N.
Proof.
  destruct N as [|N]; [reflexivity |].
  change (JS.emit Teams.escape_run (newlines (S N)))
    with (Teams.escape_run (newlines (S N)) +:+ Teams.escape_run EmptyString).
  rewrite escape_run_newlines. apply str_app_nil_r.
Qed.

Lemma escapeText_scan (s : string) : Teams.escapeText s = scan EmptyString s.
Proof. destruct s; reflexivity. Qed.

Lemma scan_newlines k N v :
  scan (newlines k) (newlines N +:+ v) = scan (newlines (k + N)) v.
Proof.
  revert k. induction N as [|N IH]; intros k.
  - now rewrite Nat.add_0_r.
  - rewrite newlines_S, str_app_cons.
    change (scan (newlines k) (String JS.nl (newlines N +:+ v)))
      with (scan (newlines k +:+ String JS.nl EmptyString) (newlines N +:+ v)).
    rewrite newlines_snoc, (IH (S k)).
    now rewrite Nat.add_succ_r.
Qed.

Lemma scan_after_run N v :
  starts_with_newline v = false ->
  scan (newlines N) v = breaks N +:+ scan EmptyString v.
Proof.
  intros Hv. destruct v as [|c v].
  - change (scan (newlines N) EmptyString) with (JS.emit Teams.escape_run (newlines N)).
    rewrite emit_newlines.
    change (scan EmptyString EmptyString) with EmptyString.
    now rewrite str_app_nil_r.
  - cbn [starts_with_newline] in Hv.
    cbn [JS.replace_newline_runs]. rewrite Hv, emit_newlines.
    reflexivity.
Qed.

Lemma scan_app run u w :
  u <> EmptyString -> ends_with_newline u = false ->
  scan run (u +:+ w) = scan run u +:+ scan EmptyString w.
Proof.
  revert run. induction u as [|c u IH]; intros run Hne Hend; [congruence |].
  destruct u as [|d u].
  - cbn [ends_with_newline] in Hend. rewrite str_app_cons, str_app_nil_l.
    cbn [JS.replace_newline_runs]. rewrite Hend.
    rewrite str_app_assoc, str_app_cons. reflexivity.
  - assert (Hend' : ends_with_newline (String d u) = false) by exact Hend.
    rewrite (str_app_cons c).
    remember (String d u) as u' eqn:Eu'.
    cbn [JS.replace_newline_runs].
    destruct (Ascii.eqb c JS.nl).
    + apply IH; [subst u'; discriminate | exact Hend'].
    + rewrite IH by (subst u'; discriminate || exact Hend').
      rewrite str_app_assoc, str_app_cons. reflexivity.
Qed.

Lemma scan_no_newline s :
  JS.includes_char JS.nl s = false -> scan EmptyString s = s.
Proof.
  induction s as [|c s IH]; intros H; [reflexivity |].
  cbn [JS.includes_char] in H. cbn [JS.replace_newline_runs].
  rewrite Ascii.eqb_sym.
  destruct (Ascii.eqb JS.nl c); [discriminate |].
  rewrite IH by exact H. reflexivity.
Qed.

End EscapeText.

(** C9.  Card-style [escapeText] turns a maximal run of [N >= 1] newlines
    (the text before it does not end in a newline, the text after it does not
    start with one) into [N] breaks of three spaces and a newline, with the
    non-breaking-space marker before every break but the first, and escapes
    what lies before and after on their own; a text with no newline is
    returned as it is, and so is the empty text; and ["a\n\nb"] gives two
    breaks, the second of them marked. *)
Theorem C9_escapeText_runs (u v : string) (N : nat)
    (HN : 1 <= N)
    (Hu : EscapeText.ends_with_newline u = false)
    (Hv : EscapeText.starts_with_newline v = false) :
  Teams.escapeText (u +:+ EscapeText.newlines N +:+ v)
    = Teams.escapeText u +:+ EscapeText.breaks N +:+ Teams.escapeText v
  /\ (forall t, JS.includes_char JS.nl t = false -> Teams.escapeText t = t)
  /\ Teams.escapeText EmptyString = EmptyString
  /\ Teams.escapeText ("a" +:+ String JS.nl (String JS.nl "b"))
       = "a" +:+ ("   " +:+ String JS.nl EmptyString)
             +:+ ("&nbsp;" +:+ "   " +:+ String JS.nl EmptyString) +:+ "b".
Proof.
  repeat split.
  - rewrite !EscapeText.escapeText_scan.
    destruct u as [|c u].
    + rewrite str_app_nil_l.
      change (EscapeText.scan EmptyString (EscapeText.newlines N +:+ v))
        with (EscapeText.scan (EscapeText.newlines 0) (EscapeText.newlines N +:+ v)).
      rewrite EscapeText.scan_newlines, EscapeText.scan_after_run by exact Hv.
      reflexivity.
    + rewrite EscapeText.scan_app by (discriminate || exact Hu).
      f_equal.
      change (EscapeText.scan EmptyString (EscapeText.newlines N +:+ v))
        with (EscapeText.scan (EscapeText.newlines 0) (EscapeText.newlines N +:+ v)).
      rewrite EscapeText.scan_newlines, EscapeText.scan_after_run by exact Hv.
      reflexivity.
  - intros t Ht. rewrite EscapeText.escapeText_scan.
    now apply EscapeText.scan_no_newline.
Qed.

Lemma C9_escapeText_runs_witness :
  Teams.escapeText ("a" +:+ EscapeText.newlines 2 +:+ "b")
    = Teams.escapeText "a" +:+ EscapeText.breaks 2 +:+ Teams.escapeText "b".
Proof.
  apply (C9_escapeText_runs "a" "b" 2); [lia | reflexivity | reflexivity].
Defined.

(** ** [error] *)

Module ErrorFacts.

Lemma includes_app c a b :
  JS.includes_char c (a +:+ b) = JS.includes_char c a || JS.includes_char c b.
Proof.
  induction a as [|x a IH]; [reflexivity |].
  rewrite str_app_cons. cbn [JS.includes_char].
  destruct (Ascii.eqb c x); [reflexivity | exact IH].
Qed.

(** No space is left once every space is replaced by the entity. *)
Lemma no_space_left s :
  JS.includes_char " " (JS.replace_all_char " " "&nbsp;" s) = false.
Proof.
  induction s as [|x s IH]; [reflexivity |].
  cbn [JS.replace_all_char].
  destruct (Ascii.eqb " " x) eqn:E.
  - rewrite includes_app, IH. reflexivity.
  - cbn [JS.includes_char]. now rewrite E.
Qed.

End ErrorFacts.

(** C10.  Card-style [error(err, opts)] writes to its argument: afterwards the
    caller's [Error] object (and no other object) has changed, its [stack]
    being the original one with every space replaced by [&nbsp;]; the reference
    kept in the captured errors is to that same object; the message text is
    the escaped form of this new stack; and the address of the issue button is
    built from this new stack. *)
Theorem C10_error_rewrites_stack (env : Env) (h : Heap) (this : Teams.t) (err : loc)
    (e : JSError) (label title_ : option string)
    (Herr : h !! err = Some e) :
  let stack' := JS.replace_all_char " " "&nbsp;" (err_stack e) in
  exists this' h',
    Teams.error env h this err label title_ = Some (this', h')
    /\ h' !! err = Some {| err_name := err_name e; err_message := err_message e;
                           err_stack := stack' |}
    /\ (forall l : loc, l <> err -> h' !! l = h !! l)
    /\ JS.includes_char " " stack' = false
    /\ Teams._errors this' = Teams._errors this ++ [err]
    /\ Teams._text this' = Some (Teams.escapeText stack')
    /\ Teams._actions this' = Teams._actions this ++
         [ {| ca_type := "OpenUri"; ca_name := "Create an issue for this error?";
              ca_targets :=
                [ {| tgt_os := "default";
                     tgt_uri :=
                       JS.template (Teams.bugsUrl_of env) +:+ "/new?title=" +:+
                       encodeURIComponent env
                         ("[" +:+ JS.or_else (default EmptyString label) (err_name e) +:+ "] " +:+
                          JS.or_else (default EmptyString title_) (err_message e)) +:+
                       "&body=" +:+
                       encodeURIComponent env
                         ("Error encountered on " +:+ Date_toLocaleString env +:+
                          String JS.nl EmptyString +:+
                          "App version: v" +:+ pkg_version (getPackageInfo env) +:+
                          String JS.nl (String JS.nl EmptyString) +:+
                          "Full Stack: " +:+ stack') +:+
                       "&labels=bug" |} ] |} ].
Proof.
  intros stack'. unfold Teams.error. rewrite Herr.
  eexists _, _. split; [reflexivity |].
  split; [apply lookup_insert_eq |].
  split; [intros l Hl; now apply lookup_insert_ne |].
  split; [apply ErrorFacts.no_space_left |].
  split; [reflexivity |].
  split; [reflexivity |].
  unfold Teams.button, Teams.action_, Teams.issue_url. cbn.
  rewrite !str_app_assoc. reflexivity.
Qed.

Lemma C10_error_rewrites_stack_witness :
  exists this' h',
    Teams.error (Sample.env true EmptyString Sample.no_teams Sample.tracker (Response 200 "ok"))
                Sample.heap (Teams.new None None) 1%positive None None = Some (this', h')
    /\ (err_stack <$> h' !! 1%positive)
       = Some ("TypeError:&nbsp;x&nbsp;is&nbsp;not&nbsp;a&nbsp;function" +:+
               String JS.nl EmptyString +:+
               "&nbsp;&nbsp;&nbsp;&nbsp;at&nbsp;run&nbsp;(app.js:3:5)").
Proof.
  destruct (C10_error_rewrites_stack
              (Sample.env true EmptyString Sample.no_teams Sample.tracker (Response 200 "ok"))
              Sample.heap (Teams.new None None) 1%positive Sample.boom None None eq_refl)
    as (this' & h' & Heq & Hh & _).
  exists this', h'. split; [exact Heq |].
  rewrite Hh. reflexivity.
Defined.

(** C3, as the code has it.  [error(err, opts)] records [err] among the
    captured errors.  Field-style: it appends exactly one attachment, of color
    [danger], whose text is the escaped [err.stack], and that attachment
    carries the one "create issue" button if and only if a bug-tracker
    address is configured.  Card-style: it appends no section; it sets the
    card's theme color to [F00], its title to ["Error: " + err.message] and
    its text to the escaped stack (spaces turned into [&nbsp;], then
    [escapeText]); where a bug-tracker address is configured, the "create
    issue" button is appended to the card's actions. *)
Theorem C3_error_amended (env : Env) (h : Heap) (err : loc) (e : JSError)
    (label title_ : option string)
    (Herr : h !! err = Some e) :
  (forall this : Slack.t,
     exists this' a,
       Slack.error env h this err label title_ = Some this'
       /\ Slack._errors this' = Slack._errors this ++ [err]
       /\ Slack._attachments this' = Slack._attachments this ++ [a]
       /\ att_color a = Some "danger"
       /\ att_text a = Some (Slack.escapeText (err_stack e))
       /\ (is_Some (att_actions a) <-> JS.truthy_opt (Slack.bugsUrl_of env) = true)
       /\ (forall l, att_actions a = Some l ->
             exists url, l = [ {| act_type := "button";
                                  act_text := "Create an issue for this error?";
                                  act_url := url; act_style := Some "danger" |} ]))
  /\ (forall this : Teams.t,
        exists this' h',
          Teams.error env h this err label title_ = Some (this', h')
          /\ Teams._errors this' = Teams._errors this ++ [err]
          /\ Teams._sections this' = Teams._sections this
          /\ Teams._themeColor this' = "F00"
          /\ Teams._title this' = Some ("Error: " +:+ err_message e)
          /\ Teams._text this'
             = Some (Teams.escapeText (JS.replace_all_char " " "&nbsp;" (err_stack e)))
          /\ (JS.truthy_opt (Teams.bugsUrl_of env) = true ->
                exists uri,
                  Teams._actions this' = Teams._actions this ++
                    [ {| ca_type := "OpenUri"; ca_name := "Create an issue for this error?";
                         ca_targets := [ {| tgt_os := "default"; tgt_uri := uri |} ] |} ])).
Proof.
  split.
  - intros this. unfold Slack.error. rewrite Herr.
    eexists _, _. split; [reflexivity |].
    repeat (split; [reflexivity |]).
    split.
    + cbn. destruct (JS.truthy_opt (Slack.bugsUrl_of env)).
      * split; [reflexivity | intros _; eexists; reflexivity].
      * split; [intros [x Hx]; discriminate | discriminate].
    + cbn. intros l Hl.
      destruct (JS.truthy_opt (Slack.bugsUrl_of env)); [| discriminate].
      injection Hl as <-. eexists. reflexivity.
  - intros this. unfold Teams.error. rewrite Herr.
    eexists _, _. split; [reflexivity |].
    repeat (split; [reflexivity |]).
    intros _. eexists. reflexivity.
Qed.

Lemma C3_error_amended_witness :
  exists this',
    Slack.error (Sample.env true EmptyString Sample.no_teams Sample.tracker (Response 200 "ok"))
                Sample.heap (Slack.new None None) 1%positive None None = Some this'
    /\ length (Slack._attachments this') = 1.
Proof.
  destruct (C3_error_amended
              (Sample.env true EmptyString Sample.no_teams Sample.tracker (Response 200 "ok"))
              Sample.heap 1%positive Sample.boom None None eq_refl) as [Hslack _].
  destruct (Hslack (Slack.new None None)) as (this' & a & Heq & _ & Hatt & _).
  exists this'. split; [exact Heq |].
  rewrite Hatt. reflexivity.
Defined.

(** C3 as stated fails for the Card-style provider: on a fresh builder, with no
    bug tracker configured, [error] leaves the sections empty (no section is
    produced) and yet appends a button. *)
Lemma C3_counterexample :
  exists this' h',
    Teams.error (Sample.env true EmptyString Sample.no_teams None (Response 200 "ok"))
                Sample.heap (Teams.new None None) 1%positive None None = Some (this', h')
    /\ Teams._sections this' = []
    /\ Teams.bugsUrl_of (Sample.env true EmptyString Sample.no_teams None (Response 200 "ok"))
       = None
    /\ length (Teams._actions this') = 1.
Proof. eexists _, _. repeat split. Qed.

(** ** [stats] *)

Module StatsFacts.

(** Whether the [forEach] turn for this entry adds a field. *)
Definition kept (ignoreUndefined : bool) (entry : string * JS.JSValue) : bool :=
  negb (ignoreUndefined && Slack.is_undefined (snd entry)).

Definition slack_field (env : Env) (entry : string * JS.JSValue) : Field :=
  {| field_title := startCase env (JS.trim (fst entry));
     field_value := JS.trim (Slack.stringify_value env (snd entry));
     field_short :=
       Nat.leb (String.length (JS.trim (Slack.stringify_value env (snd entry)))) 30
       && Nat.leb (String.length (fst entry)) 30 |}.

Definition teams_fact (env : Env) (entry : string * JS.JSValue) : Fact :=
  {| fact_name := startCase env (JS.trim (fst entry));
     fact_value := Teams.escapeText (JS.trim (Teams.stringify_value env (snd entry))) |}.

Lemma slack_fold env iu kvs base :
  fold_left (Slack.stats_step env iu) kvs base
  = base ++ List.map (slack_field env) (List.filter (kept iu) kvs).
Proof.
  revert base. induction kvs as [|[k v] kvs IH]; intros base; simpl.
  - now rewrite app_nil_r.
  - rewrite IH. unfold kept at 2. simpl.
    destruct (iu && Slack.is_undefined v); simpl; [reflexivity |].
    now rewrite <- app_assoc.
Qed.

Lemma teams_fold env iu kvs base :
  fold_left (Teams.stats_step env iu) kvs base
  = base ++ List.map (teams_fact env) (List.filter (kept iu) kvs).
Proof.
  revert base. induction kvs as [|[k v] kvs IH]; intros base; simpl.
  - now rewrite app_nil_r.
  - rewrite IH. unfold kept at 2. simpl.
    change (Slack.is_undefined v) with (Teams.is_undefined v).
    destruct (iu && Teams.is_undefined v); simpl; [reflexivity |].
    now rewrite <- app_assoc.
Qed.

Lemma filter_all {A} (p : A -> bool) (l : list A) :
  forallb p l = true -> List.filter p l = l.
Proof.
  induction l as [|x l IH]; simpl; [reflexivity |].
  destruct (p x); simpl; [| discriminate].
  intros H. now rewrite IH.
Qed.

Lemma kept_defined iu entry :
  Slack.is_undefined (snd entry) = false -> kept iu entry = true.
Proof. unfold kept. intros ->. now rewrite andb_false_r. Qed.

Lemma filter_defined iu (kvs : list (string * JS.JSValue)) :
  forallb (fun entry => negb (Slack.is_undefined (snd entry))) kvs = true ->
  List.filter (kept iu) kvs = kvs.
Proof.
  intros H. apply filter_all.
  rewrite forallb_forall in *. intros x Hx.
  apply kept_defined. specialize (H x Hx).
  now destruct (Slack.is_undefined x.2).
Qed.

End StatsFacts.

(** C7, as the code has it.  [stats(title, keyValues, opts)] appends one
    attachment/section.  Every entry of [keyValues], except those whose value
    is [undefined] while [ignoreUndefined] is true (the default), yields
    exactly one field/fact, in order; its title/name is [startCase] of the
    trimmed key; its value is the trimmed stringification of the entry's
    value (a boolean or number through [String], a string as it is, any other
    value through [JSON.stringify]), which the Card-style provider moreover
    passes through its [escapeText].  Field-style fields follow the fields
    that [extraProps] may bring.  With no [undefined] value, [N] entries give
    [N] fields/facts. *)
Theorem C7_stats_amended (env : Env) (title_ : string)
    (keyValues : list (string * JS.JSValue)) (ignoreUndefined : option bool) :
  let kept :=
    List.filter
      (fun entry => negb (default true ignoreUndefined && Slack.is_undefined (snd entry)))
      keyValues in
  (forall b, Slack.stringify_value env (JS.VBoolean b) = if b then "true" else "false")
  /\ (forall n, Slack.stringify_value env (JS.VNumber n) = Number_toString env n)
  /\ (forall s, Slack.stringify_value env (JS.VString s) = s)
  /\ (forall v, JS.typeof v = JS.TObject ->
        Slack.stringify_value env v
        = JS.String_opt (JS.JSON_stringify (Number_toString env) v))
  /\ (forall v, Teams.stringify_value env v = Slack.stringify_value env v)
  /\ (forall (this : Slack.t) (extraProps : option attach),
        exists a fs,
          Slack._attachments (Slack.stats env this title_ keyValues extraProps ignoreUndefined)
            = Slack._attachments this ++ [a]
          /\ att_fields a
             = Some (default [] (att_fields (default empty_attach extraProps)) ++ fs)
          /\ List.map field_title fs
             = List.map (fun entry => startCase env (JS.trim (fst entry))) kept
          /\ List.map field_value fs
             = List.map (fun entry => JS.trim (Slack.stringify_value env (snd entry))) kept
          /\ (forallb (fun entry => negb (Slack.is_undefined (snd entry))) keyValues = true ->
                length fs = length keyValues))
  /\ (forall this : Teams.t,
        exists s,
          Teams._sections (Teams.stats env this title_ keyValues ignoreUndefined)
            = Teams._sections this ++ [s]
          /\ sec_facts s
             = List.map
                 (fun entry =>
                    {| fact_name := startCase env (JS.trim (fst entry));
                       fact_value :=
                         Teams.escapeText (JS.trim (Slack.stringify_value env (snd entry))) |})
                 kept
          /\ (forallb (fun entry => negb (Slack.is_undefined (snd entry))) keyValues = true ->
                length (sec_facts s) = length keyValues)).
Proof.
  intros kept.
  split; [intros []; reflexivity |].
  split; [reflexivity |].
  split; [reflexivity |].
  split; [intros [] H; try discriminate H; reflexivity |].
  split; [reflexivity |].
  split.
  - intros this extraProps.
    exists (Slack.set_fields
              (Slack.assign_attach
                 {| att_title := Some title_; att_pretext := None; att_text := None;
                    att_color := Some "#439FE0"; att_fallback := Some title_;
                    att_fields := Some []; att_actions := None;
                    att_footer := None; att_ts := None |}
                 (default empty_attach extraProps))
              (default [] (att_fields (default empty_attach extraProps))
               ++ List.map (StatsFacts.slack_field env) kept)),
           (List.map (StatsFacts.slack_field env) kept).
    split.
    { unfold Slack.stats. rewrite StatsFacts.slack_fold.
      cbn. destruct (att_fields (default empty_attach extraProps)); reflexivity. }
    split; [reflexivity |].
    split; [now rewrite List.map_map |].
    split; [now rewrite List.map_map |].
    intros Hdef. rewrite length_map. subst kept.
    change (List.filter _ keyValues)
      with (List.filter (StatsFacts.kept (default true ignoreUndefined)) keyValues).
    now rewrite StatsFacts.filter_defined.
  - intros this.
    exists {| sec_title := Some title_; sec_text := None;
              sec_facts := List.map (StatsFacts.teams_fact env) kept;
              sec_activityTitle := None; sec_activitySubtitle := None |}.
    split.
    { unfold Teams.stats. rewrite StatsFacts.teams_fold. reflexivity. }
    split; [reflexivity |].
    intros Hdef. cbn [sec_facts]. rewrite length_map. subst kept.
    change (List.filter _ keyValues)
      with (List.filter (StatsFacts.kept (default true ignoreUndefined)) keyValues).
    now rewrite StatsFacts.filter_defined.
Qed.

(** C7 as stated fails for the Card-style provider: the fact's value is not
    the trimmed stringification where that contains a newline. *)
Lemma C7_counterexample :
  let env := Sample.env true EmptyString Sample.no_teams None (Response 200 "ok") in
  let value := JS.VString ("a" +:+ String JS.nl "b") in
  exists s f,
    Teams._sections (Teams.stats env (Teams.new None None) "Load" [("note", value)] None) = [s]
    /\ sec_facts s = [f]
    /\ fact_name f = "Note"
    /\ fact_value f = "a   " +:+ String JS.nl "b"
    /\ JS.trim (Teams.stringify_value env value) = "a" +:+ String JS.nl "b"
    /\ String.eqb (fact_value f) (JS.trim (Teams.stringify_value env value)) = false.
Proof. eexists _, _. repeat split. Qed.

(** C8, as the code has it.  In the Field-style [stats], a produced field is
    marked [short] if and only if its value (stringified and trimmed) and the
    key as it was given (neither trimmed nor humanized) are both at most 30
    characters long. *)
Theorem C8_short_amended (env : Env) (this : Slack.t) (title_ : string)
    (keyValues : list (string * JS.JSValue)) (extraProps : option attach)
    (ignoreUndefined : option bool) :
  exists a fs,
    Slack._attachments (Slack.stats env this title_ keyValues extraProps ignoreUndefined)
      = Slack._attachments this ++ [a]
    /\ att_fields a = Some (default [] (att_fields (default empty_attach extraProps)) ++ fs)
    /\ Forall2
         (fun (entry : string * JS.JSValue) (f : Field) =>
            field_value f = JS.trim (Slack.stringify_value env (snd entry))
            /\ (field_short f = true <->
                String.length (field_value f) <= 30 /\ String.length (fst entry) <= 30))
         (List.filter
            (fun entry => negb (default true ignoreUndefined && Slack.is_undefined (snd entry)))
            keyValues)
         fs.
Proof.
  eexists _, (List.map (StatsFacts.slack_field env)
                (List.filter (StatsFacts.kept (default true ignoreUndefined)) keyValues)).
  split.
  { unfold Slack.stats. rewrite StatsFacts.slack_fold. reflexivity. }
  split.
  { cbn. destruct (att_fields (default empty_attach extraProps)); reflexivity. }
  change (List.filter _ keyValues)
    with (List.filter (StatsFacts.kept (default true ignoreUndefined)) keyValues).
  induction (List.filter (StatsFacts.kept (default true ignoreUndefined)) keyValues)
    as [|entry l IH]; simpl; constructor; [| exact IH].
  split; [reflexivity |].
  unfold StatsFacts.slack_field. cbn [field_short field_value].
  rewrite andb_true_iff, !Nat.leb_le. reflexivity.
Qed.

(** C8 as stated fails: a 28-character camel-case key whose humanized form has
    32 characters still gives a [short] field, and a key padded with blanks
    to 33 characters gives a field that is not [short] although its humanized
    form has 3. *)
Lemma C8_counterexample :
  let env := Sample.env true EmptyString Sample.no_teams None (Response 200 "ok") in
  let padded := "cpu" +:+ JS.repeat_string " " 30 in
  exists a f g,
    Slack._attachments
      (Slack.stats env (Slack.new None None) "Load"
         [("totalRequestsServedPerSecond", JS.VNumber 42); (padded, JS.VNumber 7)]
         None None) = [a]
    /\ att_fields a = Some [f; g]
    /\ field_title f = "Total Requests Served Per Second"
    /\ String.length (field_title f) = 32
    /\ String.length (field_value f) = 2
    /\ field_short f = true
    /\ field_title g = "Cpu"
    /\ String.length (field_value g) = 1
    /\ field_short g = false.
Proof. eexists _, _, _. repeat split. Qed.

(** ** Delivery *)

Module Delivery.

(** What [Teams.postMessage] throws when no webhook resolves. *)
Definition no_webhook (channel_ : option string) : Exn :=
  Teams.Error ("No webhook url for channel: " +:+ JS.dquote +:+
               JS.template channel_ +:+ JS.dquote).

Lemma teams_postMessage_outcome env webhookUrl message w :
  fst (Teams._postMessage env webhookUrl message w) = Returns tt.
Proof.
  unfold Teams._postMessage, connect_fetch.
  destruct (fetch env (requests w) _) as [statusCode body | err]; [| reflexivity].
  destruct (_ && _); reflexivity.
Qed.

Lemma teams_postMessage_cases env message channel_ da w :
  fst (Teams.postMessage env message channel_ da w) = Returns tt
  \/ fst (Teams.postMessage env message channel_ da w) = Throws (no_webhook channel_).
Proof.
  unfold Teams.postMessage.
  destruct (Teams.logCondition env); [left; reflexivity |].
  destruct (Teams.getTeamsWebhookUrl env channel_) as [url |]; [| right; reflexivity].
  destruct (JS.truthy url); [| right; reflexivity].
  left. apply teams_postMessage_outcome.
Qed.

Lemma teams_send_valid env this da w :
  JS.truthy_opt (Teams._summary this) || JS.truthy_opt (Teams._text this) = true ->
  Teams.send env this da w
  = (fst (Teams.postMessage env (Teams.card_of this) (Teams._channel this)
                            (Some (default true da)) w),
     this,
     snd (Teams.postMessage env (Teams.card_of this) (Teams._channel this)
                            (Some (default true da)) w)).
Proof.
  intros H. unfold Teams.send.
  destruct (JS.truthy_opt (Teams._summary this)), (JS.truthy_opt (Teams._text this));
    try discriminate H; cbn [negb andb];
    destruct (Teams.postMessage _ _ _ _ _); reflexivity.
Qed.

End Delivery.

(** C5.  Card-style [send()] fails with the configuration error "Either
    summary or text is required" exactly when neither [summary] nor [text]
    holds a non-empty string (the test the code makes of "set"), and then
    nothing is logged or sent.  Outside test mode, a builder that passes this
    validation and whose channel resolves to no webhook address fails with
    "No webhook url for channel", again before anything is logged or sent:
    there is no other transport to fall back on. *)
Theorem C5_card_configuration_errors (env : Env) (this : Teams.t)
    (defaultAttachment : option bool) (w : World) :
  (fst (fst (Teams.send env this defaultAttachment w))
     = Throws (Teams.Error "Either summary or text is required")
   <-> JS.truthy_opt (Teams._summary this) = false
       /\ JS.truthy_opt (Teams._text this) = false)
  /\ (JS.truthy_opt (Teams._summary this) = false ->
      JS.truthy_opt (Teams._text this) = false ->
      Teams.send env this defaultAttachment w
      = (Throws (Teams.Error "Either summary or text is required"), this, w))
  /\ (Teams.logCondition env = false ->
      JS.truthy_opt (Teams._summary this) || JS.truthy_opt (Teams._text this) = true ->
      JS.truthy_opt (Teams.getTeamsWebhookUrl env (Teams._channel this)) = false ->
      Teams.send env this defaultAttachment w
      = (Throws (Teams.Error ("No webhook url for channel: " +:+ JS.dquote +:+
                              JS.template (Teams._channel this) +:+ JS.dquote)),
         this, w)).
Proof.
  split; [split |].
  - intros H.
    destruct (JS.truthy_opt (Teams._summary this)) eqn:Es;
      destruct (JS.truthy_opt (Teams._text this)) eqn:Et; try (split; reflexivity);
      exfalso;
      (rewrite Delivery.teams_send_valid in H by (rewrite Es, Et; reflexivity));
      cbn [fst] in H;
      (destruct (Delivery.teams_postMessage_cases env (Teams.card_of this)
                  (Teams._channel this) (Some (default true defaultAttachment)) w)
        as [E | E]; rewrite E in H; discriminate H).
  - intros [Es Et]. unfold Teams.send. rewrite Es, Et. reflexivity.
  - split.
    + intros Es Et. unfold Teams.send. rewrite Es, Et. reflexivity.
    + intros Hlog Hvalid Hurl.
      rewrite Delivery.teams_send_valid by exact Hvalid.
      unfold Teams.postMessage. rewrite Hlog.
      destruct (Teams.getTeamsWebhookUrl env (Teams._channel this)) as [url |];
        [cbn [JS.truthy_opt] in Hurl; rewrite Hurl |]; reflexivity.
Qed.

Lemma C5_card_configuration_errors_witness :
  let env := Sample.env false EmptyString Sample.no_teams None (Response 200 "ok") in
  Teams.send env (Teams.channel (Teams.new (Some "hi") None) "ops") None empty_world
  = (Throws (Teams.Error ("No webhook url for channel: " +:+ JS.dquote +:+ "ops" +:+ JS.dquote)),
     Teams.channel (Teams.new (Some "hi") None) "ops", empty_world)
  /\ Teams.send env (Teams.new None None) None empty_world
     = (Throws (Teams.Error "Either summary or text is required"),
        Teams.new None None, empty_world).
Proof.
  intros env. split.
  - apply (C5_card_configuration_errors env
             (Teams.channel (Teams.new (Some "hi") None) "ops") None empty_world);
      reflexivity.
  - apply (C5_card_configuration_errors env (Teams.new None None) None empty_world);
      reflexivity.
Defined.

Module SlackDelivery.

(** The attachment that carries the pending buttons. *)
Definition actions_attachment (actions : list action) : attach :=
  {| att_title := Some EmptyString; att_pretext := None; att_text := None;
     att_color := None; att_fallback := None; att_fields := None;
     att_actions := Some actions; att_footer := None; att_ts := None |}.

(** The instance as [send] leaves it. *)
Definition after_send (this : Slack.t) : Slack.t :=
  match Slack._actions this with
  | [] => this
  | _ :: _ =>
      Slack.set_carriers
        (Slack.attachment this (One (actions_attachment (Slack._actions this))))
        (Slack._carriers this ++ [length (Slack._attachments this)])
  end.

(** The [extraProps] that [send] passes on. *)
Definition merged_extraProps (this : Slack.t) (opts : Slack.SendOpts) : SlackObject :=
  Object_assign (Object_assign ∅ (Slack._extraProps this))
                (default ∅ (Slack.so_extraProps opts)).

(** The options [send] calls [postMessage] with. *)
Definition post_opts (this : Slack.t) (opts : Slack.SendOpts) : Slack.PostOpts :=
  {| Slack.po_channel := Slack._channel (after_send this);
     Slack.po_attachments := Some (Slack._attachments (after_send this));
     Slack.po_extraProps := Some (merged_extraProps this opts);
     Slack.po_defaultAttachment := Some (default true (Slack.so_defaultAttachment opts)) |}.

(** The message a [send] assembles. *)
Definition sent_message (env : Env) (this : Slack.t) (opts : Slack.SendOpts) : SlackObject :=
  Slack.message_of env (Slack._text this) (post_opts this opts).

Lemma after_send_frame this :
  Slack._text (after_send this) = Slack._text this
  /\ Slack._channel (after_send this) = Slack._channel this
  /\ Slack._extraProps (after_send this) = Slack._extraProps this
  /\ Slack._actions (after_send this) = Slack._actions this
  /\ Slack._errors (after_send this) = Slack._errors this.
Proof.
  unfold after_send.
  destruct (Slack._actions this) eqn:E; repeat split; try reflexivity; exact E.
Qed.

Lemma send_eq env this opts w :
  Slack.send env this opts w
  = (fst (Slack.postMessage env (Slack._text this) (post_opts this opts) w),
     after_send this,
     snd (Slack.postMessage env (Slack._text this) (post_opts this opts) w)).
Proof.
  unfold Slack.send, post_opts, merged_extraProps, after_send, actions_attachment.
  destruct (Slack._actions this) as [|b l];
    cbn [Slack.attachment Slack.set_attachments Slack._text Slack._channel
         Slack._extraProps Slack._attachments];
    destruct (Slack.postMessage _ _ _ _); reflexivity.
Qed.

Lemma postWithWebhook_outcome env message w :
  fst (Slack._postWithWebhook env message w) = Returns tt.
Proof.
  unfold Slack._postWithWebhook, connect_fetch.
  destruct (fetch env (requests w) _) as [statusCode body | err]; [| reflexivity].
  destruct (negb _); reflexivity.
Qed.

Lemma postWithToken_outcome env message w :
  fst (Slack._postWithToken env message w) = Returns tt.
Proof.
  unfold Slack._postWithToken, connect_fetch.
  destruct (fetch env (requests w) _) as [statusCode body | err]; [| reflexivity].
  destruct (JSON_parse env body) as [parsed | err]; [| reflexivity].
  destruct parsed; cbn [JS.get_prop]; try reflexivity;
    destruct (JS.truthy_value _); reflexivity.
Qed.

Lemma postMessage_outcome env text_ opts w :
  fst (Slack.postMessage env text_ opts w) = Returns tt.
Proof.
  unfold Slack.postMessage.
  destruct (Slack.logCondition env); [reflexivity |].
  destruct (JS.truthy _);
    [apply postWithWebhook_outcome | apply postWithToken_outcome].
Qed.

(** The attachments of an assembled message where [extraProps] brings none. *)
Lemma message_attachments env text_ opts :
  default ∅ (Slack.po_extraProps opts) !! "attachments" = None ->
  Slack.message_of env text_ opts !! "attachments"
  = Some (PAttachments
            (if default true (Slack.po_defaultAttachment opts)
             then default [] (Slack.po_attachments opts) ++ Slack.getDefaultAttachments env
             else default [] (Slack.po_attachments opts))).
Proof.
  intros H. unfold Slack.message_of, Object_assign.
  rewrite lookup_union_r by exact H.
  rewrite !lookup_insert_ne by discriminate.
  apply lookup_insert_eq.
Qed.

(** The properties of the object that [postMessage] starts from, and of the
    object that the logged record is spread over. *)
Lemma base_lookup (t c u a : PropVal) (k : string) :
  (<["text" := t]> (<["channel" := c]> (<["username" := u]>
     (<["attachments" := a]> (∅ : SlackObject))))) !! k
  = if String.eqb k "text" then Some t
    else if String.eqb k "channel" then Some c
    else if String.eqb k "username" then Some u
    else if String.eqb k "attachments" then Some a
    else None.
Proof.
  destruct (String.eqb_spec k "text") as [-> | H1]; [apply lookup_insert_eq |].
  rewrite lookup_insert_ne by congruence.
  destruct (String.eqb_spec k "channel") as [-> | H2]; [apply lookup_insert_eq |].
  rewrite lookup_insert_ne by congruence.
  destruct (String.eqb_spec k "username") as [-> | H3]; [apply lookup_insert_eq |].
  rewrite lookup_insert_ne by congruence.
  destruct (String.eqb_spec k "attachments") as [-> | H4]; [apply lookup_insert_eq |].
  rewrite lookup_insert_ne by congruence.
  apply lookup_empty.
Qed.

Lemma label_lookup (v : PropVal) (k : string) :
  ({["label" := v]} : SlackObject) !! k = if String.eqb k "label" then Some v else None.
Proof.
  destruct (String.eqb_spec k "label") as [-> | H]; [apply lookup_singleton_eq |].
  apply lookup_singleton_ne. congruence.
Qed.

(** The attachments that a [send] posts, one after the other: the
    builder's, the one that carries the pending buttons, the default one. *)
Lemma sent_attachments env (this : Slack.t) (defaultAttachment : bool) :
  (if defaultAttachment
   then Slack._attachments (after_send this) ++ Slack.getDefaultAttachments env
   else Slack._attachments (after_send this))
  = Slack._attachments this
    ++ match Slack._actions this with
       | [] => []
       | _ :: _ => [actions_attachment (Slack._actions this)]
       end
    ++ (if defaultAttachment then Slack.getDefaultAttachments env else []).
Proof.
  unfold after_send.
  destruct (Slack._actions this) as [|b bs], defaultAttachment; cbn;
    rewrite <- ?app_assoc, ?app_nil_r; reflexivity.
Qed.

End SlackDelivery.

(** C2, as the code has it.  In test mode ([logCondition] true; unless
    overwritten it is the configuration's "is this a test environment")
    [send()] makes no HTTP request, makes exactly one logger call, at level
    info, and resolves.

    Field-style: the log text is "Slack message" and the logged record
    holds, property by property, what the [extraProps] of the call bring,
    else what the builder's own [extraProps] bring, else the message proper:
    [text], [channel] (the builder's, else the configured one), [username]
    (the configured one, else "slackbot") and [attachments] (the builder's,
    then the one that carries the pending buttons, then the default one
    unless it was declined); and under all of these the label [Slack].  So
    the label is the provider's unless the message itself has a [label]
    property, which then stands in its place.

    Card-style, for a builder that passes the summary/text validation: the
    log text is "Teams message", the label is [Teams] and the record is the
    card made of the builder's summary, theme colour, title, text and
    buttons, and of its sections followed by the default one unless it was
    declined. *)
Theorem C2_test_mode_amended (env : Env) (w : World) :
  (slack_logCondition env = None -> Slack.logCondition env = cfg_isTest env)
  /\ (teams_logCondition env = None -> Teams.logCondition env = cfg_isTest env)
  /\ (exists footer,
        Slack.getDefaultAttachments env
        = [ {| att_title := Some "App Info:"; att_pretext := None; att_text := None;
               att_color := None; att_fallback := None;
               att_fields :=
                 Some [ {| field_title := "Hostname"; field_value := os_hostname env;
                           field_short := true |};
                        {| field_title := "Node Environment";
                           field_value := cfg_getEnv env; field_short := true |} ];
               att_actions := None; att_footer := Some footer;
               att_ts := Some (Date_now env, 1000%Z) |} ])
  /\ (exists subtitle,
        Teams.getDefaultAttachments env
        = [ {| sec_title := None; sec_text := None;
               sec_facts :=
                 [ {| fact_name := "Hostname"; fact_value := os_hostname env |};
                   {| fact_name := "Node Environment"; fact_value := cfg_getEnv env |} ];
               sec_activityTitle := Some "App Info:";
               sec_activitySubtitle := Some subtitle |} ])
  /\ (forall (this : Slack.t) (opts : Slack.SendOpts),
        Slack.logCondition env = true ->
        exists this' record,
          Slack.send env this opts w
          = (Returns tt, this',
             {| logs := logs w ++ [LogInfo (SlackRecord record) "Slack message"];
                requests := requests w |})
          /\ (forall k,
                record !! k
                = match default ∅ (Slack.so_extraProps opts) !! k with
                  | Some v => Some v
                  | None =>
                      match Slack._extraProps this !! k with
                      | Some v => Some v
                      | None =>
                          if String.eqb k "text" then Some (POpt (Slack._text this))
                          else if String.eqb k "channel" then
                            Some (PStr (default (conf_channel (getSlackConf env))
                                                (Slack._channel this)))
                          else if String.eqb k "username" then
                            Some (PStr (if JS.truthy_opt (slack_username env)
                                        then JS.template (slack_username env)
                                        else "slackbot"))
                          else if String.eqb k "attachments" then
                            Some (PAttachments
                                    (Slack._attachments this
                                     ++ match Slack._actions this with
                                        | [] => []
                                        | _ :: _ =>
                                            [ {| att_title := Some EmptyString;
                                                 att_pretext := None; att_text := None;
                                                 att_color := None; att_fallback := None;
                                                 att_fields := None;
                                                 att_actions := Some (Slack._actions this);
                                                 att_footer := None; att_ts := None |} ]
                                        end
                                     ++ (if default true (Slack.so_defaultAttachment opts)
                                         then Slack.getDefaultAttachments env else [])))
                          else if String.eqb k "label" then Some (PStr "Slack")
                          else None
                      end
                  end)
          /\ (default ∅ (Slack.so_extraProps opts) !! "label" = None ->
              Slack._extraProps this !! "label" = None ->
              record !! "label" = Some (PStr "Slack"))
          /\ (forall v, default ∅ (Slack.so_extraProps opts) !! "label" = Some v ->
                        record !! "label" = Some v))
  /\ (forall (this : Teams.t) (defaultAttachment : option bool),
        Teams.logCondition env = true ->
        JS.truthy_opt (Teams._summary this) || JS.truthy_opt (Teams._text this) = true ->
        Teams.send env this defaultAttachment w
        = (Returns tt, this,
           {| logs := logs w ++
                [LogInfo
                   (TeamsRecord "Teams"
                      {| mc_summary := Teams._summary this;
                         mc_themeColor := Teams._themeColor this;
                         mc_title := Teams._title this;
                         mc_text := Teams._text this;
                         mc_sections :=
                           Some (Teams._sections this
                                 ++ (if default true defaultAttachment
                                     then Teams.getDefaultAttachments env else []));
                         mc_potentialAction := Teams._actions this |})
                   "Teams message"];
              requests := requests w |})).
Proof.
  split; [intros H; unfold Slack.logCondition; now rewrite H |].
  split; [intros H; unfold Teams.logCondition; now rewrite H |].
  split; [eexists; reflexivity |].
  split; [eexists; reflexivity |].
  split.
  - intros this opts Hlog.
    assert (Hrecord : forall k,
      Object_assign {["label" := PStr "Slack"]}
                    (SlackDelivery.sent_message env this opts) !! k
      = match default ∅ (Slack.so_extraProps opts) !! k with
        | Some v => Some v
        | None =>
            match Slack._extraProps this !! k with
            | Some v => Some v
            | None =>
                if String.eqb k "text" then Some (POpt (Slack._text this))
                else if String.eqb k "channel" then
                  Some (PStr (default (conf_channel (getSlackConf env))
                                      (Slack._channel this)))
                else if String.eqb k "username" then
                  Some (PStr (Slack.username_static env))
                else if String.eqb k "attachments" then
                  Some (PAttachments
                          (Slack._attachments this
                           ++ match Slack._actions this with
                              | [] => []
                              | _ :: _ =>
                                  [SlackDelivery.actions_attachment (Slack._actions this)]
                              end
                           ++ (if default true (Slack.so_defaultAttachment opts)
                               then Slack.getDefaultAttachments env else [])))
                else if String.eqb k "label" then Some (PStr "Slack")
                else None
            end
        end).
    { intros k.
      unfold SlackDelivery.sent_message, Slack.message_of, SlackDelivery.post_opts,
        SlackDelivery.merged_extraProps, Object_assign.
      cbn [Slack.po_channel Slack.po_attachments Slack.po_extraProps
           Slack.po_defaultAttachment].
      change (default ∅ (Some ?m)) with m.
      change (default [] (Some ?l)) with l.
      change (default true (Some ?b)) with b.
      rewrite SlackDelivery.sent_attachments.
      destruct (SlackDelivery.after_send_frame this) as (_ & -> & _).
      rewrite !lookup_union, SlackDelivery.base_lookup, SlackDelivery.label_lookup,
        lookup_empty.
      destruct (default ∅ (Slack.so_extraProps opts) !! k) as [v |];
        destruct (Slack._extraProps this !! k) as [v' |];
        destruct (String.eqb k "text"), (String.eqb k "channel"),
                 (String.eqb k "username"), (String.eqb k "attachments"),
                 (String.eqb k "label"); reflexivity. }
    exists (SlackDelivery.after_send this),
           (Object_assign {["label" := PStr "Slack"]}
                          (SlackDelivery.sent_message env this opts)).
    split.
    + rewrite SlackDelivery.send_eq. unfold Slack.postMessage. rewrite Hlog.
      reflexivity.
    + split; [exact Hrecord |]. split.
      * intros H1 H2. rewrite Hrecord, H1, H2. reflexivity.
      * intros v H1. rewrite Hrecord, H1. reflexivity.
  - intros this da Hlog Hvalid.
    rewrite Delivery.teams_send_valid by exact Hvalid.
    unfold Teams.postMessage, Teams.message_of, Teams.card_of. rewrite Hlog.
    destruct (default true da); cbn; rewrite ?app_nil_r; reflexivity.
Qed.

Lemma C2_test_mode_amended_witness :
  let env := Sample.env true "https://hooks.example/slack" Sample.ops_teams None
                        (Response 200 "ok") in
  (exists this' record,
     Slack.send env (Slack.new (Some "hi") (Some "ops"))
                {| Slack.so_defaultAttachment := Some false; Slack.so_extraProps := None |}
                empty_world
     = (Returns tt, this',
        {| logs := [LogInfo (SlackRecord record) "Slack message"]; requests := [] |})
     /\ record !! "label" = Some (PStr "Slack")
     /\ record !! "text" = Some (PStr "hi")
     /\ record !! "channel" = Some (PStr "ops")
     /\ record !! "username" = Some (PStr "slackbot")
     /\ record !! "attachments" = Some (PAttachments [])
     /\ record !! "icon_url" = None)
  /\ Teams.send env (Teams.new (Some "hi") (Some "ops")) (Some false) empty_world
     = (Returns tt, Teams.new (Some "hi") (Some "ops"),
        {| logs :=
             [LogInfo
                (TeamsRecord "Teams"
                   {| mc_summary := None; mc_themeColor := "439FE0"; mc_title := None;
                      mc_text := Some "hi"; mc_sections := Some [];
                      mc_potentialAction := [] |})
                "Teams message"];
           requests := [] |}).
Proof.
  intros env.
  destruct (C2_test_mode_amended env empty_world) as (_ & _ & _ & _ & Hslack & Hteams).
  split.
  - destruct (Hslack (Slack.new (Some "hi") (Some "ops"))
                {| Slack.so_defaultAttachment := Some false; Slack.so_extraProps := None |}
                eq_refl) as (this' & record & Hsend & Hprops & _ & _).
    exists this', record. split; [exact Hsend |].
    repeat split; rewrite Hprops; reflexivity.
  - rewrite (Hteams (Teams.new (Some "hi") (Some "ops")) (Some false) eq_refl eq_refl).
    reflexivity.
Defined.

(** C2 as stated fails for the label: a message that has a [label] property
    of its own is logged under that label, not under the provider's. *)
Lemma C2_counterexample :
  let env := Sample.env true "https://hooks.example/slack" Sample.ops_teams None
                        (Response 200 "ok") in
  let opts := {| Slack.so_defaultAttachment := Some false;
                 Slack.so_extraProps := Some {["label" := PStr "audit"]} |} in
  exists this' record,
    Slack.send env (Slack.new (Some "hi") (Some "ops")) opts empty_world
    = (Returns tt, this',
       {| logs := [LogInfo (SlackRecord record) "Slack message"]; requests := [] |})
    /\ record !! "label" = Some (PStr "audit")
    /\ record !! "text" = Some (PStr "hi").
Proof.
  intros env opts.
  exists (Slack.new (Some "hi") (Some "ops")),
         (Object_assign {["label" := PStr "Slack"]}
            (SlackDelivery.sent_message env (Slack.new (Some "hi") (Some "ops")) opts)).
  split; [reflexivity |]. split; vm_compute; reflexivity.
Qed.

Module Transport.

Definition api_url : string := "https://slack.com/api/chat.postMessage".

(** The message as [_postWithToken] rewrites it before sending. *)
Definition encoded (message : SlackObject) : SlackObject :=
  match message !! "attachments" with
  | Some a =>
      if Slack.truthy_prop a then <["attachments" := PJson a]> message else message
  | None => message
  end.

Definition token_request (env : Env) (message : SlackObject) : Request :=
  PostForm api_url (<["token" := PStr (conf_token (getSlackConf env))]> (encoded message)).

Definition webhook_request (env : Env) (message : SlackObject) : Request :=
  PostJson (conf_webhook (getSlackConf env)) (SlackPayload message).

Lemma requests_postWithWebhook env message w :
  requests (snd (Slack._postWithWebhook env message w))
  = requests w ++ [webhook_request env message].
Proof.
  unfold Slack._postWithWebhook, connect_fetch.
  destruct (fetch env (requests w) _) as [statusCode body | err]; [| reflexivity].
  destruct (negb _); reflexivity.
Qed.

Lemma requests_postWithToken env message w :
  requests (snd (Slack._postWithToken env message w))
  = requests w ++ [token_request env message].
Proof.
  unfold Slack._postWithToken, connect_fetch.
  fold (encoded message). fold api_url.
  destruct (fetch env (requests w) _) as [statusCode body | err]; [| reflexivity].
  destruct (JSON_parse env body) as [parsed | err]; [| reflexivity].
  destruct parsed; cbn [JS.get_prop]; try reflexivity;
    destruct (JS.truthy_value _); reflexivity.
Qed.

Lemma requests_teams_postMessage env url message w :
  requests (snd (Teams._postMessage env url message w))
  = requests w ++ [PostJson url (TeamsPayload message)].
Proof.
  unfold Teams._postMessage, connect_fetch.
  destruct (fetch env (requests w) _) as [statusCode body | err]; [| reflexivity].
  destruct (_ && _); reflexivity.
Qed.

End Transport.

(** C6, as the code has it.  Card-style: the card that [send()] logs or posts
    has as many sections as the builder holds, and one more with
    [defaultAttachment] true.  Field-style, where [extraProps] does not
    replace the [attachments] property: the message that [send()] logs or
    posts has as many attachments as the builder holds when [send()] is
    called, one more if buttons are pending (the attachment that carries
    them), and one more with [defaultAttachment] true; the token transport
    posts that list JSON-encoded. *)
Theorem C6_payload_count_amended (env : Env) (w : World) :
  (forall (this : Slack.t) (opts : Slack.SendOpts),
     SlackDelivery.merged_extraProps this opts !! "attachments" = None ->
     exists l,
       SlackDelivery.sent_message env this opts !! "attachments" = Some (PAttachments l)
       /\ length l
          = length (Slack._attachments this)
            + (match Slack._actions this with [] => 0 | _ :: _ => 1 end)
            + (if default true (Slack.so_defaultAttachment opts) then 1 else 0)
       /\ (Slack.logCondition env = true ->
           snd (Slack.send env this opts w)
           = {| logs := logs w ++
                  [LogInfo (SlackRecord (Object_assign {["label" := PStr "Slack"]}
                                           (SlackDelivery.sent_message env this opts)))
                           "Slack message"];
                requests := requests w |})
       /\ (Slack.logCondition env = false ->
           JS.truthy (conf_webhook (getSlackConf env)) = true ->
           requests (snd (Slack.send env this opts w))
           = requests w ++
             [PostJson (conf_webhook (getSlackConf env))
                       (SlackPayload (SlackDelivery.sent_message env this opts))])
       /\ (Slack.logCondition env = false ->
           JS.truthy (conf_webhook (getSlackConf env)) = false ->
           requests (snd (Slack.send env this opts w))
           = requests w ++
             [PostForm "https://slack.com/api/chat.postMessage"
                (<["token" := PStr (conf_token (getSlackConf env))]>
                   (<["attachments" := PJson (PAttachments l)]>
                      (SlackDelivery.sent_message env this opts)))]))
  /\ (forall (this : Teams.t) (defaultAttachment : option bool),
        JS.truthy_opt (Teams._summary this) || JS.truthy_opt (Teams._text this) = true ->
        exists card l,
          card = Teams.message_of env (Teams.card_of this)
                                  (Some (default true defaultAttachment))
          /\ mc_sections card = Some l
          /\ length l
             = length (Teams._sections this)
               + (if default true defaultAttachment then 1 else 0)
          /\ (Teams.logCondition env = true ->
              snd (Teams.send env this defaultAttachment w)
              = {| logs := logs w ++ [LogInfo (TeamsRecord "Teams" card) "Teams message"];
                   requests := requests w |})
          /\ (forall url,
                Teams.logCondition env = false ->
                Teams.getTeamsWebhookUrl env (Teams._channel this) = Some url ->
                JS.truthy url = true ->
                requests (snd (Teams.send env this defaultAttachment w))
                = requests w ++ [PostJson url (TeamsPayload card)])).
Proof.
  split.
  - intros this opts Hextra.
    pose proof (SlackDelivery.message_attachments env (Slack._text this)
                  (SlackDelivery.post_opts this opts) Hextra) as Hm.
    fold (SlackDelivery.sent_message env this opts) in Hm.
    exists (if default true (Slack.so_defaultAttachment opts)
            then Slack._attachments (SlackDelivery.after_send this)
                 ++ Slack.getDefaultAttachments env
            else Slack._attachments (SlackDelivery.after_send this)).
    split; [exact Hm |].
    split.
    { unfold SlackDelivery.after_send, SlackDelivery.actions_attachment.
      destruct (Slack._actions this) as [|b bs];
        destruct (default true (Slack.so_defaultAttachment opts));
        cbn -[Slack.getDefaultAttachments];
        rewrite ?length_app; cbn; lia. }
    split.
    { intros Hlog. rewrite SlackDelivery.send_eq. cbn [snd].
      unfold Slack.postMessage. rewrite Hlog. reflexivity. }
    split.
    { intros Hlog Hhook. rewrite SlackDelivery.send_eq. cbn [snd].
      unfold Slack.postMessage. rewrite Hlog, Hhook.
      apply Transport.requests_postWithWebhook. }
    intros Hlog Hhook. rewrite SlackDelivery.send_eq. cbn [snd].
    unfold Slack.postMessage. rewrite Hlog, Hhook.
    rewrite Transport.requests_postWithToken.
    unfold Transport.token_request, Transport.encoded.
    fold (SlackDelivery.sent_message env this opts).
    rewrite Hm. reflexivity.
  - intros this da Hvalid.
    exists (Teams.message_of env (Teams.card_of this) (Some (default true da))),
           (if default true da
            then Teams._sections this ++ Teams.getDefaultAttachments env
            else Teams._sections this).
    split; [reflexivity |].
    split.
    { unfold Teams.message_of.
      destruct (default true da); reflexivity. }
    split.
    { destruct (default true da); cbn -[Teams.getDefaultAttachments];
        rewrite ?length_app; cbn; lia. }
    split.
    { intros Hlog. rewrite Delivery.teams_send_valid by exact Hvalid. cbn [snd].
      unfold Teams.postMessage. rewrite Hlog. reflexivity. }
    intros url Hlog Hurl Htruthy.
    rewrite Delivery.teams_send_valid by exact Hvalid. cbn [snd].
    unfold Teams.postMessage. rewrite Hlog, Hurl, Htruthy.
    apply Transport.requests_teams_postMessage.
Qed.

Lemma C6_payload_count_amended_witness :
  let env := Sample.env false "https://hooks.example/slack" Sample.ops_teams None
                        (Response 200 "ok") in
  exists l,
    SlackDelivery.sent_message env (Slack.new (Some "hi") None)
      {| Slack.so_defaultAttachment := None; Slack.so_extraProps := None |} !! "attachments"
    = Some (PAttachments l)
    /\ length l = 1.
Proof.
  intros env.
  destruct (C6_payload_count_amended env empty_world) as [Hslack _].
  destruct (Hslack (Slack.new (Some "hi") None)
              {| Slack.so_defaultAttachment := None; Slack.so_extraProps := None |}
              eq_refl) as (l & Hm & Hlen & _).
  exists l. split; [exact Hm | exact Hlen].
Defined.

(** C6 as stated fails for the Field-style provider: a builder to which the
    caller added no attachment, only a button, and which is sent with
    [defaultAttachment] false, posts a message with one attachment. *)
Lemma C6_counterexample :
  let env := Sample.env false "https://hooks.example/slack" Sample.no_teams None
                        (Response 200 "ok") in
  let this := Slack.button (Slack.new (Some "hi") None) "Docs" "https://example.com/docs" None in
  exists message l,
    requests (snd (Slack.send env this
                     {| Slack.so_defaultAttachment := Some false;
                        Slack.so_extraProps := None |} empty_world))
    = [PostJson "https://hooks.example/slack" (SlackPayload message)]
    /\ message !! "attachments" = Some (PAttachments l)
    /\ length l = 1
    /\ length (Slack._attachments this) = 0.
Proof. eexists _, _. repeat split. Qed.

(** ** What [send] does to the builder *)

Module Frame.

(** Card-style [send] hands the instance back as it was. *)
Lemma teams_send_keeps_builder env this da w :
  snd (fst (Teams.send env this da w)) = this.
Proof.
  unfold Teams.send.
  destruct (_ && _); [reflexivity |].
  destruct (Teams.postMessage _ _ _ _ _); reflexivity.
Qed.

(** Field-style [send] keeps everything but the attachments, and keeps those
    too when no button is pending. *)
Lemma slack_send_keeps env this opts w :
  let this' := snd (fst (Slack.send env this opts w)) in
  Slack._text this' = Slack._text this
  /\ Slack._channel this' = Slack._channel this
  /\ Slack._extraProps this' = Slack._extraProps this
  /\ Slack._actions this' = Slack._actions this
  /\ Slack._errors this' = Slack._errors this
  /\ (Slack._actions this = [] -> this' = this).
Proof.
  rewrite SlackDelivery.send_eq. cbn [fst snd].
  destruct (SlackDelivery.after_send_frame this) as (H1 & H2 & H3 & H4 & H5).
  repeat (split; [assumption |]).
  intros Hnil. unfold SlackDelivery.after_send. now rewrite Hnil.
Qed.

(** With a button pending, Field-style [send] leaves one more attachment on
    the instance. *)
Lemma slack_send_grows env this opts w b bs :
  Slack._actions this = b :: bs ->
  Slack._attachments (snd (fst (Slack.send env this opts w)))
  = Slack._attachments this ++ [SlackDelivery.actions_attachment (b :: bs)].
Proof.
  intros H. rewrite SlackDelivery.send_eq. cbn [fst snd].
  unfold SlackDelivery.after_send. rewrite H. reflexivity.
Qed.

End Frame.

(** C4, evaluated where the code departs from it.  A Field-style builder with
    a text and one button holds no attachment; after one [send()] it holds
    one, after a second two; and with the same options the two calls log
    different messages, the first with two attachments (the buttons' and the
    default one), the second with three. *)
Theorem C4_second_send_differs :
  let env := Sample.env true EmptyString Sample.no_teams None (Response 200 "ok") in
  let opts := {| Slack.so_defaultAttachment := None; Slack.so_extraProps := None |} in
  let this0 :=
    Slack.button (Slack.new (Some "hi") None) "Docs" "https://example.com/docs" None in
  let first := Slack.send env this0 opts empty_world in
  let this1 := snd (fst first) in
  let second := Slack.send env this1 opts (snd first) in
  let this2 := snd (fst second) in
  length (Slack._attachments this0) = 0
  /\ length (Slack._attachments this1) = 1
  /\ length (Slack._attachments this2) = 2
  /\ exists m1 m2 l1 l2,
       logs (snd second) = [LogInfo (SlackRecord m1) "Slack message";
                            LogInfo (SlackRecord m2) "Slack message"]
       /\ m1 !! "attachments" = Some (PAttachments l1)
       /\ m2 !! "attachments" = Some (PAttachments l2)
       /\ length l1 = 2
       /\ length l2 = 3.
Proof.
  cbv zeta. repeat split.
  eexists _, _, _, _. repeat split.
Qed.

(** C1, as the code has it.  Field-style [send()] always resolves: whatever
    the HTTP client does, nothing is thrown to the caller.  Outside test mode
    it hands the assembled message to the webhook transport when a webhook is
    configured and to the token transport otherwise.  The webhook transport
    logs a rejection of the client (message, no status, no body, the error)
    and any response whose status is not 200 (message, status, body).  The
    token transport logs a rejection of the client, a body that
    [JSON.parse] refuses and a body that parses to [null] (message as sent,
    status, body, the error), and a body that parses to an object whose
    [error] is truthy (message as sent, the parsed body). *)
Theorem C1_network_failures_contained (env : Env) (w : World) :
  (forall (this : Slack.t) (opts : Slack.SendOpts),
     fst (fst (Slack.send env this opts w)) = Returns tt)
  /\ (forall (this : Slack.t) (opts : Slack.SendOpts),
        Slack.logCondition env = false ->
        snd (Slack.send env this opts w)
        = snd ((if JS.truthy (conf_webhook (getSlackConf env))
                then Slack._postWithWebhook else Slack._postWithToken)
                 env (SlackDelivery.sent_message env this opts) w))
  /\ (forall (message : SlackObject),
        let request := PostJson (conf_webhook (getSlackConf env)) (SlackPayload message) in
        let w' := snd (Slack._postWithWebhook env message w) in
        requests w' = requests w ++ [request]
        /\ (forall err,
              fetch env (requests w) request = Rejection err ->
              logs w' = logs w ++
                [LogError [ArgMessage (SlackPayload message); ArgStatus None;
                           ArgBody None; ArgError err]])
        /\ (forall statusCode body,
              fetch env (requests w) request = Response statusCode body ->
              statusCode <> 200%Z ->
              logs w' = logs w ++
                [LogError [ArgMessage (SlackPayload message);
                           ArgStatus (Some statusCode); ArgBody (Some body)]]))
  /\ (forall (message : SlackObject),
        let sent := Transport.encoded message in
        let request :=
          PostForm "https://slack.com/api/chat.postMessage"
                   (<["token" := PStr (conf_token (getSlackConf env))]> sent) in
        let w' := snd (Slack._postWithToken env message w) in
        requests w' = requests w ++ [request]
        /\ (forall err,
              fetch env (requests w) request = Rejection err ->
              logs w' = logs w ++
                [LogError [ArgMessage (SlackPayload sent); ArgStatus None;
                           ArgBody None; ArgError err]])
        /\ (forall statusCode body err,
              fetch env (requests w) request = Response statusCode body ->
              JSON_parse env body = inr err ->
              logs w' = logs w ++
                [LogError [ArgMessage (SlackPayload sent); ArgStatus (Some statusCode);
                           ArgBody (Some body); ArgError err]])
        /\ (forall statusCode body,
              fetch env (requests w) request = Response statusCode body ->
              JSON_parse env body = inl JS.VNull ->
              exists err,
                logs w' = logs w ++
                  [LogError [ArgMessage (SlackPayload sent); ArgStatus (Some statusCode);
                             ArgBody (Some body); ArgError err]])
        /\ (forall statusCode body props error_,
              fetch env (requests w) request = Response statusCode body ->
              JSON_parse env body = inl (JS.VObject props) ->
              JS.lookup_prop "error" props = Some error_ ->
              JS.truthy_value error_ = true ->
              logs w' = logs w ++
                [LogError [ArgMessage (SlackPayload sent);
                           ArgParsed (JS.VObject props)]])).
Proof.
  split.
  { intros this opts. rewrite SlackDelivery.send_eq. cbn [fst].
    apply SlackDelivery.postMessage_outcome. }
  split.
  { intros this opts Hlog. rewrite SlackDelivery.send_eq. cbn [snd].
    unfold Slack.postMessage. rewrite Hlog.
    fold (SlackDelivery.sent_message env this opts).
    destruct (JS.truthy _); reflexivity. }
  split.
  - intros message request w'.
    split; [apply Transport.requests_postWithWebhook |].
    subst w'. unfold Slack._postWithWebhook, connect_fetch. fold request.
    split.
    + intros err ->. reflexivity.
    + intros statusCode body -> Hne.
      apply Z.eqb_neq in Hne. rewrite Hne. reflexivity.
  - intros message sent request w'.
    split; [apply Transport.requests_postWithToken |].
    subst w'. unfold Slack._postWithToken, connect_fetch.
    fold (Transport.encoded message). fold sent. fold request.
    split; [intros err ->; reflexivity |].
    split; [intros statusCode body err -> ->; reflexivity |].
    split; [intros statusCode body -> ->; eexists; reflexivity |].
    intros statusCode body props error_ -> -> Hprop Htruthy.
    cbn [JS.get_prop]. rewrite Hprop. cbn [default from_option id].
    rewrite Htruthy. reflexivity.
Qed.

Lemma C1_network_failures_contained_witness :
  let env := Sample.env false "https://hooks.example/slack" Sample.no_teams None
                        (Response 503 "unavailable") in
  let message := SlackDelivery.sent_message env (Slack.new (Some "hi") None)
                   {| Slack.so_defaultAttachment := None; Slack.so_extraProps := None |} in
  logs (snd (Slack._postWithWebhook env message empty_world))
  = [LogError [ArgMessage (SlackPayload message); ArgStatus (Some 503%Z);
               ArgBody (Some "unavailable")]].
Proof.
  intros env message.
  destruct (C1_network_failures_contained env empty_world) as (_ & _ & Hhook & _).
  destruct (Hhook message) as (_ & _ & Hstatus).
  apply (Hstatus 503%Z "unavailable"); [reflexivity | discriminate].
Defined.

(** C1 as stated fails on the token transport: a response of status 500
    whose body is the JSON object with no property is neither thrown nor
    logged. *)
Lemma C1_counterexample :
  let env := Sample.env false EmptyString Sample.no_teams None (Response 500 "{}") in
  exists this' w' request,
    Slack.send env (Slack.new (Some "hi") None)
               {| Slack.so_defaultAttachment := None; Slack.so_extraProps := None |}
               empty_world
    = (Returns tt, this', w')
    /\ requests w' = [request]
    /\ fetch env [] request = Response 500 "{}"
    /\ JSON_parse env "{}" = inl (JS.VObject [])
    /\ logs w' = [].
Proof. eexists _, _, _. repeat split. Qed.

(** ** Field-style [escapeText] *)

Module FieldEscape.

(** One of the three characters that [escapeText] rewrites. *)
Definition special (c : ascii) : bool :=
  Ascii.eqb c "<" || Ascii.eqb c ">" || Ascii.eqb c "&".

Fixpoint has_special (s : string) : bool :=
  match s with
  | EmptyString => false
  | String c rest => special c || has_special rest
  end.

(** What one character becomes. *)
Definition entity (c : ascii) : string :=
  if Ascii.eqb c "<" then "&lt;"
  else if Ascii.eqb c ">" then "&gt;"
  else if Ascii.eqb c "&" then "&amp;"
  else String c EmptyString.

Lemma escape_cons c s : Slack.escapeText (String c s) = entity c +:+ Slack.escapeText s.
Proof. reflexivity. Qed.

Lemma escape_app a b :
  Slack.escapeText (a +:+ b) = Slack.escapeText a +:+ Slack.escapeText b.
Proof.
  induction a as [|c a IH]; [reflexivity |].
  rewrite str_app_cons, !escape_cons, IH, str_app_assoc. reflexivity.
Qed.

Lemma entity_plain c : special c = false -> entity c = String c EmptyString.
Proof.
  unfold special, entity. intros H.
  destruct (Ascii.eqb c "<"); [discriminate |].
  destruct (Ascii.eqb c ">"); [discriminate |].
  destruct (Ascii.eqb c "&"); [discriminate | reflexivity].
Qed.

(** The cases of a character: one of the three, or none of them. *)
Lemma special_cases c :
  (c = "<"%char /\ entity c = "&lt;")
  \/ (c = ">"%char /\ entity c = "&gt;")
  \/ (c = "&"%char /\ entity c = "&amp;")
  \/ (special c = false /\ entity c = String c EmptyString).
Proof.
  unfold special, entity.
  destruct (Ascii.eqb_spec c "<") as [-> | _]; [left; split; reflexivity |].
  destruct (Ascii.eqb_spec c ">") as [-> | _]; [right; left; split; reflexivity |].
  destruct (Ascii.eqb_spec c "&") as [-> | _]; [right; right; left; split; reflexivity |].
  right; right; right. split; reflexivity.
Qed.

Lemma escape_plain s : has_special s = false -> Slack.escapeText s = s.
Proof.
  induction s as [|c s IH]; [reflexivity |].
  cbn [has_special]. intros H. apply orb_false_elim in H as [Hc Hs].
  rewrite escape_cons, entity_plain, IH by assumption. reflexivity.
Qed.

Lemma entity_length c : 1 <= String.length (entity c).
Proof.
  destruct (special_cases c) as [[_ ->] | [[_ ->] | [[_ ->] | [_ ->]]]]; simpl; lia.
Qed.

Lemma entity_length_special c : special c = true -> 2 <= String.length (entity c).
Proof.
  destruct (special_cases c) as [[_ ->] | [[_ ->] | [[_ ->] | [H _]]]]; simpl; try lia.
  rewrite H. discriminate.
Qed.

Lemma escape_length s : String.length s <= String.length (Slack.escapeText s).
Proof.
  induction s as [|c s IH]; [reflexivity |].
  rewrite escape_cons, str_length_app. pose proof (entity_length c). simpl. lia.
Qed.

Lemma escape_length_special s :
  has_special s = true -> String.length s < String.length (Slack.escapeText s).
Proof.
  induction s as [|c s IH]; [discriminate |].
  cbn [has_special]. intros H.
  rewrite escape_cons, str_length_app. simpl.
  destruct (special c) eqn:Ec.
  - pose proof (entity_length_special c Ec). pose proof (escape_length s). lia.
  - pose proof (entity_length c). specialize (IH H). lia.
Qed.

Lemma escape_fixed_iff s : Slack.escapeText s = s <-> has_special s = false.
Proof.
  split; [| apply escape_plain].
  intros H. destruct (has_special s) eqn:E; [| reflexivity].
  pose proof (escape_length_special s E) as Hlt. rewrite H in Hlt. lia.
Qed.

Lemma entity_keeps_special c : special c = true -> has_special (entity c) = true.
Proof.
  destruct (special_cases c) as [[_ ->] | [[_ ->] | [[_ ->] | [H _]]]]; try reflexivity.
  rewrite H. discriminate.
Qed.

Lemma has_special_app a b : has_special (a +:+ b) = has_special a || has_special b.
Proof.
  induction a as [|c a IH]; [reflexivity |].
  rewrite str_app_cons. cbn [has_special]. rewrite IH. apply orb_assoc.
Qed.

Lemma escape_keeps_special s :
  has_special s = true -> has_special (Slack.escapeText s) = true.
Proof.
  induction s as [|c s IH]; [discriminate |].
  cbn [has_special]. intros H.
  rewrite escape_cons, has_special_app.
  destruct (special c) eqn:Ec.
  - now rewrite entity_keeps_special.
  - rewrite IH by exact H. apply orb_true_r.
Qed.

Lemma entity_no_angle c :
  JS.includes_char "<" (entity c) = false /\ JS.includes_char ">" (entity c) = false.
Proof.
  destruct (special_cases c) as [[_ ->] | [[_ ->] | [[_ ->] | [H ->]]]];
    try (split; reflexivity).
  unfold special in H. apply orb_false_elim in H as [H _].
  apply orb_false_elim in H as [Hlt Hgt].
  cbn [JS.includes_char]. rewrite (Ascii.eqb_sym "<" c), (Ascii.eqb_sym ">" c), Hlt, Hgt.
  split; reflexivity.
Qed.

(** Two characters whose entities, followed by anything, agree are the same
    character, and what follows agrees too. *)
Lemma entity_inj c d a b : entity c +:+ a = entity d +:+ b -> c = d /\ a = b.
Proof.
  destruct (special_cases c) as [[-> ->] | [[-> ->] | [[-> ->] | [Hc ->]]]];
    destruct (special_cases d) as [[-> ->] | [[-> ->] | [[-> ->] | [Hd ->]]]];
    intros H; rewrite ?str_app_cons, ?str_app_nil_l in H;
    inversion H; subst; clear H;
    try (split; reflexivity);
    try (cbv in Hc; discriminate Hc);
    try (cbv in Hd; discriminate Hd).
Qed.

End FieldEscape.

(** X1.  Field-style [escapeText] works character by character: the escape of
    a concatenation is the concatenation of the escapes, each of [<], [>] and
    [&] becomes its entity, and any other character stays. *)
Theorem X1_field_escape_characterwise (a b : string) (c : ascii) :
  Slack.escapeText (a +:+ b) = Slack.escapeText a +:+ Slack.escapeText b
  /\ Slack.escapeText "<" = "&lt;"
  /\ Slack.escapeText ">" = "&gt;"
  /\ Slack.escapeText "&" = "&amp;"
  /\ (FieldEscape.special c = false ->
      Slack.escapeText (String c EmptyString) = String c EmptyString).
Proof.
  split; [apply FieldEscape.escape_app |].
  repeat (split; [reflexivity |]).
  intros Hc. apply FieldEscape.escape_plain. cbn. now rewrite Hc.
Qed.

(** X2.  The text that Field-style [escapeText] returns holds neither [<] nor
    [>], is never shorter than its input, and is the input itself exactly
    when the input holds none of [<], [>] and [&]. *)
Theorem X2_field_escape_output (s : string) :
  JS.includes_char "<" (Slack.escapeText s) = false
  /\ JS.includes_char ">" (Slack.escapeText s) = false
  /\ String.length s <= String.length (Slack.escapeText s)
  /\ (Slack.escapeText s = s <-> FieldEscape.has_special s = false).
Proof.
  split; [| split; [| split; [apply FieldEscape.escape_length
                            | apply FieldEscape.escape_fixed_iff]]].
  - induction s as [|c s IH]; [reflexivity |].
    rewrite FieldEscape.escape_cons, ErrorFacts.includes_app, IH.
    now rewrite (proj1 (FieldEscape.entity_no_angle c)).
  - induction s as [|c s IH]; [reflexivity |].
    rewrite FieldEscape.escape_cons, ErrorFacts.includes_app, IH.
    now rewrite (proj2 (FieldEscape.entity_no_angle c)).
Qed.

(** X3.  Field-style [escapeText] loses nothing: two texts with the same
    escape are the same text. *)
Theorem X3_field_escape_injective (s t : string) :
  Slack.escapeText s = Slack.escapeText t <-> s = t.
Proof.
  split; [| intros ->; reflexivity].
  revert t. induction s as [|c s IH]; intros [|d t] H.
  - reflexivity.
  - exfalso. rewrite FieldEscape.escape_cons in H.
    pose proof (FieldEscape.entity_length d) as Hd.
    apply (f_equal String.length) in H. rewrite str_length_app in H.
    simpl in H. lia.
  - exfalso. rewrite FieldEscape.escape_cons in H.
    pose proof (FieldEscape.entity_length c) as Hc.
    apply (f_equal String.length) in H. rewrite str_length_app in H.
    simpl in H. lia.
  - rewrite !FieldEscape.escape_cons in H.
    apply FieldEscape.entity_inj in H as [-> H].
    now rewrite (IH t H).
Qed.

(** X4.  Field-style [escapeText] does not recognise text that is already
    escaped: escaping twice gives the same as escaping once exactly when the
    text holds none of the three characters; otherwise the second pass
    lengthens the text again. *)
Theorem X4_field_escape_twice (s : string) :
  (Slack.escapeText (Slack.escapeText s) = Slack.escapeText s
   <-> FieldEscape.has_special s = false)
  /\ (FieldEscape.has_special s = true ->
      String.length (Slack.escapeText s)
      < String.length (Slack.escapeText (Slack.escapeText s)))
  /\ Slack.escapeText (Slack.escapeText "&") = "&amp;amp;".
Proof.
  split; [| split; [| reflexivity]].
  - rewrite FieldEscape.escape_fixed_iff.
    destruct (FieldEscape.has_special s) eqn:E.
    + rewrite FieldEscape.escape_keeps_special by exact E. split; discriminate.
    + rewrite FieldEscape.escape_plain by exact E. rewrite E. split; reflexivity.
  - intros E. apply FieldEscape.escape_length_special.
    now apply FieldEscape.escape_keeps_special.
Qed.

(** ** More on Card-style [escapeText] *)

Module CardEscape.

Fixpoint count_newlines (s : string) : nat :=
  match s with
  | EmptyString => 0
  | String c rest => (if Ascii.eqb c JS.nl then 1 else 0) + count_newlines rest
  end.

Lemma count_app a b : count_newlines (a +:+ b) = count_newlines a + count_newlines b.
Proof.
  induction a as [|c a IH]; [reflexivity |].
  rewrite str_app_cons. cbn [count_newlines]. rewrite IH. lia.
Qed.

Lemma count_marked_breaks n : count_newlines (EscapeText.marked_breaks n) = n.
Proof.
  induction n as [|n IH]; [reflexivity |].
  cbn [EscapeText.marked_breaks]. rewrite !count_app, IH. reflexivity.
Qed.

Lemma count_breaks k : count_newlines (EscapeText.breaks k) = k.
Proof.
  destruct k as [|k]; [reflexivity |].
  cbn [EscapeText.breaks]. rewrite count_app, count_marked_breaks. reflexivity.
Qed.

Lemma length_marked_breaks n : String.length (EscapeText.marked_breaks n) = 10 * n.
Proof.
  induction n as [|n IH]; [reflexivity |].
  cbn [EscapeText.marked_breaks]. rewrite !str_length_app, IH.
  change (String.length EscapeText.marker) with 6.
  change (String.length EscapeText.break_seq) with 4. lia.
Qed.

Lemma length_breaks k : 4 * k <= String.length (EscapeText.breaks k).
Proof.
  destruct k as [|k]; [reflexivity |].
  cbn [EscapeText.breaks]. rewrite str_length_app, length_marked_breaks.
  change (String.length EscapeText.break_seq) with 4. lia.
Qed.

(** The scan with a run of [k] newlines pending: newlines are kept, and each
    costs at least three more characters. *)
Lemma scan_measure s : forall k,
  count_newlines (EscapeText.scan (EscapeText.newlines k) s) = k + count_newlines s
  /\ 4 * k + String.length s + 3 * count_newlines s
     <= String.length (EscapeText.scan (EscapeText.newlines k) s).
Proof.
  induction s as [|c s IH]; intros k.
  - change (EscapeText.scan (EscapeText.newlines k) EmptyString)
      with (JS.emit Teams.escape_run (EscapeText.newlines k)).
    rewrite EscapeText.emit_newlines, count_breaks.
    pose proof (length_breaks k). simpl. lia.
  - cbn [JS.replace_newline_runs count_newlines String.length].
    destruct (Ascii.eqb_spec c JS.nl) as [-> | Hne].
    + rewrite EscapeText.newlines_snoc.
      destruct (IH (S k)) as [Hc Hl]. split; lia.
    + rewrite EscapeText.emit_newlines.
      rewrite count_app, str_length_app, count_breaks.
      cbn [count_newlines String.length].
      apply Ascii.eqb_neq in Hne. rewrite Hne.
      destruct (IH 0) as [Hc Hl].
      change (EscapeText.newlines 0) with EmptyString in Hc, Hl.
      pose proof (length_breaks k). split; lia.
Qed.

Lemma count_includes s :
  JS.includes_char JS.nl s = false <-> count_newlines s = 0.
Proof.
  induction s as [|c s IH]; [split; reflexivity |].
  cbn [JS.includes_char count_newlines]. rewrite (Ascii.eqb_sym JS.nl c).
  destruct (Ascii.eqb c JS.nl); [split; [discriminate | lia] |].
  rewrite IH. split; lia.
Qed.

Lemma escape_measure s :
  count_newlines (Teams.escapeText s) = count_newlines s
  /\ String.length s + 3 * count_newlines s <= String.length (Teams.escapeText s).
Proof.
  rewrite EscapeText.escapeText_scan.
  destruct (scan_measure s 0) as [Hc Hl].
  change (EscapeText.newlines 0) with EmptyString in Hc, Hl. split; lia.
Qed.

(** A text and its escape are empty together. *)
Lemma escape_truthy s : JS.truthy (Teams.escapeText s) = JS.truthy s.
Proof.
  destruct s as [|c s]; [reflexivity |].
  destruct (escape_measure (String c s)) as [_ Hl].
  destruct (Teams.escapeText (String c s)); [simpl in Hl; lia | reflexivity].
Qed.

Lemma replace_first_absent c by_ s :
  JS.includes_char c s = false -> JS.replace_first_char c by_ s = s.
Proof.
  induction s as [|d s IH]; [reflexivity |].
  cbn [JS.includes_char JS.replace_first_char].
  destruct (Ascii.eqb c d); [discriminate |].
  intros H. now rewrite IH.
Qed.

Lemma replace_first_app c by_ a b :
  JS.includes_char c a = false ->
  JS.replace_first_char c by_ (a +:+ String c b) = a +:+ by_ +:+ b.
Proof.
  induction a as [|d a IH].
  - intros _. rewrite !str_app_nil_l. cbn [JS.replace_first_char].
    now rewrite Ascii.eqb_refl.
  - cbn [JS.includes_char]. rewrite !str_app_cons. cbn [JS.replace_first_char].
    destruct (Ascii.eqb c d); [discriminate |].
    intros H. now rewrite IH.
Qed.

End CardEscape.

(** X5.  Card-style [escapeText] keeps every newline (as many newlines come
    out as went in), adds at least three characters for each, and is not to
    be applied twice: escaping an escaped text gives the same text exactly
    when the original holds no newline. *)
Theorem X5_card_escape_measure (s : string) :
  CardEscape.count_newlines (Teams.escapeText s) = CardEscape.count_newlines s
  /\ String.length s + 3 * CardEscape.count_newlines s
     <= String.length (Teams.escapeText s)
  /\ (Teams.escapeText (Teams.escapeText s) = Teams.escapeText s
      <-> JS.includes_char JS.nl s = false).
Proof.
  destruct (CardEscape.escape_measure s) as [Hc Hl].
  split; [exact Hc |]. split; [exact Hl |].
  split.
  - intros H. apply CardEscape.count_includes.
    destruct (CardEscape.escape_measure (Teams.escapeText s)) as [_ Hl2].
    rewrite H, Hc in Hl2. lia.
  - intros H.
    rewrite !EscapeText.escapeText_scan.
    rewrite (EscapeText.scan_no_newline s H).
    apply EscapeText.scan_no_newline, H.
Qed.

(** X6.  Card-style [color] stores the color without its first [#]: a color
    with no [#] is stored as it is, one [#] (the first, wherever it stands) is
    dropped, a later one is kept; nothing else of the builder changes. *)
Theorem X6_card_color_strips_hash (this : Teams.t) (a b : string) :
  (JS.includes_char "#" a = false ->
   Teams._themeColor (Teams.color this a) = a
   /\ Teams._themeColor (Teams.color this (a +:+ String "#" b)) = a +:+ b)
  /\ Teams._themeColor (Teams.color this (String "#" b)) = b
  /\ Teams._sections (Teams.color this a) = Teams._sections this
  /\ Teams._actions (Teams.color this a) = Teams._actions this
  /\ Teams._errors (Teams.color this a) = Teams._errors this
  /\ Teams._text (Teams.color this a) = Teams._text this
  /\ Teams._title (Teams.color this a) = Teams._title this
  /\ Teams._summary (Teams.color this a) = Teams._summary this
  /\ Teams._channel (Teams.color this a) = Teams._channel this.
Proof.
  split; [| repeat split].
  intros Ha. cbn [Teams.color Teams._themeColor]. split.
  - now apply CardEscape.replace_first_absent.
  - rewrite CardEscape.replace_first_app by exact Ha. reflexivity.
Qed.

Lemma X6_card_color_strips_hash_witness :
  Teams._themeColor (Teams.color (Teams.new None None) "439FE0") = "439FE0"
  /\ Teams._themeColor (Teams.color (Teams.new None None) "#F00") = "F00".
Proof.
  destruct (X6_card_color_strips_hash (Teams.new None None) "439FE0" "F00")
    as (Hplain & Hhash & _).
  split; [apply Hplain; reflexivity | exact Hhash].
Defined.

(** ** Formatting and the simple setters *)

(** X7.  Field-style [format] nests its delimiters: code innermost, then
    bold, italics, and strikethrough outermost, the closing delimiters
    mirroring the opening ones; called without options it makes the text
    bold, and with an options object that sets no flag it returns the text
    as it is. *)
Theorem X7_format_nesting (txt : string) (o : Slack.FormatOpts) :
  let opening :=
    (if Slack.fmt_strikethrough o then "~" else EmptyString) +:+
    (if Slack.fmt_italics o then "_" else EmptyString) +:+
    (if Slack.fmt_bold o then "*" else EmptyString) +:+
    (if Slack.fmt_code o then "`" else EmptyString) in
  Slack.format txt (Some o) = opening +:+ txt +:+ String.rev opening
  /\ Slack.format txt None = "*" +:+ txt +:+ "*"
  /\ Slack.format txt (Some {| Slack.fmt_code := false; Slack.fmt_bold := false;
                               Slack.fmt_italics := false;
                               Slack.fmt_strikethrough := false |}) = txt.
Proof.
  split; [| split; reflexivity].
  destruct o as [[] [] [] []]; cbv [Slack.format default from_option id
    Slack.fmt_code Slack.fmt_bold Slack.fmt_italics Slack.fmt_strikethrough];
    repeat (rewrite str_app_cons || rewrite str_app_nil_l
            || rewrite str_app_assoc || rewrite str_app_nil_r);
    cbv [String.rev String.rev_app];
    repeat (rewrite str_app_cons || rewrite str_app_nil_l
            || rewrite str_app_assoc || rewrite str_app_nil_r);
    reflexivity.
Qed.

Module Setters.

Definition forget_fallback (a : attach) : attach :=
  {| att_title := att_title a; att_pretext := att_pretext a; att_text := att_text a;
     att_color := att_color a; att_fallback := None;
     att_fields := att_fields a; att_actions := att_actions a;
     att_footer := att_footer a; att_ts := att_ts a |}.

Lemma forget_set_fallback a f : forget_fallback (Slack.set_fallback a f) = forget_fallback a.
Proof. reflexivity. Qed.

End Setters.

(** X8.  Field-style [summary] writes the fallback of the first attachment
    and nothing else: the attachments keep their number, all but the first
    are untouched, and the first changes in its fallback only.  On a builder
    with no attachment it does nothing, so a summary given before the first
    attachment is lost, while one given after it replaces that attachment's
    own fallback. *)
Theorem X8_summary_first_fallback (this : Slack.t) (fallback : string) (a : attach) :
  length (Slack._attachments (Slack.summary this fallback))
    = length (Slack._attachments this)
  /\ tail (Slack._attachments (Slack.summary this fallback))
     = tail (Slack._attachments this)
  /\ List.map Setters.forget_fallback (Slack._attachments (Slack.summary this fallback))
     = List.map Setters.forget_fallback (Slack._attachments this)
  /\ (Slack._attachments this = [] ->
      Slack.summary this fallback = this
      /\ Slack.attachment (Slack.summary this fallback) (One a)
         = Slack.attachment this (One a)
      /\ Slack._attachments (Slack.summary (Slack.attachment this (One a)) fallback)
         = [Slack.set_fallback a fallback])
  /\ (att_fallback <$> head (Slack._attachments (Slack.summary this fallback)))
     = ((fun _ => Some fallback) <$> head (Slack._attachments this)).
Proof.
  unfold Slack.summary.
  destruct (Slack._attachments this) as [|b rest] eqn:E.
  - rewrite E. repeat split.
    unfold Slack.attachment, Slack.set_attachments. cbn. rewrite E. reflexivity.
  - repeat split;
      match goal with Hnil : _ :: _ = [] |- _ => discriminate Hnil end.
Qed.

Lemma X8_summary_first_fallback_witness :
  Slack.summary (Slack.new (Some "hi") None) "short" = Slack.new (Some "hi") None.
Proof.
  apply (X8_summary_first_fallback (Slack.new (Some "hi") None) "short" empty_attach).
  reflexivity.
Defined.

(** X9.  Field-style [icon] files its argument under [icon_emoji] when it
    starts with a colon and under [icon_url] otherwise (the empty string
    too), and leaves every other extra property as it was, the other icon
    property included: an emoji given after an address does not remove the
    address. *)
Theorem X9_icon_kind (this : Slack.t) (linkOrEmoji : string) :
  let key := match linkOrEmoji with
             | String c _ => if Ascii.eqb c ":" then "icon_emoji" else "icon_url"
             | EmptyString => "icon_url"
             end in
  Slack._extraProps (Slack.icon this linkOrEmoji) !! key = Some (PStr linkOrEmoji)
  /\ (forall k, k <> key ->
        Slack._extraProps (Slack.icon this linkOrEmoji) !! k = Slack._extraProps this !! k)
  /\ Slack._attachments (Slack.icon this linkOrEmoji) = Slack._attachments this
  /\ Slack._actions (Slack.icon this linkOrEmoji) = Slack._actions this
  /\ Slack._text (Slack.icon this linkOrEmoji) = Slack._text this
  /\ Slack._channel (Slack.icon this linkOrEmoji) = Slack._channel this.
Proof.
  unfold Slack.icon.
  destruct linkOrEmoji as [|c rest]; [| destruct (Ascii.eqb c ":")];
    cbn [Slack.set_extraProps Slack._extraProps Slack._attachments Slack._actions
         Slack._text Slack._channel];
    (split; [apply lookup_insert_eq |]);
    (split; [intros k Hk; apply lookup_insert_ne; congruence |]);
    repeat split.
Qed.

(** X10.  The constructors' options are the chained setters: a non-empty
    [channel] and a non-empty [text] are set as [channel()] and [text()] set
    them (so the Card-style text is stored escaped), an empty or missing one
    is ignored, and a new builder holds no attachment, section, button or
    captured error. *)
Theorem X10_constructor_options (text_ channel_ : string) :
  (JS.truthy text_ = true -> JS.truthy channel_ = true ->
   Slack.new (Some text_) (Some channel_)
     = Slack.text (Slack.channel (Slack.new None None) channel_) text_
   /\ Teams.new (Some text_) (Some channel_)
      = Teams.text (Teams.channel (Teams.new None None) channel_) text_
   /\ Teams._text (Teams.new (Some text_) (Some channel_)) = Some (Teams.escapeText text_)
   /\ Slack._text (Slack.new (Some text_) (Some channel_)) = Some text_)
  /\ Slack.new (Some EmptyString) (Some EmptyString) = Slack.new None None
  /\ Teams.new (Some EmptyString) (Some EmptyString) = Teams.new None None
  /\ Slack._attachments (Slack.new (Some text_) (Some channel_)) = []
  /\ Slack._actions (Slack.new (Some text_) (Some channel_)) = []
  /\ Slack._errors (Slack.new (Some text_) (Some channel_)) = []
  /\ Teams._sections (Teams.new (Some text_) (Some channel_)) = []
  /\ Teams._actions (Teams.new (Some text_) (Some channel_)) = []
  /\ Teams._errors (Teams.new (Some text_) (Some channel_)) = []
  /\ Teams._themeColor (Teams.new (Some text_) (Some channel_)) = "439FE0".
Proof.
  split.
  - intros Ht Hc. unfold Slack.new, Teams.new. rewrite Ht, Hc. repeat split.
  - unfold Slack.new, Teams.new.
    destruct (JS.truthy text_), (JS.truthy channel_); repeat split.
Qed.

Lemma X10_constructor_options_witness :
  Teams._text (Teams.new (Some ("a" +:+ String JS.nl "b")) (Some "ops"))
  = Some ("a   " +:+ String JS.nl "b").
Proof.
  destruct (X10_constructor_options ("a" +:+ String JS.nl "b") "ops") as [H _].
  destruct (H eq_refl eq_refl) as (_ & _ & Ht & _).
  rewrite Ht. reflexivity.
Defined.

(** ** Configuration: channels, webhooks, token *)



(** X12.  Card-style [setWebhook(url, channel)] and the lookup made at
    delivery agree on the channel: reading back the channel that was set
    gives [url], with or without the [.default] suffix on either side, and
    without a channel on both sides; and a valid builder addressed to that
    channel, sent outside test mode after a non-empty [url] was set, resolves
    with exactly one POST, to [url]. *)
Theorem X12_setWebhook_round_trip (env : Env) (url : string) (channel_ : option string) :
  Teams.getTeamsWebhookUrl (Teams.setWebhook env url channel_) channel_ = Some url
  /\ (forall c, JS.includes_char "." c = false ->
        Teams.getTeamsWebhookUrl (Teams.setWebhook env url (Some c))
                                 (Some (c +:+ ".default")) = Some url
        /\ Teams.getTeamsWebhookUrl (Teams.setWebhook env url (Some (c +:+ ".default")))
                                    (Some c) = Some url)
  /\ (forall (this : Teams.t) (defaultAttachment : option bool) (w : World),
        JS.truthy url = true ->
        Teams.logCondition env = false ->
        JS.truthy_opt (Teams._summary this) || JS.truthy_opt (Teams._text this) = true ->
        Teams._channel this = channel_ ->
        fst (Teams.send (Teams.setWebhook env url channel_) this defaultAttachment w)
        = (Returns tt, this)
        /\ requests (snd (Teams.send (Teams.setWebhook env url channel_) this
                                     defaultAttachment w))
           = requests w ++
             [PostJson url
                (TeamsPayload (Teams.message_of env (Teams.card_of this)
                                 (Some (default true defaultAttachment))))]).
Proof.
  assert (Hget : forall ch,
            Teams.getTeamsWebhookUrl (Teams.setWebhook env url ch) ch = Some url).
  { intros ch. unfold Teams.getTeamsWebhookUrl, Teams.setWebhook.
    cbn [cfg_teams]. now rewrite String.eqb_refl. }
  split; [apply Hget |]. split.
  - intros c Hc. split.
    + unfold Teams.getTeamsWebhookUrl, Teams.setWebhook.
      cbn [cfg_teams default from_option id].
      rewrite Hc, ErrorFacts.includes_app, Hc. cbn [negb orb].
      now rewrite String.eqb_refl.
    + unfold Teams.getTeamsWebhookUrl, Teams.setWebhook.
      cbn [cfg_teams default from_option id].
      rewrite Hc, ErrorFacts.includes_app, Hc. cbn [negb orb].
      now rewrite String.eqb_refl.
  - intros this da w Hurl Hlog Hvalid Hch.
    rewrite Delivery.teams_send_valid by exact Hvalid. cbn [fst snd].
    unfold Teams.postMessage.
    change (Teams.logCondition (Teams.setWebhook env url channel_))
      with (Teams.logCondition env).
    rewrite Hlog, Hch, Hget, Hurl.
    split.
    + now rewrite Delivery.teams_postMessage_outcome.
    + apply Transport.requests_teams_postMessage.
Qed.

Lemma X12_setWebhook_round_trip_witness :
  let env := Teams.setWebhook
               (Sample.env false EmptyString Sample.no_teams None (Response 200 "1"))
               "https://teams.example/new" (Some "ops") in
  Teams.getTeamsWebhookUrl env (Some "ops.default") = Some "https://teams.example/new".
Proof.
  destruct (X12_setWebhook_round_trip
              (Sample.env false EmptyString Sample.no_teams None (Response 200 "1"))
              "https://teams.example/new" (Some "ops")) as (_ & H & _).
  destruct (H "ops" eq_refl) as [H1 _]. exact H1.
Defined.

(** ** The array that the builder and its carrying attachments share *)

Module Sharing.

Lemma imap_fixed (g : nat -> attach -> attach) (l : list attach) :
  (forall i a, l !! i = Some a -> g i a = a) -> imap g l = l.
Proof.
  intros H. rewrite (imap_ext g (const id) l) by exact H.
  rewrite imap_const. apply list_fmap_id.
Qed.

(** A write reaches the attachment at the one recorded position, the last,
    and no other. *)
Lemma share_last (actions : list action) (l : list attach) (c : attach) :
  Slack.share_actions [length l] actions (l ++ [c])
  = l ++ [Slack.set_att_actions c actions].
Proof.
  unfold Slack.share_actions. rewrite imap_app. f_equal.
  - apply imap_fixed. intros i a Hi. apply lookup_lt_Some in Hi.
    cbn [existsb]. destruct (Nat.eqb_spec i (length l)) as [-> | _]; [lia | reflexivity].
  - cbn [imap existsb]. rewrite Nat.add_0_r, Nat.eqb_refl. reflexivity.
Qed.

Lemma share_none (actions : list action) (l : list attach) :
  Slack.share_actions [] actions l = l.
Proof. apply imap_fixed. reflexivity. Qed.

End Sharing.

(** X13.  The attachment by which [send] carries the buttons holds the
    builder's own array.  For a builder with pending buttons, none of whose
    attachments shares that array yet (as after the constructor, or after
    [action]): [send] appends an attachment with an empty title and the
    pending buttons; a [button] called afterwards shows in that attachment
    too, since [push] writes to the array in place; once [action] has bound
    a new array, of the same buttons, a [button] no longer reaches it. *)
Theorem X13_button_reaches_sent_attachment (env : Env) (this : Slack.t)
    (opts : Slack.SendOpts) (w : World) (text_ url : string) (style : option string)
    (b : action) (bs : list action)
    (Hactions : Slack._actions this = b :: bs)
    (Hown : Slack._carriers this = []) :
  let sent := snd (fst (Slack.send env this opts w)) in
  let button_ :=
    {| act_type := "button"; act_text := text_; act_url := url;
       act_style := if JS.truthy (default EmptyString style)
                    then Some (default EmptyString style) else None |} in
  let carrying actions :=
    {| att_title := Some EmptyString; att_pretext := None; att_text := None;
       att_color := None; att_fallback := None; att_fields := None;
       att_actions := Some actions; att_footer := None; att_ts := None |} in
  Slack._attachments sent = Slack._attachments this ++ [carrying (b :: bs)]
  /\ Slack._actions (Slack.button sent text_ url style) = (b :: bs) ++ [button_]
  /\ Slack._attachments (Slack.button sent text_ url style)
     = Slack._attachments this ++ [carrying ((b :: bs) ++ [button_])]
  /\ Slack._actions (Slack.action_ sent (Many [])) = b :: bs
  /\ Slack._attachments (Slack.button (Slack.action_ sent (Many [])) text_ url style)
     = Slack._attachments this ++ [carrying (b :: bs)].
Proof.
  intros sent button_ carrying. subst sent.
  rewrite SlackDelivery.send_eq. cbn [fst snd].
  unfold SlackDelivery.after_send. rewrite Hactions, Hown.
  cbn [Slack.button Slack.action_ Slack.set_carriers Slack.set_actions
       Slack.set_attachments Slack.attachment Slack._attachments Slack._actions
       Slack._carriers as_array app].
  rewrite Hactions.
  split; [reflexivity |]. split; [reflexivity |]. split.
  - fold button_. apply Sharing.share_last.
  - split; [now rewrite app_nil_r |]. apply Sharing.share_none.
Qed.

Lemma X13_button_reaches_sent_attachment_witness :
  let env := Sample.env true EmptyString Sample.no_teams None (Response 200 "ok") in
  let opts := {| Slack.so_defaultAttachment := None; Slack.so_extraProps := None |} in
  let docs := {| act_type := "button"; act_text := "Docs";
                 act_url := "https://example.com/docs"; act_style := None |} in
  let logs_ := {| act_type := "button"; act_text := "Logs";
                  act_url := "https://example.com/logs"; act_style := Some "primary" |} in
  let this := Slack.button (Slack.new (Some "hi") None)
                           "Docs" "https://example.com/docs" None in
  List.map att_actions
    (Slack._attachments
       (Slack.button (snd (fst (Slack.send env this opts empty_world)))
                     "Logs" "https://example.com/logs" (Some "primary")))
  = [Some [docs; logs_]].
Proof.
  intros env opts docs logs_ this.
  destruct (X13_button_reaches_sent_attachment env this opts empty_world
              "Logs" "https://example.com/logs" (Some "primary") docs []
              eq_refl eq_refl) as (_ & _ & H & _).
  rewrite H. reflexivity.
Defined.

(** ** What a call may do to the builder and to the world *)

Module Effects.

(** [w'] is [w] with at most one more logger call and at most one more HTTP
    request. *)
Definition at_most_one_more (w w' : World) : Prop :=
  (logs w' = logs w \/ exists entry, logs w' = logs w ++ [entry])
  /\ (requests w' = requests w \/ exists r, requests w' = requests w ++ [r]).

Lemma at_most_one_more_refl w : at_most_one_more w w.
Proof. split; left; reflexivity. Qed.

Lemma at_most_one_more_prefix w w' :
  at_most_one_more w w' ->
  logs w `prefix_of` logs w' /\ requests w `prefix_of` requests w'.
Proof.
  intros [[-> | [entry ->]] [-> | [r ->]]]; split;
    try reflexivity; apply prefix_app_r; reflexivity.
Qed.

Lemma slack_webhook env message w :
  at_most_one_more w (snd (Slack._postWithWebhook env message w)).
Proof.
  unfold Slack._postWithWebhook, connect_fetch.
  destruct (fetch env (requests w) _) as [statusCode body | err].
  - destruct (negb _); split; cbn; eauto.
  - split; cbn; eauto.
Qed.

Lemma slack_token env message w :
  at_most_one_more w (snd (Slack._postWithToken env message w)).
Proof.
  unfold Slack._postWithToken, connect_fetch.
  destruct (fetch env (requests w) _) as [statusCode body | err];
    [| split; cbn; eauto].
  destruct (JSON_parse env body) as [parsed | err]; [| split; cbn; eauto].
  destruct parsed; cbn [JS.get_prop]; try (split; cbn; eauto; fail);
    destruct (JS.truthy_value _); split; cbn; eauto.
Qed.

Lemma slack_postMessage env text_ opts w :
  at_most_one_more w (snd (Slack.postMessage env text_ opts w)).
Proof.
  unfold Slack.postMessage.
  destruct (Slack.logCondition env); [split; cbn; eauto |].
  destruct (JS.truthy _); [apply slack_webhook | apply slack_token].
Qed.

Lemma teams_transport env url message w :
  at_most_one_more w (snd (Teams._postMessage env url message w)).
Proof.
  unfold Teams._postMessage, connect_fetch.
  destruct (fetch env (requests w) _) as [statusCode body | err].
  - destruct (_ && _); split; cbn; eauto.
  - split; cbn; eauto.
Qed.

Lemma teams_postMessage env message channel_ da w :
  at_most_one_more w (snd (Teams.postMessage env message channel_ da w)).
Proof.
  unfold Teams.postMessage.
  destruct (Teams.logCondition env); [split; cbn; eauto |].
  destruct (Teams.getTeamsWebhookUrl env channel_) as [url |];
    [| apply at_most_one_more_refl].
  destruct (JS.truthy url); [apply teams_transport | apply at_most_one_more_refl].
Qed.

Lemma slack_send env this opts w :
  at_most_one_more w (snd (Slack.send env this opts w)).
Proof. rewrite SlackDelivery.send_eq. apply slack_postMessage. Qed.

Lemma teams_send env this da w :
  at_most_one_more w (snd (Teams.send env this da w)).
Proof.
  unfold Teams.send.
  destruct (_ && _); [apply at_most_one_more_refl |].
  pose proof (teams_postMessage env (Teams.card_of this) (Teams._channel this)
                (Some (default true da)) w) as H.
  destruct (Teams.postMessage _ _ _ _ _). exact H.
Qed.

End Effects.

(** X14.  One [send()] is one attempt: it adds at most one logger call and at
    most one HTTP request to what was there.  Field-style, it makes exactly
    one request outside test mode and none in test mode.  A Card-style
    [send()] that rejects has logged nothing, sent nothing and left the
    builder as it was. *)
Theorem X14_send_effects_bounded (env : Env) (w : World) :
  (forall (this : Slack.t) (opts : Slack.SendOpts),
     Effects.at_most_one_more w (snd (Slack.send env this opts w))
     /\ (Slack.logCondition env = false ->
         exists r, requests (snd (Slack.send env this opts w)) = requests w ++ [r])
     /\ (Slack.logCondition env = true ->
         requests (snd (Slack.send env this opts w)) = requests w))
  /\ (forall (this : Teams.t) (defaultAttachment : option bool),
        Effects.at_most_one_more w (snd (Teams.send env this defaultAttachment w))
        /\ (forall e,
              fst (fst (Teams.send env this defaultAttachment w)) = Throws e ->
              Teams.send env this defaultAttachment w = (Throws e, this, w))).
Proof.
  split.
  - intros this opts. split; [apply Effects.slack_send |].
    rewrite SlackDelivery.send_eq. cbn [snd]. unfold Slack.postMessage. split.
    + intros ->. destruct (JS.truthy _); eexists.
      * apply Transport.requests_postWithWebhook.
      * apply Transport.requests_postWithToken.
    + intros ->. reflexivity.
  - intros this da. split; [apply Effects.teams_send |].
    intros e. unfold Teams.send.
    destruct (_ && _); [cbn; intros H; injection H as <-; reflexivity |].
    unfold Teams.postMessage.
    destruct (Teams.logCondition env); [cbn; discriminate |].
    destruct (Teams.getTeamsWebhookUrl env (Teams._channel this)) as [url |];
      [destruct (JS.truthy url) |];
      try (cbn; intros H; injection H as <-; reflexivity).
    pose proof (Delivery.teams_postMessage_outcome env url
                  (Teams.message_of env (Teams.card_of this) (Some (default true da))) w)
      as Hout.
    destruct (Teams._postMessage _ _ _ _) as [r w']. cbn in Hout |- *.
    rewrite Hout. discriminate.
Qed.

Lemma X14_send_effects_bounded_witness :
  let env := Sample.env false EmptyString Sample.no_teams None (Response 200 "ok") in
  Teams.send env (Teams.new (Some "hi") (Some "ops")) None empty_world
  = (Throws (Teams.Error ("No webhook url for channel: " +:+ JS.dquote +:+ "ops" +:+ JS.dquote)),
     Teams.new (Some "hi") (Some "ops"), empty_world).
Proof.
  intros env.
  destruct (X14_send_effects_bounded env empty_world) as [_ H].
  destruct (H (Teams.new (Some "hi") (Some "ops")) None) as [_ Hthrow].
  apply Hthrow. reflexivity.
Defined.

(** ** Chains of builder calls *)

Module Calls.

(** A call on a Field-style builder. *)
Inductive SlackCall :=
| SColor
| STitle
| SSummary (fallback : string)
| SText (text_ : string)
| SChannel (channelName : string)
| SUsername (name : string)
| SAttachment (attachments : OneOrMany attach)
| SAction (actions : OneOrMany action)
| SError (err : loc) (label title_ : option string)
| SStats (title_ : string) (keyValues : list (string * JS.JSValue))
         (extraProps : option attach) (ignoreUndefined : option bool)
| SIcon (linkOrEmoji : string)
| SButton (text_ url : string) (style : option string)
| SSend (opts : Slack.SendOpts).

(** The builder and the world after one call ([None]: [error] was given a
    dangling reference). *)
Definition slack_call (env : Env) (h : Heap) (st : Slack.t * World) (c : SlackCall)
    : option (Slack.t * World) :=
  let '(this, w) := st in
  match c with
  | SColor => Some (Slack.color this, w)
  | STitle => Some (Slack.title this, w)
  | SSummary fallback => Some (Slack.summary this fallback, w)
  | SText text_ => Some (Slack.text this text_, w)
  | SChannel channelName => Some (Slack.channel this channelName, w)
  | SUsername name => Some (Slack.username this name, w)
  | SAttachment attachments => Some (Slack.attachment this attachments, w)
  | SAction actions => Some (Slack.action_ this actions, w)
  | SError err label title_ =>
      match Slack.error env h this err label title_ with
      | Some this' => Some (this', w)
      | None => None
      end
  | SStats title_ keyValues extraProps ignoreUndefined =>
      Some (Slack.stats env this title_ keyValues extraProps ignoreUndefined, w)
  | SIcon linkOrEmoji => Some (Slack.icon this linkOrEmoji, w)
  | SButton text_ url style => Some (Slack.button this text_ url style, w)
  | SSend opts =>
      Some (snd (fst (Slack.send env this opts w)), snd (Slack.send env this opts w))
  end.

Fixpoint slack_chain (env : Env) (h : Heap) (st : Slack.t * World) (cs : list SlackCall)
    : option (Slack.t * World) :=
  match cs with
  | [] => Some st
  | c :: rest =>
      match slack_call env h st c with
      | Some st' => slack_chain env h st' rest
      | None => None
      end
  end.

(** A call on a Card-style builder. *)
Inductive TeamsCall :=
| TUsername
| TIcon
| TChannel (channel_ : string)
| TSummary (summary_ : string)
| TColor (color_ : string)
| TTitle (title_ : string)
| TText (text_ : string)
| TAttachment (sections : OneOrMany CardSection)
| TAction (actions : OneOrMany CardAction)
| TError (err : loc) (label title_ : option string)
| TStats (title_ : string) (keyValues : list (string * JS.JSValue))
         (ignoreUndefined : option bool)
| TButton (name uri : string)
| TSend (defaultAttachment : option bool).

(** The builder, the [Error] objects and the world after one call; a [send]
    that rejects leaves all three as they were. *)
Definition teams_call (env : Env) (st : Teams.t * Heap * World) (c : TeamsCall)
    : option (Teams.t * Heap * World) :=
  let '(this, h, w) := st in
  match c with
  | TUsername => Some (Teams.username this, h, w)
  | TIcon => Some (Teams.icon this, h, w)
  | TChannel channel_ => Some (Teams.channel this channel_, h, w)
  | TSummary summary_ => Some (Teams.summary this summary_, h, w)
  | TColor color_ => Some (Teams.color this color_, h, w)
  | TTitle title_ => Some (Teams.title this title_, h, w)
  | TText text_ => Some (Teams.text this text_, h, w)
  | TAttachment sections => Some (Teams.attachment this sections, h, w)
  | TAction actions => Some (Teams.action_ this actions, h, w)
  | TError err label title_ =>
      match Teams.error env h this err label title_ with
      | Some (this', h') => Some (this', h', w)
      | None => None
      end
  | TStats title_ keyValues ignoreUndefined =>
      Some (Teams.stats env this title_ keyValues ignoreUndefined, h, w)
  | TButton name uri => Some (Teams.button this name uri, h, w)
  | TSend defaultAttachment =>
      Some (snd (fst (Teams.send env this defaultAttachment w)), h,
            snd (Teams.send env this defaultAttachment w))
  end.

Fixpoint teams_chain (env : Env) (st : Teams.t * Heap * World) (cs : list TeamsCall)
    : option (Teams.t * Heap * World) :=
  match cs with
  | [] => Some st
  | c :: rest =>
      match teams_call env st c with
      | Some st' => teams_chain env st' rest
      | None => None
      end
  end.

(** An attachment without the two properties that a later call may write:
    the fallback ([summary]) and the buttons ([button], through the array
    that a carrying attachment shares with the builder). *)
Definition forget (a : attach) : attach :=
  {| att_title := att_title a; att_pretext := att_pretext a; att_text := att_text a;
     att_color := att_color a; att_fallback := None;
     att_fields := att_fields a; att_actions := None;
     att_footer := att_footer a; att_ts := att_ts a |}.

(** What a Field-style call keeps: captured errors, buttons, logger calls and
    requests only grow at the end; attachments too, up to the fallback and
    the buttons. *)
Definition slack_grows (st st' : Slack.t * World) : Prop :=
  Slack._errors (fst st) `prefix_of` Slack._errors (fst st')
  /\ Slack._actions (fst st) `prefix_of` Slack._actions (fst st')
  /\ List.map forget (Slack._attachments (fst st))
     `prefix_of` List.map forget (Slack._attachments (fst st'))
  /\ logs (snd st) `prefix_of` logs (snd st')
  /\ requests (snd st) `prefix_of` requests (snd st').

(** What a Card-style call keeps: sections, buttons, captured errors, logger
    calls and requests only grow at the end, and every [Error] object stays,
    with its name and message. *)
Definition teams_grows (st st' : Teams.t * Heap * World) : Prop :=
  Teams._sections (fst (fst st)) `prefix_of` Teams._sections (fst (fst st'))
  /\ Teams._actions (fst (fst st)) `prefix_of` Teams._actions (fst (fst st'))
  /\ Teams._errors (fst (fst st)) `prefix_of` Teams._errors (fst (fst st'))
  /\ logs (snd st) `prefix_of` logs (snd st')
  /\ requests (snd st) `prefix_of` requests (snd st')
  /\ (forall l e, snd (fst st) !! l = Some e ->
        exists e', snd (fst st') !! l = Some e'
                   /\ err_name e' = err_name e /\ err_message e' = err_message e).

Lemma slack_grows_refl st : slack_grows st st.
Proof. repeat split; reflexivity. Qed.

Lemma slack_grows_trans a b c : slack_grows a b -> slack_grows b c -> slack_grows a c.
Proof.
  intros (H1 & H2 & H3 & H4 & H5) (K1 & K2 & K3 & K4 & K5).
  repeat split; etrans; eassumption.
Qed.

Lemma teams_grows_refl st : teams_grows st st.
Proof. repeat split; try reflexivity. intros l e H. exists e. auto. Qed.

Lemma teams_grows_trans a b c : teams_grows a b -> teams_grows b c -> teams_grows a c.
Proof.
  intros (H1 & H2 & H3 & H4 & H5 & H6) (K1 & K2 & K3 & K4 & K5 & K6).
  repeat split; try (etrans; eassumption).
  intros l e Hl. destruct (H6 l e Hl) as (e1 & He1 & Hn1 & Hm1).
  destruct (K6 l e1 He1) as (e2 & He2 & Hn2 & Hm2).
  exists e2. repeat split; congruence.
Qed.

Lemma map_forget_imap (g : nat -> attach -> attach) (l : list attach) :
  (forall i a, forget (g i a) = forget a) ->
  List.map forget (imap g l) = List.map forget l.
Proof.
  revert g. induction l as [|a l IH]; intros g Hg; [reflexivity |].
  cbn [imap List.map]. rewrite Hg. f_equal. apply IH. intros i b. apply Hg.
Qed.

Lemma map_forget_share carriers actions l :
  List.map forget (Slack.share_actions carriers actions l) = List.map forget l.
Proof.
  apply map_forget_imap. intros i a. now destruct (existsb _ carriers).
Qed.

Lemma map_forget_summary this fallback :
  List.map forget (Slack._attachments (Slack.summary this fallback))
  = List.map forget (Slack._attachments this).
Proof.
  unfold Slack.summary. destruct (Slack._attachments this) as [|a rest] eqn:E.
  - now rewrite E.
  - reflexivity.
Qed.

Lemma slack_call_grows env h st c st' :
  slack_call env h st c = Some st' -> slack_grows st st'.
Proof.
  destruct st as [this w].
  destruct c as [| | fallback | text_ | channelName | name | attachments | actions
                 | err label title_ | title_ keyValues extraProps ignoreUndefined
                 | linkOrEmoji | text_ url style | opts];
    cbn [slack_call]; try (intros H; injection H as <-);
    unfold slack_grows; cbn [fst snd].
  - repeat split; reflexivity.
  - repeat split; reflexivity.
  - rewrite map_forget_summary. unfold Slack.summary.
    destruct (Slack._attachments this) as [|a rest]; repeat split; reflexivity.
  - repeat split; reflexivity.
  - repeat split; reflexivity.
  - repeat split; reflexivity.
  - repeat split; try reflexivity.
    cbn. rewrite List.map_app. now apply prefix_app_r.
  - repeat split; try reflexivity.
    cbn. now apply prefix_app_r.
  - unfold Slack.error. destruct (h !! err) as [e |]; [| discriminate].
    intros H; injection H as <-.
    repeat split; cbn [fst snd]; try reflexivity.
    + cbn. now apply prefix_app_r.
    + cbn. rewrite List.map_app. now apply prefix_app_r.
  - repeat split; try reflexivity.
    cbn. rewrite List.map_app. now apply prefix_app_r.
  - unfold Slack.icon.
    destruct linkOrEmoji as [|c0 r]; [| destruct (Ascii.eqb c0 ":")];
      repeat split; reflexivity.
  - repeat split; try reflexivity.
    + cbn. now apply prefix_app_r.
    + cbn [Slack.button Slack.set_attachments Slack._attachments].
      now rewrite map_forget_share.
  - destruct (Effects.at_most_one_more_prefix _ _ (Effects.slack_send env this opts w))
      as [Hlogs Hreqs].
    rewrite SlackDelivery.send_eq in *. cbn [fst snd] in *.
    unfold SlackDelivery.after_send.
    destruct (Slack._actions this) as [|b bs] eqn:E;
      repeat split; try assumption; cbn; rewrite ?E; try reflexivity.
    rewrite List.map_app. now apply prefix_app_r.
Qed.

Lemma teams_call_grows env st c st' :
  teams_call env st c = Some st' -> teams_grows st st'.
Proof.
  destruct st as [[this h] w]. destruct c; cbn [teams_call];
    try solve [intros H; injection H as <-; repeat split; cbn [fst snd]; cbn;
               try reflexivity; try (now apply prefix_app_r);
               intros l e Hl; exists e; auto].
  - unfold Teams.error. destruct (h !! err) as [e |] eqn:E; [| discriminate].
    intros H; injection H as <-.
    repeat split; cbn [fst snd]; try reflexivity.
    + cbn. now apply prefix_app_r.
    + cbn. now apply prefix_app_r.
    + intros l e0 Hl. destruct (decide (l = err)) as [-> | Hne].
      * rewrite lookup_insert_eq. rewrite E in Hl. injection Hl as <-.
        eexists. repeat split.
      * rewrite lookup_insert_ne by congruence. exists e0. auto.
  - intros H; injection H as <-.
    destruct (Effects.at_most_one_more_prefix _ _
                (Effects.teams_send env this defaultAttachment w)) as [Hlogs Hreqs].
    rewrite Frame.teams_send_keeps_builder.
    repeat split; cbn [fst snd]; try reflexivity; try assumption.
    intros l e Hl. exists e. auto.
Qed.

End Calls.

(** X15.  A Field-style builder only accumulates.  Along any chain of calls
    ([color], [title], [summary], [text], [channel], [username],
    [attachment], [action], [error], [stats], [icon], [button], [send]), what
    it held before is still there afterwards, at the front and in the same
    order: the captured errors, the buttons, and the attachments, of which
    two properties only may have been written since: the fallback (by
    [summary]) and the buttons (by [button], for an attachment with which an
    earlier [send] carried the builder's own array).  The logger calls and
    HTTP requests made before are followed, not replaced, by the new ones. *)
Theorem X15_field_builder_accumulates (env : Env) (h : Heap)
    (this this' : Slack.t) (w w' : World) (calls : list Calls.SlackCall)
    (Hrun : Calls.slack_chain env h (this, w) calls = Some (this', w')) :
  Slack._errors this `prefix_of` Slack._errors this'
  /\ Slack._actions this `prefix_of` Slack._actions this'
  /\ List.map Calls.forget (Slack._attachments this)
     `prefix_of` List.map Calls.forget (Slack._attachments this')
  /\ length (Slack._attachments this) <= length (Slack._attachments this')
  /\ logs w `prefix_of` logs w'
  /\ requests w `prefix_of` requests w'.
Proof.
  assert (H : Calls.slack_grows (this, w) (this', w')).
  { revert this w Hrun. induction calls as [|c rest IH]; intros this w Hrun.
    - injection Hrun as <- <-. apply Calls.slack_grows_refl.
    - cbn [Calls.slack_chain] in Hrun.
      destruct (Calls.slack_call env h (this, w) c) as [[this1 w1] |] eqn:E;
        [| discriminate].
      eapply Calls.slack_grows_trans;
        [eapply Calls.slack_call_grows; exact E | apply IH; exact Hrun]. }
  destruct H as (H1 & H2 & H3 & H4 & H5). cbn [fst snd] in *.
  repeat split; try assumption.
  apply prefix_length in H3. now rewrite !length_map in H3.
Qed.

Lemma X15_field_builder_accumulates_witness :
  let env := Sample.env true EmptyString Sample.no_teams Sample.tracker (Response 200 "ok") in
  let opts := {| Slack.so_defaultAttachment := None; Slack.so_extraProps := None |} in
  let docs := {| act_type := "button"; act_text := "Docs";
                 act_url := "https://example.com/docs"; act_style := None |} in
  let logs_ := {| act_type := "button"; act_text := "Logs";
                  act_url := "https://example.com/logs"; act_style := None |} in
  let this :=
    snd (fst (Slack.send env
                (Slack.button (Slack.new (Some "hi") None)
                              "Docs" "https://example.com/docs" None)
                opts empty_world)) in
  let w := snd (Slack.send env
                  (Slack.button (Slack.new (Some "hi") None)
                                "Docs" "https://example.com/docs" None)
                  opts empty_world) in
  let calls := [Calls.SButton "Logs" "https://example.com/logs" None;
                Calls.SSummary "two buttons"; Calls.SSend opts] in
  List.map att_actions (Slack._attachments this) = [Some [docs]]
  /\ option_map (fun st => List.map att_actions (Slack._attachments (fst st)))
                (Calls.slack_chain env Sample.heap (this, w) calls)
     = Some [Some [docs; logs_]; Some [docs; logs_]]
  /\ option_map (fun st => length (logs (snd st)))
                (Calls.slack_chain env Sample.heap (this, w) calls)
     = Some 2
  /\ exists this' w',
       Calls.slack_chain env Sample.heap (this, w) calls = Some (this', w')
       /\ Slack._actions this `prefix_of` Slack._actions this'
       /\ List.map Calls.forget (Slack._attachments this)
          `prefix_of` List.map Calls.forget (Slack._attachments this')
       /\ logs w `prefix_of` logs w'.
Proof.
  intros env opts docs logs_ this w calls.
  split; [vm_compute; reflexivity |].
  split; [vm_compute; reflexivity |].
  split; [vm_compute; reflexivity |].
  destruct (Calls.slack_chain env Sample.heap (this, w) calls)
    as [[this' w'] |] eqn:Hrun; [| vm_compute in Hrun; discriminate Hrun].
  exists this', w'. split; [reflexivity |].
  destruct (X15_field_builder_accumulates env Sample.heap this this' w w' calls Hrun)
    as (_ & H2 & H3 & _ & H5 & _).
  repeat split; assumption.
Defined.

(** X16.  A Card-style builder only accumulates.  Along any chain of calls
    ([username], [icon], [channel], [summary], [color], [title], [text],
    [attachment], [action], [error], [stats], [button], [send]), the
    sections, buttons and captured errors held before are still there
    afterwards, at the front and in the same order; logger calls and HTTP
    requests are followed, not replaced; and every [Error] object the
    program holds is still there, with its name and message (only a stack
    may have been rewritten, by [error]). *)
Theorem X16_card_builder_accumulates (env : Env)
    (this this' : Teams.t) (h h' : Heap) (w w' : World) (calls : list Calls.TeamsCall)
    (Hrun : Calls.teams_chain env (this, h, w) calls = Some (this', h', w')) :
  Teams._sections this `prefix_of` Teams._sections this'
  /\ Teams._actions this `prefix_of` Teams._actions this'
  /\ Teams._errors this `prefix_of` Teams._errors this'
  /\ logs w `prefix_of` logs w'
  /\ requests w `prefix_of` requests w'
  /\ (forall l e, h !! l = Some e ->
        exists e', h' !! l = Some e'
                   /\ err_name e' = err_name e /\ err_message e' = err_message e).
Proof.
  assert (H : Calls.teams_grows (this, h, w) (this', h', w')).
  { revert this h w Hrun. induction calls as [|c rest IH]; intros this h w Hrun.
    - injection Hrun as <- <- <-. apply Calls.teams_grows_refl.
    - cbn [Calls.teams_chain] in Hrun.
      destruct (Calls.teams_call env (this, h, w) c) as [[[this1 h1] w1] |] eqn:E;
        [| discriminate].
      eapply Calls.teams_grows_trans;
        [eapply Calls.teams_call_grows; exact E | apply IH; exact Hrun]. }
  exact H.
Qed.

Lemma X16_card_builder_accumulates_witness :
  let env := Sample.env true EmptyString Sample.no_teams Sample.tracker (Response 200 "ok") in
  exists this' h' w',
    Calls.teams_chain env (Teams.new (Some "hi") None, Sample.heap, empty_world)
      [Calls.TStats "Load" [("cpu", JS.VNumber 3)] None;
       Calls.TError 1%positive None None; Calls.TSend None]
    = Some (this', h', w')
    /\ (err_message <$> h' !! 1%positive) = Some "x is not a function".
Proof.
  intros env. eexists _, _, _. split; [vm_compute; reflexivity |].
  assert (Hrun : Calls.teams_chain env (Teams.new (Some "hi") None, Sample.heap, empty_world)
                   [Calls.TStats "Load" [("cpu", JS.VNumber 3)] None;
                    Calls.TError 1%positive None None; Calls.TSend None]
                 = Some _) by (vm_compute; reflexivity).
  destruct (X16_card_builder_accumulates env _ _ _ _ _ _ _ Hrun)
    as (_ & _ & _ & _ & _ & Hheap).
  destruct (Hheap 1%positive Sample.boom eq_refl) as (e' & He' & _ & Hm).
  rewrite He'. cbn. now rewrite Hm.
Defined.

(** ** What a Field-style message holds *)

(** X17.  Precedence among the sources of a Field-style message property.
    What the caller passes to [send] as [extraProps] wins; next comes what
    the builder collected ([username], [icon]); last come the assembled
    [text], [channel] (the builder's, else the configured one), [username]
    (the static one, [slackbot] unless set) and [attachments]; a property
    that none of them names is absent.  So [username(name)] decides the
    sender unless [send] is told otherwise. *)
Theorem X17_props_precedence (env : Env) (this : Slack.t) (opts : Slack.SendOpts)
    (k : string) :
  let given := default ∅ (Slack.so_extraProps opts) in
  let message := SlackDelivery.sent_message env this opts in
  (forall v, given !! k = Some v -> message !! k = Some v)
  /\ (forall v, given !! k = None -> Slack._extraProps this !! k = Some v ->
        message !! k = Some v)
  /\ (given !! k = None -> Slack._extraProps this !! k = None ->
      (k = "text" -> message !! k = Some (POpt (Slack._text this)))
      /\ (k = "channel" ->
          message !! k
          = Some (PStr (default (conf_channel (getSlackConf env)) (Slack._channel this))))
      /\ (k = "username" ->
          message !! k
          = Some (PStr (if JS.truthy_opt (slack_username env)
                        then JS.template (slack_username env) else "slackbot")))
      /\ (k <> "text" -> k <> "channel" -> k <> "username" -> k <> "attachments" ->
          message !! k = None))
  /\ (forall name, given !! "username" = None ->
        SlackDelivery.sent_message env (Slack.username this name) opts !! "username"
        = Some (PStr name)).
Proof.
  intros given message.
  assert (Hmsg : forall t o,
            SlackDelivery.sent_message env t o
            = (default ∅ (Slack.so_extraProps o) ∪ (Slack._extraProps t ∪ ∅))
              ∪ (<["text" := POpt (Slack._text t)]>
                   (<["channel" :=
                        PStr (default (conf_channel (getSlackConf env))
                                      (Slack._channel (SlackDelivery.after_send t)))]>
                      (<["username" := PStr (Slack.username_static env)]>
                         (<["attachments" :=
                              PAttachments
                                (if default true (Slack.so_defaultAttachment o)
                                 then Slack._attachments (SlackDelivery.after_send t)
                                      ++ Slack.getDefaultAttachments env
                                 else Slack._attachments (SlackDelivery.after_send t))]>
                            ∅))))) by reflexivity.
  destruct (SlackDelivery.after_send_frame this) as (_ & Hch & _).
  subst message. rewrite Hmsg. fold given. rewrite Hch.
  split; [| split; [| split]].
  - intros v Hv. apply lookup_union_Some_l, lookup_union_Some_l, Hv.
  - intros v Hg Hv. apply lookup_union_Some_l.
    rewrite lookup_union_r by exact Hg. apply lookup_union_Some_l, Hv.
  - intros Hg Hb.
    rewrite lookup_union_r
      by (rewrite lookup_union_r by exact Hg; rewrite lookup_union_r by exact Hb;
          apply lookup_empty).
    split; [intros ->; apply lookup_insert_eq |].
    split; [intros ->; rewrite lookup_insert_ne by discriminate;
            apply lookup_insert_eq |].
    split; [intros ->; rewrite !lookup_insert_ne by discriminate;
            apply lookup_insert_eq |].
    intros H1 H2 H3 H4. rewrite !lookup_insert_ne by congruence. apply lookup_empty.
  - intros name Hg. rewrite Hmsg. fold given.
    apply lookup_union_Some_l. rewrite lookup_union_r by exact Hg.
    apply lookup_union_Some_l. cbn. apply lookup_insert_eq.
Qed.

Lemma X17_props_precedence_witness :
  let env := Sample.env true EmptyString Sample.no_teams None (Response 200 "ok") in
  SlackDelivery.sent_message env (Slack.username (Slack.new (Some "hi") None) "deploy-bot")
    {| Slack.so_defaultAttachment := None; Slack.so_extraProps := None |} !! "username"
  = Some (PStr "deploy-bot").
Proof.
  intros env.
  apply (X17_props_precedence env (Slack.new (Some "hi") None)
           {| Slack.so_defaultAttachment := None; Slack.so_extraProps := None |} "username").
  reflexivity.
Defined.

(** X18.  The plain Field-style delivery.  A builder made from a non-empty
    text and a non-empty channel and sent at once, outside test mode and
    with a webhook configured, resolves after exactly one request: a JSON
    POST to the configured webhook of a message whose [text] and [channel]
    are the given ones, whose [username] is the static one, whose
    [attachments] are the default context block alone, and which has no
    other property.  The builder is left as it was. *)
Theorem X18_field_end_to_end (env : Env) (w : World) (text_ channel_ : string)
    (defaultAttachment : option bool)
    (Htext : JS.truthy text_ = true) (Hchannel : JS.truthy channel_ = true)
    (Hlog : Slack.logCondition env = false)
    (Hhook : JS.truthy (conf_webhook (getSlackConf env)) = true) :
  let this := Slack.new (Some text_) (Some channel_) in
  let sent := Slack.send env this
                {| Slack.so_defaultAttachment := defaultAttachment;
                   Slack.so_extraProps := None |} w in
  exists message,
    fst sent = (Returns tt, this)
    /\ requests (snd sent)
       = requests w ++ [PostJson (conf_webhook (getSlackConf env)) (SlackPayload message)]
    /\ message !! "text" = Some (PStr text_)
    /\ message !! "channel" = Some (PStr channel_)
    /\ message !! "username" = Some (PStr (Slack.username_static env))
    /\ message !! "attachments"
       = Some (PAttachments (if default true defaultAttachment
                             then Slack.getDefaultAttachments env else []))
    /\ (forall k, k <> "text" -> k <> "channel" -> k <> "username" ->
                  k <> "attachments" -> message !! k = None).
Proof.
  intros this sent.
  exists (SlackDelivery.sent_message env this
            {| Slack.so_defaultAttachment := defaultAttachment;
               Slack.so_extraProps := None |}).
  subst sent. rewrite SlackDelivery.send_eq. cbn [fst snd].
  rewrite SlackDelivery.postMessage_outcome.
  assert (Hthis : this = Slack.text (Slack.channel (Slack.new None None) channel_) text_).
  { subst this. unfold Slack.new. now rewrite Htext, Hchannel. }
  split; [rewrite Hthis; reflexivity |].
  split.
  { unfold Slack.postMessage. rewrite Hlog, Hhook.
    apply Transport.requests_postWithWebhook. }
  rewrite Hthis.
  unfold SlackDelivery.sent_message, Slack.message_of, Object_assign. cbn.
  rewrite !(left_id ∅ (∪)).
  split; [apply lookup_insert_eq |].
  split; [rewrite lookup_insert_ne by discriminate; apply lookup_insert_eq |].
  split; [rewrite !lookup_insert_ne by discriminate; apply lookup_insert_eq |].
  split.
  { rewrite !lookup_insert_ne by discriminate. rewrite lookup_insert_eq.
    destruct defaultAttachment as [[] |]; reflexivity. }
  intros k H1 H2 H3 H4. rewrite !(left_id ∅ (∪)).
  rewrite !lookup_insert_ne by congruence. apply lookup_empty.
Qed.

Lemma X18_field_end_to_end_witness :
  let env := Sample.env false "https://hooks.example/slack" Sample.no_teams None
                        (Response 200 "ok") in
  exists message,
    requests (snd (Slack.send env (Slack.new (Some "hi") (Some "ops"))
                     {| Slack.so_defaultAttachment := None; Slack.so_extraProps := None |}
                     empty_world))
    = [PostJson "https://hooks.example/slack" (SlackPayload message)]
    /\ message !! "text" = Some (PStr "hi")
    /\ message !! "channel" = Some (PStr "ops").
Proof.
  intros env.
  destruct (X18_field_end_to_end env empty_world "hi" "ops" None
              eq_refl eq_refl eq_refl eq_refl) as (message & _ & Hreq & Ht & Hc & _).
  exists message. repeat split; assumption.
Defined.

(** X19.  The plain Card-style delivery.  A builder made from a non-empty
    text and a non-empty channel and sent at once, outside test mode, with a
    non-empty webhook configured for the channel, resolves after exactly one
    request: a JSON POST to that webhook of a card whose text is the escaped
    text, whose theme color is the default blue, which has no summary, no
    title and no button, and whose sections are the default context block
    alone.  The builder is left as it was. *)
Theorem X19_card_end_to_end (env : Env) (w : World) (text_ channel_ url : string)
    (defaultAttachment : option bool)
    (Htext : JS.truthy text_ = true) (Hchannel : JS.truthy channel_ = true)
    (Hlog : Teams.logCondition env = false)
    (Hhook : Teams.getTeamsWebhookUrl env (Some channel_) = Some url)
    (Hurl : JS.truthy url = true) :
  let this := Teams.new (Some text_) (Some channel_) in
  let sent := Teams.send env this defaultAttachment w in
  fst sent = (Returns tt, this)
  /\ requests (snd sent)
     = requests w ++
       [PostJson url
          (TeamsPayload
             {| mc_summary := None; mc_themeColor := "439FE0"; mc_title := None;
                mc_text := Some (Teams.escapeText text_);
                mc_sections := Some (if default true defaultAttachment
                                     then Teams.getDefaultAttachments env else []);
                mc_potentialAction := [] |})].
Proof.
  intros this sent.
  assert (Hthis : this = Teams.text (Teams.channel (Teams.new None None) channel_) text_).
  { subst this. unfold Teams.new. now rewrite Htext, Hchannel. }
  assert (Hvalid : JS.truthy_opt (Teams._summary this) || JS.truthy_opt (Teams._text this)
                   = true).
  { rewrite Hthis. cbn. now rewrite CardEscape.escape_truthy. }
  subst sent. rewrite Delivery.teams_send_valid by exact Hvalid. cbn [fst snd].
  unfold Teams.postMessage. rewrite Hlog.
  assert (Hch : Teams._channel this = Some channel_) by (rewrite Hthis; reflexivity).
  rewrite Hch, Hhook, Hurl.
  split; [now rewrite Delivery.teams_postMessage_outcome |].
  rewrite Transport.requests_teams_postMessage. rewrite Hthis.
  destruct defaultAttachment as [[] |]; reflexivity.
Qed.

Lemma X19_card_end_to_end_witness :
  let env := Sample.env false EmptyString Sample.ops_teams None (Response 200 "1") in
  length (requests (snd (Teams.send env (Teams.new (Some "hi") (Some "ops")) None
                                    empty_world))) = 1.
Proof.
  intros env.
  destruct (X19_card_end_to_end env empty_world "hi" "ops" "https://teams.example/hook"
              None eq_refl eq_refl eq_refl eq_refl eq_refl) as [_ H].
  cbv zeta in H. rewrite H. reflexivity.
Defined.

(** ** When the transports log *)

Module Silence.

Lemma app_one_neq {A : Type} (l : list A) (x : A) : l ++ [x] <> l.
Proof.
  intros H. apply (f_equal (@length A)) in H. rewrite length_app in H.
  simpl in H. lia.
Qed.

(** Whether a parsed body counts as a success for the token transport: it is
    neither [null] nor [undefined], and its [error] is falsy. *)
Definition no_error (parsed : JS.JSValue) : bool :=
  JS.get_prop bool (fun _ => false) (fun error_ => negb (JS.truthy_value error_))
              parsed "error".

End Silence.

(** X20.  The Field-style transports log failures only.  The webhook
    transport adds no logger call exactly when the client answers with
    status 200.  The token transport adds none exactly when the client
    answers (with any status) a body that [JSON.parse] accepts, that is not
    [null], and whose [error] property is absent or falsy.  In every other
    case each adds one. *)
Theorem X20_transports_log_failures_only (env : Env) (message : SlackObject) (w : World) :
  (logs (snd (Slack._postWithWebhook env message w)) = logs w
   <-> exists body,
         fetch env (requests w) (Transport.webhook_request env message)
         = Response 200 body)
  /\ (logs (snd (Slack._postWithToken env message w)) = logs w
      <-> exists statusCode body parsed,
            fetch env (requests w) (Transport.token_request env message)
            = Response statusCode body
            /\ JSON_parse env body = inl parsed
            /\ Silence.no_error parsed = true).
Proof.
  split.
  - unfold Slack._postWithWebhook, connect_fetch.
    fold (Transport.webhook_request env message).
    destruct (fetch env (requests w) (Transport.webhook_request env message))
      as [statusCode body | err].
    + destruct (Z.eqb_spec statusCode 200) as [-> | Hne]; cbn.
      * split; [intros _; eexists; reflexivity | reflexivity].
      * split; [intros H; now apply Silence.app_one_neq in H |].
        intros [b Hb]. injection Hb as -> _. congruence.
    + cbn. split; [intros H; now apply Silence.app_one_neq in H |].
      intros [b Hb]. discriminate Hb.
  - unfold Slack._postWithToken, connect_fetch.
    fold (Transport.encoded message). fold Transport.api_url.
    fold (Transport.token_request env message).
    destruct (fetch env (requests w) (Transport.token_request env message))
      as [statusCode body | err].
    + destruct (JSON_parse env body) as [parsed | err] eqn:Eparse.
      * unfold Silence.no_error.
        destruct parsed; cbn [JS.get_prop];
          try (cbn; split; [intros _; eexists _, _, _; rewrite Eparse; repeat split
                           | reflexivity]; fail);
          try (cbn; split; [intros H; now apply Silence.app_one_neq in H |];
               intros (sc & b & p & Hf & Hp & Hn); injection Hf as -> ->;
               rewrite Eparse in Hp; injection Hp as <-; discriminate Hn; fail).
        destruct (JS.truthy_value (default JS.VUndefined (JS.lookup_prop "error" props)))
          eqn:Et; cbn.
        -- split; [intros H; now apply Silence.app_one_neq in H |].
           intros (sc & b & p & Hf & Hp & Hn). injection Hf as -> ->.
           rewrite Eparse in Hp. injection Hp as <-.
           cbn [JS.get_prop] in Hn. rewrite Et in Hn. discriminate Hn.
        -- split; [| reflexivity].
           intros _. eexists _, _, _. rewrite Eparse. repeat split.
           cbn [JS.get_prop]. now rewrite Et.
      * cbn. split; [intros H; now apply Silence.app_one_neq in H |].
        intros (sc & b & p & Hf & Hp & _). injection Hf as -> ->.
        rewrite Eparse in Hp. discriminate Hp.
    + cbn. split; [intros H; now apply Silence.app_one_neq in H |].
      intros (sc & b & p & Hf & _). discriminate Hf.
Qed.

(** ** [error] called more than once, and on both providers *)

Module ErrorTwice.

Lemma replace_all_absent c by_ s :
  JS.includes_char c s = false -> JS.replace_all_char c by_ s = s.
Proof.
  induction s as [|d s IH]; [reflexivity |].
  cbn [JS.includes_char JS.replace_all_char].
  destruct (Ascii.eqb c d); [discriminate |].
  intros H. now rewrite IH.
Qed.

Lemma replace_all_app c by_ a b :
  JS.replace_all_char c by_ (a +:+ b)
  = JS.replace_all_char c by_ a +:+ JS.replace_all_char c by_ b.
Proof.
  induction a as [|d a IH]; [reflexivity |].
  rewrite str_app_cons. cbn [JS.replace_all_char].
  destruct (Ascii.eqb c d); rewrite IH; [now rewrite str_app_assoc | reflexivity].
Qed.

(** Replacing the spaces a second time changes nothing. *)
Lemma replace_spaces_twice s :
  JS.replace_all_char " " "&nbsp;" (JS.replace_all_char " " "&nbsp;" s)
  = JS.replace_all_char " " "&nbsp;" s.
Proof. apply replace_all_absent, ErrorFacts.no_space_left. Qed.

Lemma entity_no_space x :
  Ascii.eqb " " x = false -> JS.includes_char " " (FieldEscape.entity x) = false.
Proof.
  intros Hx.
  destruct (FieldEscape.special_cases x) as [[_ ->] | [[_ ->] | [[_ ->] | [_ ->]]]];
    try reflexivity.
  cbn [JS.includes_char]. now rewrite Hx.
Qed.

(** Escaping for the Field-style provider a stack whose spaces were turned
    into [&nbsp;] shows [&amp;nbsp;] in place of every space. *)
Lemma escape_after_replace s :
  Slack.escapeText (JS.replace_all_char " " "&nbsp;" s)
  = JS.replace_all_char " " "&amp;nbsp;" (Slack.escapeText s).
Proof.
  induction s as [|x s IH]; [reflexivity |].
  cbn [JS.replace_all_char]. rewrite FieldEscape.escape_cons, replace_all_app.
  destruct (Ascii.eqb_spec " " x) as [<- | Hne].
  - rewrite FieldEscape.escape_app, IH. reflexivity.
  - apply Ascii.eqb_neq in Hne.
    rewrite FieldEscape.escape_cons, IH.
    rewrite (replace_all_absent " " "&amp;nbsp;" (FieldEscape.entity x))
      by now apply entity_no_space.
    reflexivity.
Qed.

End ErrorTwice.

(** X21.  Card-style [error] called twice shows the last error only: the
    card's title and text are those of the second error (whatever the
    builder's text and title were before), while both errors are recorded,
    in order, both buttons are kept, and no section is added. *)
Theorem X21_last_error_shown (env : Env) (h : Heap) (this : Teams.t)
    (err1 err2 : loc) (e1 e2 : JSError) (label1 title1 label2 title2 : option string)
    (H1 : h !! err1 = Some e1) (H2 : h !! err2 = Some e2) :
  exists this1 h1 this2 h2,
    Teams.error env h this err1 label1 title1 = Some (this1, h1)
    /\ Teams.error env h1 this1 err2 label2 title2 = Some (this2, h2)
    /\ Teams._title this2 = Some ("Error: " +:+ err_message e2)
    /\ Teams._text this2
       = Some (Teams.escapeText (JS.replace_all_char " " "&nbsp;" (err_stack e2)))
    /\ Teams._themeColor this2 = "F00"
    /\ Teams._errors this2 = Teams._errors this ++ [err1; err2]
    /\ length (Teams._actions this2) = length (Teams._actions this) + 2
    /\ Teams._sections this2 = Teams._sections this.
Proof.
  destruct (Teams.error env h this err1 label1 title1) as [[this1 h1] |] eqn:Ha;
    [| unfold Teams.error in Ha; rewrite H1 in Ha; discriminate Ha].
  exists this1, h1.
  unfold Teams.error in Ha. rewrite H1 in Ha. injection Ha as <- <-.
  assert (Hsecond : exists e2',
            <[err1 := Teams.set_stack e1
                        (JS.replace_all_char " " "&nbsp;" (err_stack e1))]> h !! err2
            = Some e2'
            /\ err_name e2' = err_name e2 /\ err_message e2' = err_message e2
            /\ JS.replace_all_char " " "&nbsp;" (err_stack e2')
               = JS.replace_all_char " " "&nbsp;" (err_stack e2)).
  { destruct (decide (err1 = err2)) as [-> | Hne].
    - assert (e2 = e1) as -> by congruence.
      rewrite lookup_insert_eq. eexists. split; [reflexivity |].
      cbn. now rewrite ErrorTwice.replace_spaces_twice.
    - rewrite lookup_insert_ne by exact Hne. exists e2. auto. }
  destruct Hsecond as (e2' & Hlook & Hname & Hmsg & Hstack).
  unfold Teams.error. rewrite Hlook.
  eexists _, _. split; [reflexivity |]. split; [reflexivity |].
  cbn. rewrite Hmsg, Hstack.
  repeat split.
  - now rewrite <- app_assoc.
  - rewrite !length_app. cbn. lia.
Qed.

Lemma X21_last_error_shown_witness :
  let env := Sample.env true EmptyString Sample.no_teams Sample.tracker (Response 200 "ok") in
  exists this1 h1 this2 h2,
    Teams.error env Sample.heap (Teams.new (Some "deploying") None) 1%positive None None
    = Some (this1, h1)
    /\ Teams.error env h1 this1 1%positive None None = Some (this2, h2)
    /\ Teams._title this2 = Some "Error: x is not a function"
    /\ length (Teams._actions this2) = 2.
Proof.
  intros env.
  destruct (X21_last_error_shown env Sample.heap (Teams.new (Some "deploying") None)
              1%positive 1%positive Sample.boom Sample.boom None None None None
              eq_refl eq_refl)
    as (this1 & h1 & this2 & h2 & Ha & Hb & Ht & _ & _ & _ & Hact & _).
  exists this1, h1, this2, h2. repeat split; assumption.
Defined.

(** X22.  The write that Card-style [error] makes to its argument happens
    once: a second [error] on the same object, from any builder, leaves
    every [Error] object as the first call left it. *)
Theorem X22_stack_rewritten_once (env : Env) (h h1 : Heap) (this this1 other : Teams.t)
    (err : loc) (label title_ label' title' : option string)
    (Hfirst : Teams.error env h this err label title_ = Some (this1, h1)) :
  exists other',
    Teams.error env h1 other err label' title' = Some (other', h1).
Proof.
  unfold Teams.error in Hfirst.
  destruct (h !! err) as [e |] eqn:E; [| discriminate].
  injection Hfirst as _ <-.
  unfold Teams.error. rewrite lookup_insert_eq.
  eexists. f_equal. f_equal.
  rewrite insert_insert_eq. f_equal.
  unfold Teams.set_stack. cbn. now rewrite ErrorTwice.replace_spaces_twice.
Qed.

Lemma X22_stack_rewritten_once_witness :
  let env := Sample.env true EmptyString Sample.no_teams None (Response 200 "ok") in
  exists this1 h1 other',
    Teams.error env Sample.heap (Teams.new None None) 1%positive None None = Some (this1, h1)
    /\ Teams.error env h1 (Teams.new None None) 1%positive None None = Some (other', h1).
Proof.
  intros env.
  destruct (Teams.error env Sample.heap (Teams.new None None) 1%positive None None)
    as [[this1 h1] |] eqn:Hfirst; [| discriminate Hfirst].
  destruct (X22_stack_rewritten_once env Sample.heap h1 (Teams.new None None) this1
              (Teams.new None None) 1%positive None None None None Hfirst)
    as [other' Hsecond].
  exists this1, h1, other'. split; [reflexivity | exact Hsecond].
Defined.

(** X23.  An error reported to the Card-style provider first reaches the
    Field-style provider altered: after Card-style [error(err)], Field-style
    [error(err)] on the same object appends an attachment whose text is the
    escaped original stack with [&amp;nbsp;] in place of every space. *)
Theorem X23_error_on_both_providers (env : Env) (h h1 : Heap) (card card1 : Teams.t)
    (field : Slack.t) (err : loc) (e : JSError)
    (label title_ label' title' : option string)
    (Herr : h !! err = Some e)
    (Hcard : Teams.error env h card err label title_ = Some (card1, h1)) :
  exists field1 a,
    Slack.error env h1 field err label' title' = Some field1
    /\ Slack._attachments field1 = Slack._attachments field ++ [a]
    /\ att_text a
       = Some (JS.replace_all_char " " "&amp;nbsp;" (Slack.escapeText (err_stack e)))
    /\ (JS.includes_char " " (err_stack e) = false ->
        att_text a = Some (Slack.escapeText (err_stack e))).
Proof.
  unfold Teams.error in Hcard. rewrite Herr in Hcard.
  injection Hcard as _ <-.
  unfold Slack.error. rewrite lookup_insert_eq.
  eexists _, _. split; [reflexivity |]. split; [reflexivity |].
  cbn [att_text Teams.set_stack err_stack].
  rewrite ErrorTwice.escape_after_replace. split; [reflexivity |].
  intros Hno. f_equal.
  rewrite <- ErrorTwice.escape_after_replace.
  now rewrite ErrorTwice.replace_all_absent.
Qed.

Lemma X23_error_on_both_providers_witness :
  let env := Sample.env true EmptyString Sample.no_teams None (Response 200 "ok") in
  exists card1 h1 field1,
    Teams.error env Sample.heap (Teams.new None None) 1%positive None None = Some (card1, h1)
    /\ Slack.error env h1 (Slack.new None None) 1%positive None None = Some field1
    /\ length (Slack._attachments field1) = 1.
Proof.
  intros env.
  destruct (Teams.error env Sample.heap (Teams.new None None) 1%positive None None)
    as [[card1 h1] |] eqn:Hcard; [| discriminate Hcard].
  destruct (X23_error_on_both_providers env Sample.heap h1 (Teams.new None None) card1
              (Slack.new None None) 1%positive Sample.boom None None None None
              eq_refl Hcard) as (field1 & a & Hf & Ha & _).
  exists card1, h1, field1. split; [reflexivity |]. split; [exact Hf |].
  rewrite Ha. reflexivity.
Defined.

(** X24.  [attachment] appends in order, one call or many: attaching a list
    is attaching its parts one after the other, a single record is the list
    of that record, and the attachments/sections held before stay in front.
    The Card-style provider escapes the text of each new section that has a
    non-empty text and leaves its title and facts alone. *)
Theorem X24_attachment_in_order (l1 l2 : list attach) (a : attach)
    (s1 s2 : list CardSection) (section : CardSection)
    (field : Slack.t) (card : Teams.t) :
  Slack.attachment (Slack.attachment field (Many l1)) (Many l2)
    = Slack.attachment field (Many (l1 ++ l2))
  /\ Slack.attachment field (One a) = Slack.attachment field (Many [a])
  /\ Slack._attachments (Slack.attachment field (Many l1)) = Slack._attachments field ++ l1
  /\ Teams.attachment (Teams.attachment card (Many s1)) (Many s2)
     = Teams.attachment card (Many (s1 ++ s2))
  /\ Teams.attachment card (One section) = Teams.attachment card (Many [section])
  /\ Teams._sections (Teams.attachment card (Many s1))
     = Teams._sections card ++ List.map Teams.escape_section s1
  /\ sec_title (Teams.escape_section section) = sec_title section
  /\ sec_facts (Teams.escape_section section) = sec_facts section
  /\ sec_text (Teams.escape_section section)
     = match sec_text section with
       | Some t => Some (Teams.escapeText t)
       | None => None
       end.
Proof.
  split.
  { unfold Slack.attachment, Slack.set_attachments. cbn. now rewrite <- app_assoc. }
  split; [reflexivity |]. split; [reflexivity |].
  split.
  { unfold Teams.attachment, Teams.set_sections. cbn.
    now rewrite List.map_app, <- app_assoc. }
  split; [reflexivity |]. split; [reflexivity |].
  unfold Teams.escape_section.
  destruct (sec_text section) as [[|c t] |] eqn:E; cbn; rewrite ?E; repeat split.
Qed.
